(** * Shallow embedding of the BRI statement readers
    ([src/bri_streamlit_app.py] and [src/app.py]).

    Python strings are modelled as [list ascii] (the ASCII subset of
    Python's [str]); Python floats are modelled by the exact rational value
    of the decimal literal they are parsed from ([Q]), i.e. binary64
    rounding is abstracted away. *)

From Stdlib Require Import Ascii String List Bool Arith Lia ZArith QArith.
From Stdlib Require PrimFloat.
Import ListNotations.
Open Scope list_scope.

(* ================================================================= *)
(** ** Characters and Python string methods *)

Definition text := list ascii.

(** String literals of the source, as [text]. *)
Definition T (s : string) : text := list_ascii_of_string s.

Definition code (c : ascii) : nat := nat_of_ascii c.

(** [str.isspace] / regex [\s] on ASCII: \t \n \v \f \r, \x1c-\x1f, space. *)
Definition is_space (c : ascii) : bool :=
  let n := code c in ((9 <=? n) && (n <=? 13)) || ((28 <=? n) && (n <=? 32)).

Definition is_digit (c : ascii) : bool :=
  let n := code c in (48 <=? n) && (n <=? 57).

Definition is_upper (c : ascii) : bool :=
  let n := code c in (65 <=? n) && (n <=? 90).

Definition is_lower (c : ascii) : bool :=
  let n := code c in (97 <=? n) && (n <=? 122).

(** [str.isalpha] on one ASCII character. *)
Definition is_alpha (c : ascii) : bool := is_upper c || is_lower c.

(** Regex [\w] on ASCII. *)
Definition is_word (c : ascii) : bool :=
  is_alpha c || is_digit c || (c =? "_")%char.

Definition to_upper (c : ascii) : ascii :=
  if is_lower c then ascii_of_nat (code c - 32) else c.

Definition to_lower (c : ascii) : ascii :=
  if is_upper c then ascii_of_nat (code c + 32) else c.

(** [s.upper()] *)
Definition upper (s : text) : text := map to_upper s.

(** [s.isalpha()]: non-empty and all alphabetic. *)
Definition isalpha (s : text) : bool :=
  match s with [] => false | _ => forallb is_alpha s end.

Fixpoint text_eqb (a b : text) : bool :=
  match a, b with
  | [], [] => true
  | x :: a', y :: b' => (x =? y)%char && text_eqb a' b'
  | _, _ => false
  end.

Fixpoint prefixb (p s : text) : bool :=
  match p, s with
  | [], _ => true
  | x :: p', y :: s' => (x =? y)%char && prefixb p' s'
  | _ :: _, [] => false
  end.

(** [s.startswith(p)] *)
Definition startswith (s p : text) : bool := prefixb p s.

(** [needle in hay] *)
Fixpoint contains (needle hay : text) : bool :=
  prefixb needle hay ||
  match hay with [] => false | _ :: hay' => contains needle hay' end.

Fixpoint lstrip (s : text) : text :=
  match s with
  | c :: s' => if is_space c then lstrip s' else s
  | [] => []
  end.

(** [s.strip()] *)
Definition strip (s : text) : text := rev (lstrip (rev (lstrip s))).

Fixpoint split_ws_aux (s cur : text) : list text :=
  match s with
  | [] => match cur with [] => [] | _ => [rev cur] end
  | c :: s' =>
      if is_space c then
        match cur with
        | [] => split_ws_aux s' []
        | _ => rev cur :: split_ws_aux s' []
        end
      else split_ws_aux s' (c :: cur)
  end.

(** [s.split()] (no argument): split on runs of whitespace. *)
Definition split_ws (s : text) : list text := split_ws_aux s [].

Fixpoint split_on_aux (sep s cur : text) (skip : nat) : list text :=
  match s with
  | [] => [rev cur]
  | c :: s' =>
      match skip with
      | S k => split_on_aux sep s' cur k
      | O =>
          if prefixb sep s then rev cur :: split_on_aux sep s' [] (pred (length sep))
          else split_on_aux sep s' (c :: cur) O
      end
  end.

(** [s.split(sep)] for a non-empty separator. *)
Definition split_on (sep s : text) : list text := split_on_aux sep s [] O.

Fixpoint join (sep : text) (l : list text) : text :=
  match l with
  | [] => []
  | [x] => x
  | x :: l' => x ++ sep ++ join sep l'
  end.

(** [s.replace(c, "")] for a one-character [c]. *)
Definition remove_char (c : ascii) (s : text) : text :=
  filter (fun x => negb (x =? c)%char) s.

(** [s.replace(a, b)] for one-character [a] and [b]. *)
Definition replace_char (a b : ascii) (s : text) : text :=
  map (fun x => if (x =? a)%char then b else x) s.

(** [s.count(c)] for a one-character [c]. *)
Definition count_char (c : ascii) (s : text) : nat :=
  length (filter (fun x => (x =? c)%char) s).

Fixpoint rfind_aux (c : ascii) (s : text) (i : Z) (best : Z) : Z :=
  match s with
  | [] => best
  | x :: s' => rfind_aux c s' (i + 1) (if (x =? c)%char then i else best)
  end.

(** [s.rfind(c)]: last index of [c], or -1. *)
Definition rfind (c : ascii) (s : text) : Z := rfind_aux c s 0 (-1).

(* ================================================================= *)
(** ** Python [float()] on decimal literals *)

Fixpoint span_digits (s : text) : text * text :=
  match s with
  | c :: s' => if is_digit c then let (a, b) := span_digits s' in (c :: a, b)
               else ([], s)
  | [] => ([], [])
  end.

Definition digits_value (ds : text) : Z :=
  fold_left (fun acc c => acc * 10 + Z.of_nat (code c - 48))%Z ds 0%Z.

Definition unsigned_decimal (body : text) : option Q :=
  let (ip, rest) := span_digits body in
  match rest with
  | [] => match ip with [] => None | _ => Some (digits_value ip # 1) end
  | c :: r =>
      if (c =? ".")%char then
        let (fp, rest2) := span_digits r in
        match rest2, ip ++ fp with
        | [], [] => None
        | [], ds => Some (digits_value ds # Z.to_pos (10 ^ Z.of_nat (length fp)))
        | _, _ => None
        end
      else None
  end.

(** [float(s)]: [None] stands for the [ValueError].  The model covers the
    literal forms [sign? digits ('.' digits?)?] and [sign? '.' digits]
    after stripping whitespace; the exponent, [inf]/[nan] and underscore
    forms Python also accepts are outside it (they never reach [float()] from
    the numeric tokens the parsers select, which are made of digits, commas
    and periods or are fixed letter codes). *)
Definition py_float (s : text) : option Q :=
  match strip s with
  | c :: r =>
      if (c =? "-")%char then option_map Qopp (unsigned_decimal r)
      else if (c =? "+")%char then unsigned_decimal r
      else unsigned_decimal (c :: r)
  | [] => None
  end.

(** A [try: return float(s) except: return 0.0] block. *)
Definition float_or_zero (s : text) : Q :=
  match py_float s with Some q => q | None => 0 end.

(** [clean_amount] (both files; [app.py] writes [str(amount_str)]). *)
Definition clean_amount (amount_str : text) : Q :=
  match amount_str with
  | [] => 0
  | _ =>
    match strip amount_str with
    | [] => 0
    | _ =>
      let cleaned := filter (fun c => negb ((c =? ",")%char || is_space c)) amount_str in
      if contains (T ".") cleaned then
        let parts := split_on (T ".") cleaned in
        if (length parts =? 2) && (length (nth 1 parts []) =? 2)
        then float_or_zero cleaned
        else float_or_zero (remove_char "." cleaned)
      else float_or_zero cleaned
    end
  end.

(** [s.rsplit('.', 1)] when [s] contains a period. *)
Definition rsplit_dot (s : text) : text * text :=
  let i := Z.to_nat (rfind "." s) in (firstn i s, skipn (S i) s).

(** [parse_amount], the helper nested in [extract_personal_info] of
    [bri_streamlit_app.py] (balance-summary block). *)
Definition parse_amount (amount_str : text) : Q :=
  let s := strip amount_str in
  let s :=
    if contains (T ",") s && (rfind "," s >? rfind "." s)%Z then
      replace_char "," "." (remove_char "." s)
    else if contains (T ",") s then remove_char "," s
    else if 1 <? count_char "." s then
      let (ip, dp) := rsplit_dot s in remove_char "." ip ++ T "." ++ dp
    else s in
  float_or_zero s.

(* ================================================================= *)
(** ** Python [re]: a backtracking matcher over parsed patterns

    The regular expressions of the source are kept verbatim as Rocq
    strings and parsed by [compile] below; [m] is a continuation-passing
    backtracking matcher with Python's priorities (greedy or lazy
    repetition, left-first alternation, atomic lookahead). *)

Inductive regex :=
| RClass (neg : bool) (p : ascii -> bool)   (* a character or a [...] class *)
| RAny                                      (* . *)
| REps
| RSeq (r1 r2 : regex)
| RAlt (r1 r2 : regex)                      (* r1|r2 *)
| RRep (r : regex) (lo : nat) (hi : option nat) (greedy : bool)
| RGroup (n : nat) (r : regex)              (* capturing group n *)
| RLook (r : regex)                         (* (?=r) *)
| RBol                                      (* ^ *)
| REol                                      (* $ *)
| RWordB.                                   (* \b *)

Record flags := Flags { f_ci : bool; f_dotall : bool; f_multiline : bool }.

Definition NOFLAG := Flags false false false.
Definition IGNORECASE := Flags true false false.
Definition DOTALL := Flags false true false.
Definition IGNORECASE_DOTALL := Flags true true false.
Definition IGNORECASE_MULTILINE := Flags true false true.

Record mstate := MS { ms_pos : nat; ms_caps : list (nat * (nat * nat)) }.

Definition nl : ascii := "010".

Fixpoint rsize (r : regex) : nat :=
  match r with
  | RSeq a b | RAlt a b => S (rsize a + rsize b)
  | RRep a lo _ _ => S (S lo * S (rsize a))
  | RGroup _ a | RLook a => S (rsize a)
  | _ => 1
  end.

Section Engine.
Variable fl : flags.
Variable inp : text.

Definition class_ok (neg : bool) (p : ascii -> bool) (c : ascii) : bool :=
  xorb neg (p c || (f_ci fl && (p (to_lower c) || p (to_upper c)))).

Definition char_at (i : nat) : option ascii := nth_error inp i.

Definition word_at (i : nat) : bool :=
  match char_at i with Some c => is_word c | None => false end.

Definition prev_word (i : nat) : bool :=
  match i with O => false | S j => word_at j end.

Definition is_nl_at (i : nat) : bool :=
  match char_at i with Some c => (c =? nl)%char | None => false end.

Definition adv (st : mstate) : mstate := MS (S (ms_pos st)) (ms_caps st).

Fixpoint m (fuel : nat) (r : regex) (st : mstate)
         (k : mstate -> option mstate) : option mstate :=
  match fuel with
  | O => None
  | S f =>
    match r with
    | RClass neg p =>
        match char_at (ms_pos st) with
        | Some c => if class_ok neg p c then k (adv st) else None
        | None => None
        end
    | RAny =>
        match char_at (ms_pos st) with
        | Some c => if f_dotall fl || negb (c =? nl)%char then k (adv st) else None
        | None => None
        end
    | REps => k st
    | RSeq r1 r2 => m f r1 st (fun st' => m f r2 st' k)
    | RAlt r1 r2 =>
        match m f r1 st k with Some x => Some x | None => m f r2 st k end
    | RRep r1 lo hi g =>
        match lo with
        | S lo' => m f r1 st (fun st' => m f (RRep r1 lo' (option_map pred hi) g) st' k)
        | O =>
          match hi with
          | Some O => k st
          | _ =>
            let more (_ : unit) :=
              m f r1 st (fun st' =>
                if ms_pos st' =? ms_pos st then None
                else m f (RRep r1 O (option_map pred hi) g) st' k) in
            if g then match more tt with Some x => Some x | None => k st end
            else match k st with Some x => Some x | None => more tt end
          end
        end
    | RGroup n r1 =>
        m f r1 st (fun st' =>
          k (MS (ms_pos st') ((n, (ms_pos st, ms_pos st')) :: ms_caps st')))
    | RLook r1 =>
        match m f r1 st (fun st' => Some st') with
        | Some _ => k st
        | None => None
        end
    | RBol =>
        if (ms_pos st =? 0) || (f_multiline fl && is_nl_at (pred (ms_pos st)))
        then k st else None
    | REol =>
        let n := length inp in
        if (ms_pos st =? n) || ((S (ms_pos st) =? n) && is_nl_at (ms_pos st))
           || (f_multiline fl && is_nl_at (ms_pos st))
        then k st else None
    | RWordB =>
        if xorb (prev_word (ms_pos st)) (word_at (ms_pos st)) then k st else None
    end
  end.

(** The fuel bounds the nesting of the matcher, which grows by at most the
    pattern size per consumed character. *)
Definition fuel_for (r : regex) : nat := 8 * (length inp + 2) * (rsize r + 2).

Definition match_at (r : regex) (i : nat) : option mstate :=
  m (fuel_for r) r (MS i []) (fun st => Some st).

Record rmatch := RM { mt_start : nat; mt_end : nat; mt_caps : list (nat * (nat * nat)) }.

Fixpoint search_from (r : regex) (i : nat) (steps : nat) : option rmatch :=
  match match_at r i with
  | Some st => Some (RM i (ms_pos st) (ms_caps st))
  | None => match steps with O => None | S s => search_from r (S i) s end
  end.

Definition substr (i j : nat) : text := firstn (j - i) (skipn i inp).

(** [m.group(n)]; [None] for a group that did not take part. *)
Definition group (mt : rmatch) (n : nat) : option text :=
  match n with
  | O => Some (substr (mt_start mt) (mt_end mt))
  | _ => match find (fun e => fst e =? n) (mt_caps mt) with
         | Some (_, (i, j)) => Some (substr i j)
         | None => None
         end
  end.

(** [re.sub(pattern, repl, s)], left to right over non-overlapping
    matches. *)
Fixpoint sub_from (r : regex) (repl : text) (i : nat) (steps : nat) : text :=
  match steps with
  | O => []
  | S s =>
    match match_at r i with
    | Some st =>
        if i <? ms_pos st then repl ++ sub_from r repl (ms_pos st) s
        else repl ++ match char_at i with
                     | Some c => c :: sub_from r repl (S i) s
                     | None => []
                     end
    | None => match char_at i with
              | Some c => c :: sub_from r repl (S i) s
              | None => []
              end
    end
  end.

End Engine.

(** *** Parsing the pattern strings *)

Definition esc_class (e : ascii) : option (ascii -> bool) :=
  if (e =? "d")%char then Some is_digit
  else if (e =? "s")%char then Some is_space
  else if (e =? "w")%char then Some is_word
  else None.

Definition esc_char (e : ascii) : ascii :=
  if (e =? "n")%char then nl else if (e =? "t")%char then "009"%char else e.

Definition lit (c : ascii) : regex := RClass false (fun x => (x =? c)%char).

(** One element of a [...] class: a class escape or a single character. *)
Definition class_elem (s : text) : option ((ascii -> bool) + ascii) * text :=
  match s with
  | c :: s' =>
      if (c =? "\")%char then
        match s' with
        | e :: s'' => match esc_class e with
                      | Some p => (Some (inl p), s'')
                      | None => (Some (inr (esc_char e)), s'')
                      end
        | [] => (None, [])
        end
      else (Some (inr c), s')
  | [] => (None, [])
  end.

Fixpoint parse_class (fuel : nat) (s : text) (acc : ascii -> bool)
  : option ((ascii -> bool) * text) :=
  match fuel with
  | O => None
  | S f =>
    match s with
    | c :: s' =>
      if (c =? "]")%char then Some (acc, s')
      else
        match class_elem s with
        | (Some (inl p), rest) => parse_class f rest (fun x => acc x || p x)
        | (Some (inr a), rest) =>
            match rest with
            | d :: rest' =>
                if (d =? "-")%char && negb (prefixb (T "]") rest') then
                  match class_elem rest' with
                  | (Some (inr b), rest'') =>
                      parse_class f rest''
                        (fun x => acc x || ((code a <=? code x) && (code x <=? code b)))
                  | _ => None
                  end
                else parse_class f rest (fun x => acc x || (x =? a)%char)
            | [] => None
            end
        | (None, _) => None
        end
    | [] => None
    end
  end.

Definition parse_nat (s : text) : option (nat * text) :=
  let (ds, rest) := span_digits s in
  match ds with [] => None | _ => Some (Z.to_nat (digits_value ds), rest) end.

(** A quantifier after an atom: [* + ? {n} {n,} {n,m}], optionally lazy. *)
Definition parse_quant (a : regex) (s : text) : regex * text :=
  let q : option ((nat * option nat) * text) :=
    match s with
    | c :: r =>
      if (c =? "*")%char then Some ((0%nat, None), r)
      else if (c =? "+")%char then Some ((1%nat, None), r)
      else if (c =? "?")%char then Some ((0%nat, Some 1%nat), r)
      else if (c =? "{")%char then
        match parse_nat r with
        | Some (n, r1) =>
          match r1 with
          | d :: r2 =>
            if (d =? "}")%char then Some ((n, Some n), r2)
            else if (d =? ",")%char then
              match r2 with
              | e :: r3 =>
                if (e =? "}")%char then Some ((n, None), r3)
                else match parse_nat r2 with
                     | Some (k, x :: r4) =>
                         if (x =? "}")%char then Some ((n, Some k), r4) else None
                     | _ => None
                     end
              | [] => None
              end
            else None
          | [] => None
          end
        | None => None
        end
      else None
    | [] => None
    end in
  match q with
  | None => (a, s)
  | Some ((lo, hi), rest) =>
      match rest with
      | c :: rest' => if (c =? "?")%char then (RRep a lo hi false, rest')
                      else (RRep a lo hi true, rest)
      | [] => (RRep a lo hi true, rest)
      end
  end.

Fixpoint parse_alt (fuel : nat) (s : text) (g : nat) : option (regex * text * nat) :=
  match fuel with
  | O => None
  | S f =>
    match parse_seq f s g REps with
    | Some (r1, rest, g1) =>
        match rest with
        | c :: rest' =>
            if (c =? "|")%char then
              match parse_alt f rest' g1 with
              | Some (r2, rest2, g2) => Some (RAlt r1 r2, rest2, g2)
              | None => None
              end
            else Some (r1, rest, g1)
        | [] => Some (r1, rest, g1)
        end
    | None => None
    end
  end
with parse_seq (fuel : nat) (s : text) (g : nat) (acc : regex) : option (regex * text * nat) :=
  match fuel with
  | O => None
  | S f =>
    match s with
    | [] => Some (acc, [], g)
    | c :: _ =>
      if (c =? ")")%char || (c =? "|")%char then Some (acc, s, g)
      else match parse_atom f s g with
           | Some (a, rest, g1) =>
               let (a', rest') := parse_quant a rest in
               parse_seq f rest' g1 (RSeq acc a')
           | None => None
           end
    end
  end
with parse_atom (fuel : nat) (s : text) (g : nat) : option (regex * text * nat) :=
  match fuel with
  | O => None
  | S f =>
    let close (r : option (regex * text * nat)) (wrap : regex -> regex) :=
      match r with
      | Some (body, c :: rest, g1) =>
          if (c =? ")")%char then Some (wrap body, rest, g1) else None
      | _ => None
      end in
    match s with
    | c :: s' =>
      if (c =? "(")%char then
        if prefixb (T "?:") s' then close (parse_alt f (skipn 2 s') g) (fun b => b)
        else if prefixb (T "?=") s' then close (parse_alt f (skipn 2 s') g) RLook
        else close (parse_alt f s' (S g)) (RGroup (S g))
      else if (c =? "[")%char then
        let '(neg, body) := match s' with
                            | x :: r => if (x =? "^")%char then (true, r) else (false, s')
                            | [] => (false, s')
                            end in
        match parse_class f body (fun _ => false) with
        | Some (p, rest) => Some (RClass neg p, rest, g)
        | None => None
        end
      else if (c =? ".")%char then Some (RAny, s', g)
      else if (c =? "^")%char then Some (RBol, s', g)
      else if (c =? "$")%char then Some (REol, s', g)
      else if (c =? "\")%char then
        match s' with
        | e :: r =>
            if (e =? "b")%char then Some (RWordB, r, g)
            else match esc_class e with
                 | Some p => Some (RClass false p, r, g)
                 | None => Some (lit (esc_char e), r, g)
                 end
        | [] => None
        end
      else Some (lit c, s', g)
    | [] => None
    end
  end.

Definition compile (pat : string) : option regex :=
  let s := T pat in
  match parse_alt (3 * length s + 5) s 0 with
  | Some (r, [], _) => Some r
  | _ => None
  end.

(** [re.compile] would raise on a malformed pattern; every pattern of the
    source compiles (checked below), so that case is a never-matching
    pattern here. *)
Definition rx (pat : string) : regex :=
  match compile pat with Some r => r | None => RClass false (fun _ => false) end.

Definition compiles (pat : string) : bool :=
  match compile pat with Some _ => true | None => false end.

(** [re.search(pat, s, flags)] *)
Definition re_search (pat : string) (fl : flags) (s : text) : option rmatch :=
  search_from fl s (rx pat) 0 (length s).

(** [re.match(pat, s, flags)] *)
Definition re_match (pat : string) (fl : flags) (s : text) : option rmatch :=
  match match_at fl s (rx pat) 0 with
  | Some st => Some (RM 0 (ms_pos st) (ms_caps st))
  | None => None
  end.

(** [re.sub(pat, repl, s, flags=fl)] *)
Definition re_sub (pat : string) (repl : text) (fl : flags) (s : text) : text :=
  sub_from fl s (rx pat) repl 0 (S (length s)).

Definition grp (s : text) (mt : rmatch) (n : nat) : text :=
  match group s mt n with Some t => t | None => [] end.

Definition is_some {A} (o : option A) : bool := match o with Some _ => true | None => false end.

(* ================================================================= *)
(** ** Transaction records and the line scan shared by the parsers *)

(** A row of [extract_transactions] (e-statement format). *)
Record e_txn := ETxn {
  e_tanggal : text; e_waktu : text; e_deskripsi : text; e_teller_id : text;
  e_debit : Q; e_kredit : Q; e_saldo : Q }.

(** A row of [extract_cms_transactions] (CMS format). *)
Record c_txn := CTxn {
  c_date : text; c_remark : text; c_debit : Q; c_credit : Q; c_saldo : Q }.

(** [parts[i:j]] for [0 <= i]. *)
Definition slice {A} (l : list A) (i j : nat) : list A := firstn (j - i) (skipn i l).

(** The loop
    [for i in range(len(parts) - 1, -1, -1): if ok(parts[i]):
       numeric_parts.insert(0, parts[i]); if len(numeric_parts) == 4: break],
    run over the reversed token list. *)
Fixpoint scan_back (ok : text -> bool) (rparts : list text) (acc : list text) : list text :=
  match rparts with
  | [] => acc
  | p :: ps =>
      if ok p then
        if length (p :: acc) =? 4 then p :: acc else scan_back ok ps (p :: acc)
      else scan_back ok ps acc
  end.

Definition numeric_parts (ok : text -> bool) (parts : list text) : list text :=
  scan_back ok (rev parts) [].

Definition option_list {A} (o : option A) : list A :=
  match o with Some x => [x] | None => [] end.

(* ================================================================= *)
(** ** [src/bri_streamlit_app.py]: transaction parsers *)

Module Bri.

Definition anchor (line : text) : bool :=
  is_some (re_match "^\d{2}/\d{2}/\d{2}\s+\d{2}:\d{2}:\d{2}" NOFLAG line).

(** [re.match(r'^[\d,\.]+$', part)] on a whitespace-free token. *)
Definition numeric_shaped (p : text) : bool :=
  match p with
  | [] => false
  | _ => forallb (fun c => is_digit c || (c =? ",")%char || (c =? ".")%char) p
  end.

(** [re.match(r'^\d{7}$', part)] on a whitespace-free token. *)
Definition seven_digits (p : text) : bool := (length p =? 7) && forallb is_digit p.

Definition e_numeric (p : text) : bool := numeric_shaped p || seven_digits p.

(** One line of the loop of [extract_transactions]. *)
Definition e_line (line : text) : option e_txn :=
  let line := strip line in
  match line with
  | [] => None
  | _ =>
    if anchor line then
      let parts := split_ws line in
      if 7 <=? length parts then
        match numeric_parts e_numeric parts with
        | [teller_id; d; c; b] =>
            let description := join (T " ") (slice parts 2 (length parts - 4)) in
            Some (ETxn (nth 0 parts []) (nth 1 parts []) (strip description) teller_id
                       (clean_amount d) (clean_amount c) (clean_amount b))
        | _ => None
        end
      else None
    else None
  end.

Definition extract_transactions (txt : text) : list e_txn :=
  flat_map (fun l => option_list (e_line l)) (split_on [nl] txt).

Definition cms_numeric (p : text) : bool :=
  numeric_shaped p || seven_digits p ||
  existsb (text_eqb p) (map T ["CMSPYRL"; "BRI0372"; "BRIMDBT"]%string).

(** One line of the loop of [extract_cms_transactions]. *)
Definition cms_line (line : text) : option c_txn :=
  let line := strip line in
  match line with
  | [] => None
  | _ =>
    if anchor line then
      let parts := split_ws line in
      if 6 <=? length parts then
        let np := numeric_parts cms_numeric parts in
        if 4 <=? length np then
          let debet_str := nth 0 np [] in
          let credit_str := nth 1 np [] in
          let ledger_str := nth 2 np [] in
          let debet := if text_eqb debet_str (T "0.00") then 0 else clean_amount debet_str in
          let credit := if text_eqb credit_str (T "0.00") then 0 else clean_amount credit_str in
          let ledger := clean_amount ledger_str in
          let remark := if 2 <? length parts - 4
                        then strip (join (T " ") (slice parts 2 (length parts - 4)))
                        else [] in
          Some (CTxn (nth 0 parts []) remark debet credit ledger)
        else None
      else None
    else None
  end.

Definition extract_cms_transactions (txt : text) : list c_txn :=
  flat_map (fun l => option_list (cms_line l)) (split_on [nl] txt).

End Bri.

(* ================================================================= *)
(** ** [src/bri_streamlit_app.py]: counterparty attribution *)

(** [[w for w in s.split() if w.isalpha() and len(w) >= 2]] *)
Definition alpha_words (s : text) : list text :=
  filter (fun w => isalpha w && (2 <=? length w)) (split_ws s).

Definition nonempty (s : text) : bool := match s with [] => false | _ => true end.

Definition join_sp (l : list text) : text := join (T " ") l.

Module BriPartner.

Definition skip_keywords : list text :=
  map T ["BIAYA"; "ADM"; "BUNGA"; "PAJAK"; "KLIRING"; "TARIK TUNAI";
         "SETORAN"; "BI-FAST"; "BPJS"; "TAX"; "INTEREST";
         "Fee"; "SINGLE CN"; "POLLING"; "REWARD"; "CLAIM"; "BPJS TK"; "BPJS KESEHATAN"]%string.

(** The [for line in lines] loop of the BM5/BM6 branch. *)
Fixpoint bm_loop (lines : list text) (esb_found : bool) (company_words : list text)
  : list text :=
  match lines with
  | [] => company_words
  | line :: rest =>
      if startswith line (T "ESB:") then bm_loop rest true company_words
      else if is_some (re_match "^BM\d+\s+\d+\s+\d+" NOFLAG line) then
        match re_search "BM\d+\s+\d+\s+\d+\s+(.+)" NOFLAG line with
        | Some bm_match =>
            let company_part := strip (grp line bm_match 1) in
            bm_loop rest esb_found (company_words ++ alpha_words company_part)
        | None => bm_loop rest esb_found company_words
        end
      else if negb esb_found then
        bm_loop rest esb_found (company_words ++ alpha_words line)
      else bm_loop rest esb_found company_words
  end.

Definition bfst_names (names : list text) : option text :=
  find (fun n => nonempty n && (3 <=? length n))
       (map (fun name => strip (filter (fun c => is_alpha c || is_space c) name)) names).

Definition stop_words : list text := map T ["THE"; "AND"; "OR"; "TO"; "FROM"; "FOR"; "WITH"]%string.

Definition extract_partner_name_bri (description : text) : option text :=
  match description with
  | [] => None
  | _ =>
  if existsb (fun k => contains k (upper description)) skip_keywords then None else
  let cleaned := strip description in
  let bm_result :=
    if is_some (re_search "BM\d+" NOFLAG cleaned) then
      let lines := filter nonempty (map strip (split_on [nl] cleaned)) in
      match bm_loop lines false [] with
      | [] => None
      | company_words => Some (join_sp company_words)
      end
    else None in
  match bm_result with
  | Some r => Some r
  | None =>
  let U := upper cleaned in
  if contains (T "NBMB") U then
    match re_search "NBMB\s+(.*?)\s+TO\s+(.*?)(?:\n|ESB:|$)" IGNORECASE_DOTALL cleaned with
    | Some mt =>
        let receiver := strip (grp cleaned mt 2) in
        let sender := strip (grp cleaned mt 1) in
        Some (if nonempty receiver then receiver else sender)
    | None => None
    end
  else if contains (T "WBNKTRF") U then
    let after_wbnk := re_sub "WBNKTRF\w+" [] IGNORECASE cleaned in
    let after_wbnk := re_sub "ESB:.*" [] DOTALL after_wbnk in
    match alpha_words after_wbnk with [] => None | words => Some (join_sp words) end
  else if contains (T "BFST") U then
    let bfst_content := re_sub "BFST\d+" [] IGNORECASE cleaned in
    let bfst_content := re_sub "ESB:.*" [] DOTALL bfst_content in
    let bfst_content := re_sub "\d{8,}" [] NOFLAG bfst_content in
    if contains (T ":") bfst_content then bfst_names (split_on (T ":") bfst_content)
    else match alpha_words bfst_content with [] => None | words => Some (join_sp words) end
  else if existsb (fun b => contains b U) (map T ["BCA"; "BNI"; "MANDIRI"; "DANAMON"]%string) then
    match re_search "(.*?)(?:-BANK|-BCA|-BNI|-MANDIRI|-DANAMON)" IGNORECASE_DOTALL cleaned with
    | Some bank_match =>
        let company_part := strip (grp cleaned bank_match 1) in
        let company_part := re_sub "^(PT\s+)?" [] IGNORECASE company_part in
        match alpha_words company_part with [] => None | words => Some (join_sp words) end
    | None => None
    end
  else if contains (T "IBIZ") U then
    if contains (T " TO ") U then
      let parts := split_on (T " TO ") cleaned in
      if 1 <? length parts then
        let receiver_part := strip (nth 0 (split_on (T "ESB:") (nth 1 parts [])) []) in
        match alpha_words receiver_part with
        | [] => None
        | words => Some (join_sp (firstn 4 words))
        end
      else None
    else None
  else if contains (T "PAYROLL") U then Some (T "PAYROLL")
  else if contains (T "SETOR") U && contains (T "PENJUALAN") U then Some (T "PENJUALAN INTERNAL")
  else
    let general_clean := re_sub "ESB:.*" [] DOTALL cleaned in
    let general_clean := re_sub "\b\d{7,}\b" [] NOFLAG general_clean in
    let general_clean := re_sub "\b[A-Z]{2,}\d+[A-Z]*\b" [] NOFLAG general_clean in
    let words := alpha_words general_clean in
    let filtered_words :=
      filter (fun w => negb (existsb (text_eqb (upper w)) stop_words)) words in
    if 2 <=? length filtered_words then Some (join_sp (firstn 4 filtered_words)) else None
  end
  end.

End BriPartner.

(* ================================================================= *)
(** ** DataFrames and partner analytics (same code in both files)

    A transactions DataFrame is its list of column names and its rows; a
    row keeps the cells of the description, debit and credit columns of
    its format and, once enriched, [partner_name], [transaction_type] and
    [amount]. *)

Record row := Row {
  r_desc : text; r_debit : Q; r_credit : Q;
  r_partner : option text; r_type : text; r_amount : Q }.

Record frame := Frame { cols : list text; rows : list row }.

(** [df.empty] *)
Definition frame_empty (f : frame) : bool :=
  match rows f, cols f with [], _ | _, [] => true | _, _ => false end.

Definition mem (c : text) (l : list text) : bool := existsb (text_eqb c) l.

(** [df[c] = ...] on a column that may already exist. *)
Definition add_col (c : text) (l : list text) : list text :=
  if mem c l then l else l ++ [c].

Definition qlt (x y : Q) : bool := negb (Qle_bool y x).

Definition e_cols : list text :=
  map T ["tanggal"; "waktu"; "deskripsi"; "teller_id"; "debit"; "kredit"; "saldo"]%string.
Definition c_cols : list text := map T ["Date"; "Remark"; "Debit"; "Credit"; "Saldo"]%string.

(** [pd.DataFrame(transactions)] for each parser's list of dicts. *)
Definition frame_of_e (l : list e_txn) : frame :=
  match l with
  | [] => Frame [] []
  | _ => Frame e_cols (map (fun t => Row (e_deskripsi t) (e_debit t) (e_kredit t) None [] 0) l)
  end.
Definition frame_of_c (l : list c_txn) : frame :=
  match l with
  | [] => Frame [] []
  | _ => Frame c_cols (map (fun t => Row (c_remark t) (c_debit t) (c_credit t) None [] 0) l)
  end.

Inductive bri_format := CMS | E_STATEMENT | UNKNOWN.

Definition detect_bri_format (cs : list text) : bri_format :=
  if mem (T "Remark") cs then CMS
  else if mem (T "deskripsi") cs then E_STATEMENT
  else UNKNOWN.

(** The [transaction_type] lambda. *)
Definition transaction_type (debit credit : Q) : text :=
  if qlt 0 debit then T "DEBIT" else if qlt 0 credit then T "CREDIT" else T "UNKNOWN".

(** One row of the [groupby(['partner_name', 'transaction_type'])] aggregate. *)
Record gsum := GSum {
  g_partner : text; g_type : text; g_debit : Q; g_credit : Q; g_amount : Q; g_count : nat }.

(** One row of [create_partner_summary_table]. *)
Record psum := PSum {
  ps_partner : text; ps_credit : Q; ps_debit : Q;
  ps_ccount : nat; ps_dcount : nat; ps_total : nat }.

(** One row of [create_partner_statistics_summary]. *)
Record stats := Stats {
  st_no_credit : nat; st_no_debit : nat; st_credit_amount : Q; st_debit_amount : Q;
  st_partners : nat; st_top_partner : text; st_top_amount : Q }.

(** First result of [analyze_bri_partners_unified]: the (enriched)
    transactions frame, or the per-(partner, direction) aggregate with its
    columns. *)
Inductive result1 := RFrame (f : frame) | RGroups (cs : list text) (gs : list gsum).

Fixpoint text_ltb (a b : text) : bool :=
  match a, b with
  | [], [] => false
  | [], _ :: _ => true
  | _ :: _, [] => false
  | x :: a', y :: b' =>
      if code x <? code y then true else if code y <? code x then false else text_ltb a' b'
  end.

Fixpoint insert_sorted {A} (lt : A -> A -> bool) (x : A) (l : list A) : list A :=
  match l with
  | [] => [x]
  | y :: l' => if lt x y then x :: l else y :: insert_sorted lt x l'
  end.

(** Python's [sorted] on distinct keys. *)
Definition sort_by {A} (lt : A -> A -> bool) (l : list A) : list A :=
  fold_right (insert_sorted lt) [] l.

(** Strings in code-point order. *)
Definition sort_texts (l : list text) : list text := sort_by text_ltb l.

(** Pairs of strings in lexicographic (tuple) order. *)
Definition pair_ltb (a b : text * text) : bool :=
  text_ltb (fst a) (fst b) || (text_eqb (fst a) (fst b) && text_ltb (snd a) (snd b)).

Definition pair_eqb (a b : text * text) : bool := text_eqb (fst a) (fst b) && text_eqb (snd a) (snd b).

Fixpoint unique_pairs (l : list (text * text)) : list (text * text) :=
  match l with
  | [] => []
  | x :: l' => x :: filter (fun y => negb (pair_eqb x y)) (unique_pairs l')
  end.

(** [Series.unique()]: distinct values in order of first appearance. *)
Fixpoint unique (l : list text) : list text :=
  match l with
  | [] => []
  | x :: l' => x :: filter (fun y => negb (text_eqb x y)) (unique l')
  end.

Fixpoint ins_desc {A} (key : A -> Q) (x : A) (l : list A) : list A :=
  match l with
  | [] => [x]
  | y :: l' => if qlt (key y) (key x) then x :: l else y :: ins_desc key x l'
  end.

(** [sort_values(key, ascending=False)]; rows with equal keys keep their
    order (numpy's quicksort sorts arrays of up to 16 rows by insertion). *)
Definition sort_desc {A} (key : A -> Q) (l : list A) : list A :=
  fold_left (fun acc x => ins_desc key x acc) l [].

Definition qsum {A} (f : A -> Q) (l : list A) : Q := fold_right (fun x acc => f x + acc) 0 l.

Definition count_pos {A} (f : A -> Q) (l : list A) : nat :=
  length (filter (fun x => qlt 0 (f x)) l).

Definition attributed (r : row) : bool := is_some (r_partner r).

Definition partner_is (p : text) (r : row) : bool :=
  match r_partner r with Some q => text_eqb q p | None => false end.

(** Debit and credit column names, as detected in
    [create_partner_summary_table] and [create_partner_statistics_summary]. *)
Definition amount_cols_known (cs : list text) : bool :=
  (mem (T "Debit") cs && mem (T "Credit") cs) || (mem (T "debit") cs && mem (T "kredit") cs).

Definition create_partner_summary_table (partner_df : frame) : list psum :=
  if frame_empty partner_df || negb (mem (T "partner_name") (cols partner_df)) then [] else
  let partner_transactions := filter attributed (rows partner_df) in
  match partner_transactions with
  | [] => []
  | _ =>
    if negb (amount_cols_known (cols partner_df)) then [] else
    let summary_data :=
      map (fun partner =>
             let partner_data := filter (partner_is partner) partner_transactions in
             PSum partner (qsum r_credit partner_data) (qsum r_debit partner_data)
                  (count_pos r_credit partner_data) (count_pos r_debit partner_data)
                  (length partner_data))
          (unique (flat_map (fun r => option_list (r_partner r)) partner_transactions)) in
    sort_desc (fun p => ps_credit p + ps_debit p) summary_data
  end.

(** [idxmax]: the first row holding the maximum. *)
Fixpoint first_max {A} (key : A -> Q) (best : A) (l : list A) : A :=
  match l with
  | [] => best
  | x :: l' => first_max key (if qlt (key best) (key x) then x else best) l'
  end.

(** [create_partner_statistics_summary] over the partner, debit and credit
    cells of its input frame; [None] is the empty DataFrame. *)
Definition partner_statistics (cs : list text) (rs : list (option text * Q * Q)) : option stats :=
  match rs with [] => None | _ =>
  if negb (mem (T "partner_name") cs) then None else
  let pt := flat_map (fun '(p, d, c) => match p with Some n => [(n, d, c)] | None => [] end) rs in
  match pt with [] => None | _ =>
  if negb (amount_cols_known cs) then None else
  let debit (x : text * Q * Q) := let '(_, d, _) := x in d in
  let credit (x : text * Q * Q) := let '(_, _, c) := x in c in
  let names := map (fun '(n, _, _) => n) pt in
  let partner_volumes :=
    map (fun n => let p := filter (fun x => text_eqb (fst (fst x)) n) pt in
                  (n, qsum debit p + qsum credit p))
        (sort_texts (unique names)) in
  let top := first_max snd (hd ([], 0) partner_volumes) (tl partner_volumes) in
  Some (Stats (count_pos credit pt) (count_pos debit pt) (qsum credit pt) (qsum debit pt)
              (length (unique names)) (fst top) (snd top))
  end end.

Definition create_partner_statistics_summary (partner_df : result1) : option stats :=
  match partner_df with
  | RFrame f =>
      if frame_empty f then None
      else partner_statistics (cols f) (map (fun r => (r_partner r, r_debit r, r_credit r)) (rows f))
  | RGroups cs gs => partner_statistics cs (map (fun g => (Some (g_partner g), g_debit g, g_credit g)) gs)
  end.

Section Analyze.
(** The module's [extract_partner_name_bri]. *)
Variable attribute : text -> option text.

Definition enrich (f : frame) : frame :=
  Frame (add_col (T "amount") (add_col (T "transaction_type") (add_col (T "partner_name") (cols f))))
        (map (fun r => Row (r_desc r) (r_debit r) (r_credit r) (attribute (r_desc r))
                           (transaction_type (r_debit r) (r_credit r)) (r_debit r + r_credit r))
             (rows f)).

(** [groupby(['partner_name', 'transaction_type']).agg(...)]: keys in
    sorted order. *)
Definition group_partner_type (pt : list row) : list gsum :=
  let key (r : row) := (match r_partner r with Some p => p | None => [] end, r_type r) in
  map (fun k =>
         let g := filter (fun r => pair_eqb (key r) k) pt in
         GSum (fst k) (snd k) (qsum r_debit g) (qsum r_credit g) (qsum r_amount g) (length g))
    (sort_by pair_ltb (unique_pairs (map key pt))).

(** [analyze_bri_partners_unified]; [None] is the [KeyError] raised when the
    detected format's debit or credit column is missing. *)
Definition analyze_bri_partners_unified (transactions_df : frame) : option (result1 * list psum) :=
  if frame_empty transactions_df then Some (RFrame transactions_df, []) else
  let format_type := detect_bri_format (cols transactions_df) in
  let cols_of := match format_type with
                 | CMS => Some (T "Debit", T "Credit")
                 | E_STATEMENT => Some (T "debit", T "kredit")
                 | UNKNOWN => None
                 end in
  match cols_of with
  | None => Some (RFrame transactions_df, [])
  | Some (debit_col, credit_col) =>
    if negb (mem debit_col (cols transactions_df) && mem credit_col (cols transactions_df))
    then None else
    let df := enrich transactions_df in
    let partner_transactions := filter attributed (rows df) in
    match partner_transactions with
    | [] => Some (RFrame df, [])
    | _ =>
      let partner_summary := sort_desc g_amount (group_partner_type partner_transactions) in
      let gcols := [T "partner_name"; T "transaction_type"; debit_col; credit_col;
                    T "amount"; T "transaction_count"] in
      Some (RGroups gcols partner_summary, create_partner_summary_table df)
    end
  end.

End Analyze.

(* ================================================================= *)
(** ** Header parsers and orchestrators *)

(** Python exceptions that reach the callers. *)
Inductive exn := NameError (name : string) | KeyError (key : string).

Inductive res (A : Type) := Ok (a : A) | Raise (e : exn).
Arguments Ok {A} a.
Arguments Raise {A} e.

(** A dict of strings or [None], in insertion order. *)
Definition sdict := list (text * option text).

(** [d[k] = v]: an existing key keeps its position. *)
Definition dset {V} (k : text) (v : V) (d : list (text * V)) : list (text * V) :=
  if existsb (fun e => text_eqb (fst e) k) d
  then map (fun e => if text_eqb (fst e) k then (k, v) else e) d
  else d ++ [(k, v)].

Definition keys {V} (d : list (text * V)) : list text := map fst d.

(** [for pattern in patterns: m = re.search(pattern, s, fl); if m: ...; break] *)
Fixpoint first_search (pats : list string) (fl : flags) (s : text) : option (string * rmatch) :=
  match pats with
  | [] => None
  | p :: ps => match re_search p fl s with
               | Some mt => Some (p, mt)
               | None => first_search ps fl s
               end
  end.

(** Number of capturing groups of a pattern ([len(m.groups())]). *)
Definition ngroups (pat : string) : nat :=
  let s := T pat in
  match parse_alt (3 * length s + 5) s 0 with Some (_, _, g) => g | None => 0 end.

Definition strip_opt (o : option text) : option text := option_map strip o.

Module BriHeader.

(** Names bound at module level in [bri_streamlit_app.py] (imports and
    [def]s); a free name outside this list raises [NameError]. *)
Definition module_globals : list string :=
  ["re"; "json"; "pd"; "pdfplumber"; "os"; "glob"; "st"; "Dict"; "List"; "Tuple";
   "datetime"; "defaultdict"; "io"; "read_pdf_to_text"; "extract_filename_id";
   "clean_amount"; "extract_cms_account_info"; "extract_cms_transactions";
   "extract_cms_summary"; "extract_personal_info"; "extract_transactions";
   "extract_partner_name_bri"; "detect_bri_format"; "analyze_bri_partners_unified";
   "create_partner_summary_table"; "create_partner_statistics_summary";
   "parse_bri_statement"]%string.

Definition lookup_global (n : string) : res unit :=
  if existsb (String.eqb n) module_globals then Ok tt else Raise (NameError n).

Definition account_patterns : list string :=
  ["Account\s+No\s*:?\s*(\d{4}-\d{2}-\d{6}-\d{2}-\d)";
   "Account\s+No\s*:?\s*(\d+)";
   "Account\s+No\s*\n*\s*:?\s*(\d{4}-\d{2}-\d{6}-\d{2}-\d)";
   "Account\s+No\s*\n*\s*(\d+)"]%string.

Definition name_patterns : list string :=
  ["Account\s+Name\s*:?\s*([A-Z][A-Z\s&\.]+?)(?=\s*Today\s*Hold|\s*Period|\s*Account\s*Status)";
   "Account\s+Name\s*\n*\s*:?\s*([A-Z][A-Z\s&\.]+?)(?=\s*Today|\s*Period|\s*Account\s*Status)";
   "Account\s+Name\s+([A-Z][A-Z\s&\.]+?)(?=\s*Today|\s*Period|\s*Account\s*Status)";
   "Account\s+Name\s*:?\s*(PT\s+[A-Z\s]+)";
   "Account\s+Name\s*:?\s*([A-Z][A-Z\s&\.PT]+)";
   "Account\s+Name\s*:?\s*([A-Z\s&\.PT]+?)(?=\s*\n|\s*Today|\s*Period|\s*Account)"]%string.

Definition period_patterns : list string :=
  ["Period\s*:?\s*(\d{2}/\d{2}/\d{4})\s*-\s*(\d{2}/\d{2}/\d{4})";
   "Period\s*\n*\s*:?\s*(\d{2}/\d{2}/\d{4})\s*-\s*(\d{2}/\d{2}/\d{4})"]%string.

Definition cms_info_init : sdict :=
  [(T "Bank", Some (T "BRI")); (T "Account Name", None); (T "Account Number", None);
   (T "Start Period", None); (T "End Period", None)].

(** The body of [extract_cms_account_info] after its first statement: the
    three template lists (the [if not account_info] fallback that follows
    is dead, the dict is never empty). *)
Definition cms_account_templates (txt : text) : sdict :=
  let d := cms_info_init in
  let d := match first_search account_patterns IGNORECASE_DOTALL txt with
           | Some (_, mt) => dset (T "Account Number") (Some (strip (grp txt mt 1))) d
           | None => d end in
  let d := match first_search name_patterns IGNORECASE_DOTALL txt with
           | Some (_, mt) => dset (T "Account Name") (Some (strip (grp txt mt 1))) d
           | None => d end in
  match first_search period_patterns IGNORECASE_DOTALL txt with
  | Some (_, mt) => dset (T "End Period") (group txt mt 2)
                      (dset (T "Start Period") (group txt mt 1) d)
  | None => d
  end.

(** [extract_cms_account_info]: its first statement,
    [lines = clean_statement_lines(text)], looks up a name that the module
    never defines. *)
Definition extract_cms_account_info (txt : text) : res sdict :=
  match lookup_global "clean_statement_lines" with
  | Raise e => Raise e
  | Ok _ => Ok (cms_account_templates txt)
  end.

Definition extract_cms_summary (txt : text) : list (text * Q) :=
  match re_search ("OPENING\s+BALANCE\s+TOTAL\s+DEBET\s+TOTAL\s+CREDIT\s+CLOSING\s+BALANCE\s*\n"
                   ++ "\s*([\d,\.]+)\s+([\d,\.]+)\s+([\d,\.]+)\s+([\d,\.]+)")%string
                  IGNORECASE_MULTILINE txt with
  | Some mt =>
      [(T "Saldo Awal", clean_amount (grp txt mt 1)); (T "Saldo Akhir", clean_amount (grp txt mt 4));
       (T "Mutasi Debit", clean_amount (grp txt mt 2)); (T "Mutasi Credit", clean_amount (grp txt mt 3))]
  | None => []
  end.

Definition personal_init : sdict :=
  map (fun k => (T k, None))
    ["Account Name"; "Account Number"; "Address"; "Report Date"; "Branch";
     "Business Unit Address"; "Product Name"; "Currency"; "Period"; "Start Period";
     "End Period"]%string.

Definition nama_patterns : list string :=
  ["(?:Kepada\s+Yth\.\s*/\s*To\s*:\s*\n\s*[A-Z][A-Z\s]*?\n)\s*(.*?)(?=\n\n|\nNo\.\s*Rekening|\nTanggal\s+Laporan|\nPeriode\s+Transaksi|\nNo\s+Rekening)";
   "Kepada\s+Yth\.\s*/\s*To\s*:\s*\n\s*([^\n]+)(?:\n([^\n]*?))*?(?=\n\s*No\.\s*Rekening|\n\s*Tanggal\s+Laporan|\n\s*Account\s+No)";
   "Kepada\s+Yth\.\s*/\s*To\s*:\s*\n\s*(.+?)(?=\n\s*No\.\s*Rekening)"]%string.
Definition tanggal_patterns : list string :=
  ["Tanggal\s+Laporan\s*[:\s]*(\d{2}/\d{2}/\d{2,4})";
   "Statement\s+Date\s*[:\s]*(\d{2}/\d{2}/\d{2,4})"]%string.
Definition periode_patterns : list string :=
  ["Periode\s+Transaksi\s*[:\s]*(\d{2}/\d{2}/\d{2,4})\s*-\s*(\d{2}/\d{2}/\d{2,4})";
   "Transaction\s+Period\s*[:\s]*(\d{2}/\d{2}/\d{2,4})\s*-\s*(\d{2}/\d{2}/\d{2,4})"]%string.
Definition rekening_patterns : list string :=
  ["No\.\s*Rekening\s*\n*Account\s*No\s*[,:]*\s*(\d+)";
   "No\.\s*Rekening\s*[:\s]*(\d+)";
   "Account\s*No\s*[:\s]*(\d+)"]%string.
Definition produk_patterns : list string :=
  ["(?:Nama\s+Produk|Product\s+Name)\s*[,:]*\s*(.*?)(?=\s*(?:Unit\s*Kerja|Business\s*Unit|Valuta|Currency|Alamat\s*Unit\s*Kerja|\n|$))"]%string.
Definition valuta_patterns : list string :=
  ["Valuta\s*\n*Currency\s*[,:]*\s*([A-Z]+)";
   "Valuta\s*[:\s]*([A-Z]+)";
   "Currency\s*[:\s]*([A-Z]+)"]%string.
Definition unit_patterns : list string :=
  ["Unit\s+Kerja\s*\n*Business\s+Unit\s*[,:]*\s*([A-Z][A-Z\s]*?)(?=\s*(?:Alamat\s+Unit|Business\s+Unit\s+Address|\n|$))";
   "Unit\s+Kerja\s*[:\s]*([A-Z][A-Z\s]*?)(?=\s*(?:Alamat\s+Unit|Business\s+Unit\s+Address|\n|$))";
   "Business\s+Unit\s*[:\s]*([A-Z][A-Z\s]*?)(?=\s*(?:Alamat\s+Unit|Business\s+Unit\s+Address|\n|$))"]%string.
Definition alamat_unit_kerja_patterns : list string :=
  ["(?:Alamat\s+Unit\s+Kerja|Business\s+Unit\s+Address)\s*[,:]*\s*\n\s*([A-Z][A-Z\s]*?)\n\s*([A-Z][A-Z\s]*?)(?=\n|$)";
   "(?:Alamat\s+Unit\s+Kerja|Business\s+Unit\s+Address)\s*[,:]*\s*([A-Z][A-Z\s]*?)\n\s*([A-Z][A-Z\s]*?)(?=\n|$)";
   "(?:Alamat\s+Unit\s+Kerja|Business\s+Unit\s+Address)\s*[,:]*\s*([A-Z][A-Z\s]*?)(?=\n|$)"]%string.
Definition balance_summary_pattern : string :=
  ("(?:Saldo Awal|Opening Balance)\s*\n?"
   ++ "(?:Opening Balance)?\s*\n?"
   ++ "(?:Total Transaksi Debet|Total Debit Transaction)\s*\n?"
   ++ "(?:Total Debit Transaction)?\s*\n?"
   ++ "(?:Total Transaksi Kredit|Total Credit Transaction)\s*\n?"
   ++ "(?:Total Credit Transaction)?\s*\n?"
   ++ "(?:Saldo Akhir|Closing Balance)\s*\n?"
   ++ "(?:Closing Balance)?\s*\n?"
   ++ "([\d,\.]+\s+[\d,\.]+\s+[\d,\.]+\s+[\d,\.]+)")%string.

(** The name/address block of [extract_personal_info]. *)
Definition nama_block (txt : text) (d : sdict) : sdict :=
  match first_search nama_patterns IGNORECASE_DOTALL txt with
  | Some (_, mt) =>
      let extracted_text := strip (grp txt mt 1) in
      let lines := filter nonempty (map strip (split_on [nl] extracted_text)) in
      match lines with
      | [] => d
      | l0 :: alamat_lines =>
          let d := dset (T "Account Name") (Some l0) d in
          let alamat_filtered :=
            filter (fun line => negb (is_some (re_match "\d{2}/\d{2}/\d{2,4}" NOFLAG line))
                                && negb (contains (T "Periode") line)) alamat_lines in
          match alamat_filtered with
          | [] => d
          | _ => dset (T "Address") (Some (re_sub "\s+" (T " ") NOFLAG (join_sp alamat_filtered))) d
          end
      end
  | None => d
  end.

Definition extract_personal_info (txt : text) : sdict * list (text * Q) :=
  let d := (T "Bank", Some (T "BRI")) :: personal_init in
  let d := nama_block txt d in
  let d := if existsb (fun k => text_eqb k (T "Account Name")) (keys d) then d
           else match re_search "Kepada\s+Yth\.\s*/\s*To\s*:\s*\n\s*([A-Z][A-Z\s]+)" IGNORECASE txt with
                | Some sm => dset (T "nama") (Some (strip (grp txt sm 1))) d
                | None => d end in
  let d := match first_search tanggal_patterns IGNORECASE txt with
           | Some (_, mt) => dset (T "Report Date") (group txt mt 1) d | None => d end in
  let d := match first_search periode_patterns IGNORECASE txt with
           | Some (_, mt) => dset (T "End Period") (group txt mt 2)
                               (dset (T "Start Period") (group txt mt 1) d)
           | None => d end in
  let d := match first_search rekening_patterns IGNORECASE txt with
           | Some (_, mt) => dset (T "Account Number") (group txt mt 1) d | None => d end in
  let d := match first_search produk_patterns IGNORECASE_DOTALL txt with
           | Some (_, mt) => dset (T "Product Name") (Some (strip (grp txt mt 1))) d | None => d end in
  let d := match first_search valuta_patterns IGNORECASE txt with
           | Some (_, mt) => dset (T "Currency") (Some (strip (grp txt mt 1))) d | None => d end in
  let d := match first_search unit_patterns IGNORECASE txt with
           | Some (_, mt) => dset (T "Branch") (Some (strip (grp txt mt 1))) d | None => d end in
  let d := match first_search alamat_unit_kerja_patterns IGNORECASE_DOTALL txt with
           | Some (pat, mt) =>
               let alamat_temp :=
                 if 2 <=? ngroups pat
                 then strip (grp txt mt 1) ++ T " " ++ strip (grp txt mt 2)
                 else strip (grp txt mt 1) in
               let alamat_temp :=
                 strip (re_sub "Product\s+Name\s*Business\s+Unit\s*Address " [] IGNORECASE alamat_temp) in
               dset (T "Business Unit Address") (Some alamat_temp) d
           | None => d end in
  let financial_summary :=
    match re_search balance_summary_pattern IGNORECASE_DOTALL txt with
    | Some fm =>
        match split_ws (strip (grp txt fm 1)) with
        | a0 :: a1 :: a2 :: a3 :: _ =>
            [(T "opening_balance", parse_amount a0); (T "total_debit_transaction", parse_amount a1);
             (T "total_credit_transaction", parse_amount a2); (T "closing_balance", parse_amount a3)]
        | _ => []
        end
    | None => []
    end in
  (d, financial_summary).

Definition all_patterns : list string :=
  account_patterns ++ name_patterns ++ period_patterns ++ nama_patterns ++ tanggal_patterns
  ++ periode_patterns ++ rekening_patterns ++ produk_patterns ++ valuta_patterns
  ++ unit_patterns ++ alamat_unit_kerja_patterns ++ [balance_summary_pattern].

End BriHeader.

(** The five DataFrames returned by [parse_bri_statement]: the account
    dict, the summary dict, the transactions, the partner summary table and
    the statistics row ([None] for the empty DataFrame). *)
Record output := Output {
  o_personal : sdict; o_summary : list (text * Q); o_trx : frame;
  o_partner_trx : list psum; o_analytics : option stats }.

(** [os.path.splitext(p)[0]] for a path without separators: the extension
    starts at the last dot, unless only dots precede it. *)
Definition splitext_root (p : text) : text :=
  let i := rfind "." p in
  if (i <? 0)%Z then p
  else if forallb (fun c => (c =? ".")%char) (firstn (Z.to_nat i) p) then p
  else firstn (Z.to_nat i) p.

(** [Path(p).name] *)
Definition path_name (p : text) : text := last (split_on [ "/"%char ] p) [].

Module BriMain.
Import BriHeader.

Definition extract_filename_id (filename : text) : res text :=
  if existsb (fun c => (c =? "/")%char || (c =? "\")%char) filename then
    match lookup_global "Path" with
    | Raise e => Raise e
    | Ok _ => Ok (splitext_root (path_name filename))
    end
  else Ok (splitext_root filename).

(** [parse_bri_statement], with [pdf_text] (the text extracted from the
    PDF) as input. *)
Definition parse_bri_statement (filename pdf_text : text) : res output :=
  match extract_filename_id filename with
  | Raise e => Raise e
  | Ok file_id =>
    let branch :=
      if negb (contains (T "2025") file_id) then
        match extract_cms_account_info pdf_text with
        | Raise e => Raise e
        | Ok personal_info =>
            Ok (personal_info, extract_cms_summary pdf_text,
                frame_of_c (Bri.extract_cms_transactions pdf_text))
        end
      else
        let '(personal_info, summary_info) := extract_personal_info pdf_text in
        Ok (personal_info, summary_info, frame_of_e (Bri.extract_transactions pdf_text)) in
    match branch with
    | Raise e => Raise e
    | Ok (personal_info, summary_info, trx_df) =>
      if frame_empty trx_df then Ok (Output personal_info summary_info trx_df [] None) else
      match analyze_bri_partners_unified BriPartner.extract_partner_name_bri trx_df with
      | None => Raise (KeyError "debit")
      | Some (partner_df, partner_trx_df) =>
          Ok (Output personal_info summary_info trx_df partner_trx_df
                     (create_partner_statistics_summary partner_df))
      end
    end
  end.

End BriMain.

(* ================================================================= *)
(** ** [src/app.py]

    The patterns of [app.py] are raw strings with doubled backslashes, so
    [\\d] is a backslash followed by [d], and its line splits use the
    two-character separator [\\n]; Rocq string literals keep backslashes
    verbatim, so the patterns below are the source's characters. Its
    [clean_amount] is the one above. *)

(** [text.split("\\n")] *)
Definition app_lines (txt : text) : list text := split_on (T "\n") txt.

Module App.

Definition anchor (line : text) : bool :=
  is_some (re_match "^\\d{2}/\\d{2}/\\d{2}\\s+\\d{2}:\\d{2}:\\d{2}" NOFLAG line).

Definition e_numeric (p : text) : bool :=
  is_some (re_match "^[\\d,\\.]+$" NOFLAG p) || is_some (re_match "^\\d{7}$" NOFLAG p).

Definition cms_numeric (p : text) : bool :=
  e_numeric p || existsb (text_eqb p) (map T ["CMSPYRL"; "BRI0372"; "BRIMDBT"]%string).

(** One line of the loop of [extract_transactions]. *)
Definition e_line (line : text) : option e_txn :=
  let line := strip line in
  match line with
  | [] => None
  | _ =>
    if anchor line then
      let parts := split_ws line in
      if 7 <=? length parts then
        match numeric_parts e_numeric parts with
        | [teller_id; d; c; b] =>
            let description := join (T " ") (slice parts 2 (length parts - 4)) in
            Some (ETxn (nth 0 parts []) (nth 1 parts []) (strip description) teller_id
                       (clean_amount d) (clean_amount c) (clean_amount b))
        | _ => None
        end
      else None
    else None
  end.

Definition extract_transactions (txt : text) : list e_txn :=
  flat_map (fun l => option_list (e_line l)) (app_lines txt).

(** One line of the loop of [extract_cms_transactions]. *)
Definition cms_line (line : text) : option c_txn :=
  let line := strip line in
  match line with
  | [] => None
  | _ =>
    if anchor line then
      let parts := split_ws line in
      if 6 <=? length parts then
        let np := numeric_parts cms_numeric parts in
        if 4 <=? length np then
          let debet_str := nth 0 np [] in
          let credit_str := nth 1 np [] in
          let ledger_str := nth 2 np [] in
          let debet := if text_eqb debet_str (T "0.00") then 0 else clean_amount debet_str in
          let credit := if text_eqb credit_str (T "0.00") then 0 else clean_amount credit_str in
          let ledger := clean_amount ledger_str in
          let remark := if 2 <? length parts - 4
                        then strip (join (T " ") (slice parts 2 (length parts - 4)))
                        else [] in
          Some (CTxn (nth 0 parts []) remark debet credit ledger)
        else None
      else None
    else None
  end.

Definition extract_cms_transactions (txt : text) : list c_txn :=
  flat_map (fun l => option_list (cms_line l)) (app_lines txt).

Definition skip_keywords : list text :=
  map T ["BIAYA"; "ADM"; "BUNGA"; "PAJAK"; "KLIRING"; "TARIK TUNAI";
         "SETORAN"; "BI-FAST"; "BPJS"; "TAX"; "INTEREST";
         "FEE"; "SINGLE CN"; "POLLING"; "REWARD"; "CLAIM"; "BPJS TK"; "BPJS KESEHATAN"]%string.

Fixpoint bm_loop (lines : list text) (esb_found : bool) (company_words : list text)
  : list text :=
  match lines with
  | [] => company_words
  | ln :: rest =>
      if startswith ln (T "ESB:") then bm_loop rest true company_words
      else if is_some (re_match "^BM\\d+\\s+\\d+\\s+\\d+" NOFLAG ln) then
        match re_search "BM\\d+\\s+\\d+\\s+\\d+\\s+(.+)" NOFLAG ln with
        | Some bm_match =>
            let company_part := strip (grp ln bm_match 1) in
            bm_loop rest esb_found (company_words ++ alpha_words company_part)
        | None => bm_loop rest esb_found company_words
        end
      else if negb esb_found then
        bm_loop rest esb_found (company_words ++ alpha_words ln)
      else bm_loop rest esb_found company_words
  end.

(** [extract_partner_name_bri] of [app.py] (a [str] argument). *)
Definition extract_partner_name_bri (description : text) : option text :=
  if existsb (fun k => contains k (upper description)) skip_keywords then None else
  let cleaned := strip description in
  let bm_result :=
    if is_some (re_search "BM\\d+" NOFLAG cleaned) then
      let lines := filter nonempty (map strip (app_lines cleaned)) in
      match bm_loop lines false [] with
      | [] => None
      | company_words => Some (join_sp company_words)
      end
    else None in
  match bm_result with
  | Some r => Some r
  | None =>
  let U := upper cleaned in
  if contains (T "NBMB") U then
    match re_search "NBMB\\s+(.*?)\\s+TO\\s+(.*?)(?:\\n|ESB:|$)" IGNORECASE_DOTALL cleaned with
    | Some mt =>
        let receiver := strip (grp cleaned mt 2) in
        let sender := strip (grp cleaned mt 1) in
        Some (if nonempty receiver then receiver else sender)
    | None => None
    end
  else if contains (T "WBNKTRF") U then
    let after := re_sub "WBNKTRF\\w+" [] IGNORECASE cleaned in
    let after := re_sub "ESB:.*" [] DOTALL after in
    match alpha_words after with [] => None | words => Some (join_sp words) end
  else if contains (T "BFST") U then
    let content := re_sub "BFST\\d+" [] IGNORECASE cleaned in
    let content := re_sub "ESB:.*" [] DOTALL content in
    let content := re_sub "\\d{8,}" [] NOFLAG content in
    if contains (T ":") content then BriPartner.bfst_names (split_on (T ":") content)
    else match alpha_words content with [] => None | words => Some (join_sp words) end
  else if existsb (fun b => contains b U) (map T ["BCA"; "BNI"; "MANDIRI"; "DANAMON"]%string) then
    match re_search "(.*?)(?:-BANK|-BCA|-BNI|-MANDIRI|-DANAMON)" IGNORECASE_DOTALL cleaned with
    | Some m =>
        let company_part := re_sub "^(PT\\s+)?" [] IGNORECASE (strip (grp cleaned m 1)) in
        match alpha_words company_part with [] => None | words => Some (join_sp words) end
    | None => None
    end
  else if contains (T "IBIZ") U then
    if contains (T " TO ") U then
      let parts := split_on (T " TO ") cleaned in
      if 1 <? length parts then
        let receiver_part := strip (nth 0 (split_on (T "ESB:") (nth 1 parts [])) []) in
        match alpha_words receiver_part with
        | [] => None
        | words => Some (join_sp (firstn 4 words))
        end
      else None
    else None
  else if contains (T "PAYROLL") U then Some (T "PAYROLL")
  else if contains (T "SETOR") U && contains (T "PENJUALAN") U then Some (T "PENJUALAN INTERNAL")
  else
    let general_clean := re_sub "ESB:.*" [] DOTALL cleaned in
    let general_clean := re_sub "\\b\\d{7,}\\b" [] NOFLAG general_clean in
    let general_clean := re_sub "\\b[A-Z]{2,}\\d+[A-Z]*\\b" [] NOFLAG general_clean in
    let words := alpha_words general_clean in
    let filtered := filter (fun w => negb (existsb (text_eqb (upper w)) BriPartner.stop_words)) words in
    if 2 <=? length filtered then Some (join_sp (firstn 4 filtered)) else None
  end.

End App.

Module AppHeader.

Definition account_patterns : list string :=
  ["Account\\s+No\\s*:?\\s*(\\d{4}-\\d{2}-\\d{6}-\\d{2}-\\d)";
   "Account\\s+No\\s*:?\\s*(\\d+)";
   "Account\\s+No\\s*\\n*\\s*:?\\s*(\\d{4}-\\d{2}-\\d{6}-\\d{2}-\\d)";
   "Account\\s+No\\s*\\n*\\s*(\\d+)"]%string.
Definition name_patterns : list string :=
  ["Account\\s+Name\\s*:?\\s*([A-Z][A-Z\\s&\\.]+?)(?=\\s*Today\\s*Hold|\\s*Period|\\s*Account\\s*Status)";
   "Account\\s+Name\\s*\\n*\\s*:?\\s*([A-Z][A-Z\\s&\\.]+?)(?=\\s*Today|\\s*Period|\\s*Account\\s*Status)";
   "Account\\s+Name\\s+([A-Z][A-Z\\s&\\.]+?)(?=\\s*Today|\\s*Period|\\s*Account\\s*Status)";
   "Account\\s+Name\\s*:?\\s*(PT\\s+[A-Z\\s]+)";
   "Account\\s+Name\\s*:?\\s*([A-Z][A-Z\\s&\\.PT]+)";
   "Account\\s+Name\\s*:?\\s*([A-Z\\s&\\.PT]+?)(?=\\s*\\n|\\s*Today|\\s*Period|\\s*Account)"]%string.
Definition period_patterns : list string :=
  ["Period\\s*:?\\s*(\\d{2}/\\d{2}/\\d{4})\\s*-\\s*(\\d{2}/\\d{2}/\\d{4})";
   "Period\\s*\\n*\\s*:?\\s*(\\d{2}/\\d{2}/\\d{4})\\s*-\\s*(\\d{2}/\\d{2}/\\d{4})"]%string.

Definition truthy (v : option text) : bool := match v with Some s => nonempty s | None => false end.

(** [line.split(":")[1].strip()] when the line has a colon. *)
Definition after_colon (line : text) : option text :=
  match split_on (T ":") line with _ :: p1 :: _ => Some (strip p1) | _ => None end.

(** The line loop run when no value of the dict is truthy. *)
Fixpoint fallback_loop (lines : list text) (d : sdict) : sdict :=
  match lines with
  | [] => d
  | raw :: rest =>
    let line := strip raw in
    let has_colon := contains (T ":") line in
    let d :=
      if contains (T "Account No") line && has_colon then
        match after_colon line with Some v => dset (T "Account Number") (Some v) d | None => d end
      else if contains (T "Account Name") line && has_colon then
        match after_colon line with
        | Some v => dset (T "Account Name") (Some v) d
        | None =>
            match rest with
            | nxt :: _ =>
                let next_line := strip nxt in
                if nonempty next_line
                   && negb (existsb (fun k => contains k next_line)
                                    (map T ["Account"; "Today"; "Period"]%string))
                then dset (T "Account Name") (Some next_line) d else d
            | [] => d
            end
        end
      else if contains (T "Period") line && has_colon then
        match split_on (T ":") line with
        | _ :: p1 :: _ =>
            match re_search "(\\d{2}/\\d{2}/\\d{4})\\s*-\\s*(\\d{2}/\\d{2}/\\d{4})" NOFLAG p1 with
            | Some pm => dset (T "End Period") (group p1 pm 2) (dset (T "Start Period") (group p1 pm 1) d)
            | None => d
            end
        | _ => d
        end
      else d in
    fallback_loop rest d
  end.

Definition extract_cms_account_info (txt : text) : sdict :=
  let d := BriHeader.cms_info_init in
  let d := match first_search account_patterns IGNORECASE_DOTALL txt with
           | Some (_, m) => dset (T "Account Number") (Some (strip (grp txt m 1))) d
           | None => d end in
  let d := match first_search name_patterns IGNORECASE_DOTALL txt with
           | Some (_, m) => dset (T "Account Name") (Some (strip (grp txt m 1))) d
           | None => d end in
  let d := match first_search period_patterns IGNORECASE_DOTALL txt with
           | Some (_, m) => dset (T "End Period") (group txt m 2) (dset (T "Start Period") (group txt m 1) d)
           | None => d end in
  if negb (existsb (fun e => truthy (snd e)) d) then fallback_loop (app_lines txt) d else d.

Definition extract_cms_summary (txt : text) : list (text * Q) :=
  match re_search "OPENING\\s+BALANCE\\s+TOTAL\\s+DEBET\\s+TOTAL\\s+CREDIT\\s+CLOSING\\s+BALANCE\\s*\\n\\s*([\\d,\\.]+)\\s+([\\d,\\.]+)\\s+([\\d,\\.]+)\\s+([\\d,\\.]+)"
                  IGNORECASE_MULTILINE txt with
  | Some m =>
      [(T "Saldo Awal", clean_amount (grp txt m 1)); (T "Saldo Akhir", clean_amount (grp txt m 4));
       (T "Mutasi Debit", clean_amount (grp txt m 2)); (T "Mutasi Credit", clean_amount (grp txt m 3))]
  | None => []
  end.

Definition nama_patterns : list string :=
  ["(?:Kepada\\s+Yth\\.\\s*/\\s*To\\s*:\\s*\\n\\s*[A-Z][A-Z\\s]*?\\n)\\s*(.*?)(?=\\n\\n|\\nNo\\.\\s*Rekening|\\nTanggal\\s+Laporan|\\nPeriode\\s+Transaksi|\\nNo\\s+Rekening)";
   "Kepada\\s+Yth\\.\\s*/\\s*To\\s*:\\s*\\n\\s*([^\\n]+)(?:\\n([^\\n]*?))*?(?=\\n\\s*No\\.\\s*Rekening|\\n\\s*Tanggal\\s+Laporan|\\n\\s*Account\\s+No)";
   "Kepada\\s+Yth\\.\\s*/\\s*To\\s*:\\s*\\n\\s*(.+?)(?=\\n\\s*No\\.\\s*Rekening)"]%string.
Definition tanggal_patterns : list string :=
  ["Tanggal\\s+Laporan\\s*[:\\s]*(\\d{2}/\\d{2}/\\d{2,4})";
   "Statement\\s+Date\\s*[:\\s]*(\\d{2}/\\d{2}/\\d{2,4})"]%string.
Definition periode_patterns : list string :=
  ["Periode\\s+Transaksi\\s*[:\\s]*(\\d{2}/\\d{2}/\\d{2,4})\\s*-\\s*(\\d{2}/\\d{2}/\\d{2,4})";
   "Transaction\\s+Period\\s*[:\\s]*(\\d{2}/\\d{2}/\\d{2,4})\\s*-\\s*(\\d{2}/\\d{2}/\\d{2,4})"]%string.
Definition rekening_patterns : list string :=
  ["No\\.\\s*Rekening\\s*\\n*Account\\s*No\\s*[,:]*\\s*(\\d+)";
   "No\\.\\s*Rekening\\s*[:\\s]*(\\d+)";
   "Account\\s*No\\s*[:\\s]*(\\d+)"]%string.
Definition produk_patterns : list string :=
  ["(?:Nama\\s+Produk|Product\\s+Name)\\s*[,:]*\\s*(.*?)(?=\\s*(?:Unit\\s*Kerja|Business\\s*Unit|Valuta|Currency|Alamat\\s*Unit\\s*Kerja|\\n|$))"]%string.
Definition valuta_patterns : list string :=
  ["Valuta\\s*\\n*Currency\\s*[,:]*\\s*([A-Z]+)";
   "Valuta\\s*[:\\s]*([A-Z]+)";
   "Currency\\s*[:\\s]*([A-Z]+)"]%string.
Definition unit_patterns : list string :=
  ["Unit\\s+Kerja\\s*\\n*Business\\s+Unit\\s*[,:]*\\s*([A-Z][A-Z\\s]*?)(?=\\s*(?:Alamat\\s+Unit|Business\\s+Unit\\s+Address|\\n|$))";
   "Unit\\s+Kerja\\s*[:\\s]*([A-Z][A-Z\\s]*?)(?=\\s*(?:Alamat\\s+Unit|Business\\s+Unit\\s+Address|\\n|$))";
   "Business\\s+Unit\\s*[:\\s]*([A-Z][A-Z\\s]*?)(?=\\s*(?:Alamat\\s+Unit|Business\\s+Unit\\s+Address|\\n|$))"]%string.
Definition alamat_unit_kerja_patterns : list string :=
  ["(?:Alamat\\s+Unit\\s+Kerja|Business\\s+Unit\\s+Address)\\s*[,:]*\\s*\\n\\s*([A-Z][A-Z\\s]*?)\\n\\s*([A-Z][A-Z\\s]*?)(?=\\n|$)";
   "(?:Alamat\\s+Unit\\s+Kerja|Business\\s+Unit\\s+Address)\\s*[,:]*\\s*([A-Z][A-Z\\s]*?)\\n\\s*([A-Z][A-Z\\s]*?)(?=\\n|$)";
   "(?:Alamat\\s+Unit\\s+Kerja|Business\\s+Unit\\s+Address)\\s*[,:]*\\s*([A-Z][A-Z\\s]*?)(?=\\n|$)"]%string.
Definition balance_summary_pattern : string :=
  ("(?:Saldo Awal|Opening Balance)\\s*\\n?"
   ++ "(?:Opening Balance)?\\s*\\n?"
   ++ "(?:Total Transaksi Debet|Total Debit Transaction)\\s*\\n?"
   ++ "(?:Total Debit Transaction)?\\s*\\n?"
   ++ "(?:Total Transaksi Kredit|Total Credit Transaction)\\s*\\n?"
   ++ "(?:Total Credit Transaction)?\\s*\\n?"
   ++ "(?:Saldo Akhir|Closing Balance)\\s*\\n?"
   ++ "(?:Closing Balance)?\\s*\\n?"
   ++ "([\\d,\\.]+\\s+[\\d,\\.]+\\s+[\\d,\\.]+\\s+[\\d,\\.]+)")%string.

(** [parse_amount] nested in [extract_personal_info] of [app.py]. *)
Definition parse_amount (amount_str : text) : Q :=
  let s := strip amount_str in
  let s :=
    if contains (T ",") s && (rfind "," s >? rfind "." s)%Z then
      replace_char "," "." (remove_char "." s)
    else if contains (T ",") s then remove_char "," s
    else if 1 <? count_char "." s then
      let (ip, dp) := rsplit_dot s in
      let integer_part := remove_char "." ip in
      if nonempty dp then integer_part ++ T "." ++ dp else integer_part
    else s in
  float_or_zero s.

Definition nama_block (txt : text) (d : sdict) : sdict :=
  match first_search nama_patterns IGNORECASE_DOTALL txt with
  | Some (_, m) =>
      let extracted_text := strip (grp txt m 1) in
      let lines := filter nonempty (map strip (app_lines extracted_text)) in
      match lines with
      | [] => d
      | l0 :: alamat_lines =>
          let d := dset (T "Account Name") (Some l0) d in
          let alamat_filtered :=
            filter (fun ln => negb (is_some (re_match "\\d{2}/\\d{2}/\\d{2,4}" NOFLAG ln))
                              && negb (contains (T "Periode") ln)) alamat_lines in
          match alamat_filtered with
          | [] => d
          | _ => dset (T "Address") (Some (re_sub "\\s+" (T " ") NOFLAG (join_sp alamat_filtered))) d
          end
      end
  | None => d
  end.

Definition get (k : text) (d : sdict) : option text :=
  match find (fun e => text_eqb (fst e) k) d with Some (_, v) => v | None => None end.

Definition extract_personal_info (txt : text) : sdict * list (text * Q) :=
  let d := (T "Bank", Some (T "BRI")) :: BriHeader.personal_init in
  let d := nama_block txt d in
  let d := if truthy (get (T "Account Name") d) then d
           else match re_search "Kepada\\s+Yth\\.\\s*/\\s*To\\s*:\\s*\\n\\s*([A-Z][A-Z\\s]+)" IGNORECASE txt with
                | Some sm => dset (T "Account Name") (Some (strip (grp txt sm 1))) d
                | None => d end in
  let d := match first_search tanggal_patterns IGNORECASE txt with
           | Some (_, m) => dset (T "Report Date") (group txt m 1) d | None => d end in
  let d := match first_search periode_patterns IGNORECASE txt with
           | Some (_, m) => dset (T "End Period") (group txt m 2) (dset (T "Start Period") (group txt m 1) d)
           | None => d end in
  let d := match first_search rekening_patterns IGNORECASE txt with
           | Some (_, m) => dset (T "Account Number") (group txt m 1) d | None => d end in
  let d := match first_search produk_patterns IGNORECASE_DOTALL txt with
           | Some (_, m) => dset (T "Product Name") (Some (strip (grp txt m 1))) d | None => d end in
  let d := match first_search valuta_patterns IGNORECASE txt with
           | Some (_, m) => dset (T "Currency") (Some (strip (grp txt m 1))) d | None => d end in
  let d := match first_search unit_patterns IGNORECASE txt with
           | Some (_, m) => dset (T "Branch") (Some (strip (grp txt m 1))) d | None => d end in
  let d := match first_search alamat_unit_kerja_patterns IGNORECASE_DOTALL txt with
           | Some (pat, m) =>
               let alamat_temp :=
                 if 2 <=? ngroups pat
                 then strip (grp txt m 1) ++ T " " ++ strip (grp txt m 2)
                 else strip (grp txt m 1) in
               let alamat_temp :=
                 strip (re_sub "Product\\s+Name\\s*Business\\s*Unit\\s*Address " [] IGNORECASE alamat_temp) in
               dset (T "Business Unit Address") (Some alamat_temp) d
           | None => d end in
  let financial_summary :=
    match re_search balance_summary_pattern IGNORECASE_DOTALL txt with
    | Some fm =>
        match split_ws (strip (grp txt fm 1)) with
        | a0 :: a1 :: a2 :: a3 :: _ =>
            [(T "opening_balance", parse_amount a0); (T "total_debit_transaction", parse_amount a1);
             (T "total_credit_transaction", parse_amount a2); (T "closing_balance", parse_amount a3)]
        | _ => []
        end
    | None => []
    end in
  (d, financial_summary).

Definition all_patterns : list string :=
  account_patterns ++ name_patterns ++ period_patterns ++ nama_patterns ++ tanggal_patterns
  ++ periode_patterns ++ rekening_patterns ++ produk_patterns ++ valuta_patterns
  ++ unit_patterns ++ alamat_unit_kerja_patterns ++ [balance_summary_pattern].

End AppHeader.

Module AppMain.

(** [parse_bri_statement] of [app.py], with the text read from the PDF as
    input; an empty [summary_info] stands for the empty [summary_df]. *)
Definition parse_bri_statement (txt : text) : res output :=
  let '(personal_info, summary_info) := AppHeader.extract_personal_info txt in
  let trx_2025 := App.extract_transactions txt in
  let '(personal_info, summary_info, trx_df) :=
    match trx_2025 with
    | [] => (AppHeader.extract_cms_account_info txt, AppHeader.extract_cms_summary txt,
             frame_of_c (App.extract_cms_transactions txt))
    | _ => (personal_info, summary_info, frame_of_e trx_2025)
    end in
  if frame_empty trx_df then Ok (Output personal_info summary_info trx_df [] None) else
  match analyze_bri_partners_unified App.extract_partner_name_bri trx_df with
  | None => Raise (KeyError "debit")
  | Some (partner_df, partner_trx_df) =>
      Ok (Output personal_info summary_info trx_df partner_trx_df
                 (create_partner_statistics_summary partner_df))
  end.

End AppMain.

(* ================================================================= *)
(** * Examples: the model evaluated on sample inputs *)

Example clean_amount_ex1 : clean_amount (T "1,234.56") == 123456 # 100.
Proof. vm_compute. reflexivity. Qed.

Example clean_amount_ex2 : clean_amount (T "1.234.567") == 1234567.
Proof. vm_compute. reflexivity. Qed.

Example clean_amount_ex3 : clean_amount (T "1.234,56") == 123456.
Proof. vm_compute. reflexivity. Qed.

Example parse_amount_ex1 : parse_amount (T "1.234,56") == 123456 # 100.
Proof. vm_compute. reflexivity. Qed.

Example re_ex1 : is_some (re_match "^\d{2}/\d{2}/\d{2}\s+\d{2}:\d{2}:\d{2}" NOFLAG
                            (T "01/03/24 10:15:00 X")) = true.
Proof. vm_compute. reflexivity. Qed.

Example re_ex2 : option_map (fun mt => grp (T "xx NBMB ANA TO BUDI ESB: 1") mt 2)
   (re_search "NBMB\s+(.*?)\s+TO\s+(.*?)(?:\n|ESB:|$)" IGNORECASE_DOTALL
      (T "xx NBMB ANA TO BUDI ESB: 1")) = Some (T "BUDI ").
Proof. vm_compute. reflexivity. Qed.

Example re_ex3 : re_sub "\b[A-Z]{2,}\d+[A-Z]*\b" [] NOFLAG (T "PAY AB12C done") = T "PAY  done".
Proof. vm_compute. reflexivity. Qed.

Example bri_e_ex :
  Bri.extract_transactions
    (T "01/03/24 10:15:00 TRANSFER KE BUDI SANTOSA 1234567 0.00 500000.00 1500000.00")
  = [ETxn (T "01/03/24") (T "10:15:00") (T "TRANSFER KE BUDI SANTOSA") (T "1234567")
          (0 # 100) (50000000 # 100) (150000000 # 100)].
Proof. vm_compute. reflexivity. Qed.

Example bri_numeric_agrees :
  map (fun p => (Bri.numeric_shaped p, is_some (re_match "^[\d,\.]+$" NOFLAG p)))
      [T "1.234,56"; T "12a"; T ""; T "0.00"; T "1234567"]
  = [(true, true); (false, false); (false, false); (true, true); (true, true)].
Proof. vm_compute. reflexivity. Qed.

Example bri_partner_ex1 :
  BriPartner.extract_partner_name_bri (T "PAYROLL BATCH 2024 JAKARTA") = Some (T "PAYROLL").
Proof. vm_compute. reflexivity. Qed.

Example bri_partner_ex2 :
  BriPartner.extract_partner_name_bri (T "BIAYA ADM") = None.
Proof. vm_compute. reflexivity. Qed.

Example bri_partner_ex3 :
  BriPartner.extract_partner_name_bri (T "NBMB ANDI TO BUDI SANTOSA ESB:123") = Some (T "BUDI SANTOSA").
Proof. vm_compute. reflexivity. Qed.

Example bri_partner_ex4 :
  BriPartner.extract_partner_name_bri (T "PT MAJU JAYA-BCA 123") = Some (T "MAJU JAYA").
Proof. vm_compute. reflexivity. Qed.

Example bri_patterns_compile : forallb compiles BriHeader.all_patterns = true.
Proof. vm_compute. reflexivity. Qed.

Example bri_filename_ex :
  map BriMain.extract_filename_id [T "stmt2025.pdf"; T "a.b.pdf"; T ".bashrc"; T "dir/x.pdf"]
  = [Ok (T "stmt2025"); Ok (T "a.b"); Ok (T ".bashrc"); Raise (NameError "Path")].
Proof. vm_compute. reflexivity. Qed.

Example app_escape_ex :
  (App.anchor (T "01/03/24 10:15:00 X"), App.anchor (T "\dd/\dd/\dd 10:15:00"),
   App.e_numeric (T "1234567"), App.e_numeric (T "\ddddddd"))
  = (false, false, false, true).
Proof. vm_compute. reflexivity. Qed.

Example app_patterns_compile :
  forallb compiles (AppHeader.all_patterns ++
    ["\\d{2}/\\d{2}/\\d{2,4}"; "Kepada\\s+Yth\\.\\s*/\\s*To\\s*:\\s*\\n\\s*([A-Z][A-Z\\s]+)";
     "NBMB\\s+(.*?)\\s+TO\\s+(.*?)(?:\\n|ESB:|$)"; "\\b[A-Z]{2,}\\d+[A-Z]*\\b"]%string) = true.
Proof. vm_compute. reflexivity. Qed.

(* ================================================================= *)
(** * Vocabulary of the properties *)

(** A character of a number written with digits and periods. *)
Definition digit_or_dot (c : ascii) : bool := is_digit c || (c =? ".")%char.

(** The last [n] elements of a list (all of it when shorter). *)
Definition lastn {A} (n : nat) (l : list A) : list A := skipn (length l - n) l.

(** A pattern that consumes no character (empty sequence, [^]). *)
Fixpoint zero_width (r : regex) : bool :=
  match r with
  | REps | RBol => true
  | RSeq a b => zero_width a && zero_width b
  | _ => false
  end.

(** The class that the first character consumed by a pattern must be in,
    when the pattern starts with a fixed character class. *)
Fixpoint lead_class (r : regex) : option (bool * (ascii -> bool)) :=
  match r with
  | RClass neg p => Some (neg, p)
  | RSeq a b => if zero_width a then lead_class b else lead_class a
  | RGroup _ a => lead_class a
  | _ => None
  end.

(** The shape of the header dicts: the [("Bank", "BRI")] entry first, then
    the given keys in order. *)
Definition bank_entry : text * option text := (T "Bank", Some (T "BRI")).

Definition header_shape (K : list text) (d : sdict) : Prop :=
  exists rest, d = bank_entry :: rest /\ keys rest = K.

(** The keys of [personal_info] after ["Bank"]. *)
Definition personal_keys : list text := keys BriHeader.personal_init.

(** The keys of [account_info] after ["Bank"]. *)
Definition cms_keys : list text := keys (tl BriHeader.cms_info_init).


(** ** Binary64 amounts in [create_partner_summary_table]

    The rest of the development reads amounts as exact rationals. Here the
    amount columns hold binary64 floats and every [Series.sum()] is a
    function [pd_sum] of the column's values, as pandas computes it
    (numpy's summation); the facts below state what they assume of it. *)
Module Binary64.
Import PrimFloat.

Record frow := FRow { fr_partner : option text; fr_debit : float; fr_credit : float }.

Record fframe := FFrame { fcols : list text; frows : list frow }.

(** One row of [create_partner_summary_table]. *)
Record fpsum := FPSum {
  fp_partner : text; fp_credit : float; fp_debit : float;
  fp_ccount : nat; fp_dcount : nat; fp_total : nat }.

(** [df.empty] *)
Definition fframe_empty (f : fframe) : bool :=
  match frows f, fcols f with [], _ | _, [] => true | _, _ => false end.

Definition fattributed (r : frow) : bool := is_some (fr_partner r).

Definition fpartner_is (p : text) (r : frow) : bool :=
  match fr_partner r with Some q => text_eqb q p | None => false end.

(** [len(p[p[col] > 0])] *)
Definition fcount_pos (col : frow -> float) (l : list frow) : nat :=
  length (filter (fun x => ltb 0 (col x)) l).

Fixpoint fins_desc {A} (key : A -> float) (x : A) (l : list A) : list A :=
  match l with
  | [] => [x]
  | y :: l' => if ltb (key y) (key x) then x :: l else y :: fins_desc key x l'
  end.

(** [sort_values(key, ascending=False)] on a few rows, as [sort_desc]. *)
Definition fsort_desc {A} (key : A -> float) (l : list A) : list A :=
  fold_left (fun acc x => fins_desc key x acc) l [].

Section Sum.
(** [Series.sum()] of a float column, given its values in order. *)
Variable pd_sum : list float -> float.

Definition col_sum {A} (col : A -> float) (l : list A) : float := pd_sum (map col l).

Definition create_partner_summary_table (partner_df : fframe) : list fpsum :=
  if fframe_empty partner_df || negb (mem (T "partner_name") (fcols partner_df)) then [] else
  let partner_transactions := filter fattributed (frows partner_df) in
  match partner_transactions with
  | [] => []
  | _ =>
    if negb (amount_cols_known (fcols partner_df)) then [] else
    let summary_data :=
      map (fun partner =>
             let partner_data := filter (fpartner_is partner) partner_transactions in
             FPSum partner (col_sum fr_credit partner_data) (col_sum fr_debit partner_data)
                   (fcount_pos fr_credit partner_data) (fcount_pos fr_debit partner_data)
                   (length partner_data))
          (unique (flat_map (fun r => option_list (fr_partner r)) partner_transactions)) in
    fsort_desc (fun p => add (fp_credit p) (fp_debit p)) summary_data
  end.
End Sum.

(** numpy adds fewer than eight values one after the other, from 0. *)
Definition seq_sum (l : list float) : float := fold_left add l 0%float.
End Binary64.

(* ================================================================= *)
(** * Properties *)

From Stdlib Require Import Permutation Sorted.

(** ** Comparisons and strings *)

Lemma qlt_spec (x y : Q) : qlt x y = true <-> x < y.
Proof.
  unfold qlt. rewrite negb_true_iff. split; intro H.
  - apply Qnot_le_lt. intro H'. apply Qle_bool_iff in H'. congruence.
  - destruct (Qle_bool y x) eqn:E; [|reflexivity].
    apply Qle_bool_iff in E. exfalso. exact (Qlt_not_le _ _ H E).
Qed.

Lemma qlt_false (x y : Q) : qlt x y = false <-> ~ x < y.
Proof.
  rewrite <- qlt_spec. destruct (qlt x y); split; congruence.
Qed.

Lemma text_eqb_eq (a b : text) : text_eqb a b = true <-> a = b.
Proof.
  revert b; induction a as [|x a IH]; intros [|y b]; simpl; try (split; congruence).
  rewrite andb_true_iff, Ascii.eqb_eq, IH. split; [intros [-> ->]; reflexivity|].
  intro H; injection H; auto.
Qed.

Lemma text_eqb_refl (a : text) : text_eqb a a = true.
Proof. apply text_eqb_eq; reflexivity. Qed.

Lemma text_eqb_sym (a b : text) : text_eqb a b = text_eqb b a.
Proof.
  destruct (text_eqb a b) eqn:E1, (text_eqb b a) eqn:E2; try reflexivity.
  - apply text_eqb_eq in E1; subst; rewrite text_eqb_refl in E2; discriminate.
  - apply text_eqb_eq in E2; subst; rewrite text_eqb_refl in E1; discriminate.
Qed.

(** ** Sums *)

Lemma qsum_cons {A} (f : A -> Q) x l : qsum f (x :: l) = f x + qsum f l.
Proof. reflexivity. Qed.

Lemma qsum_map {A B} (f : B -> Q) (g : A -> B) l : qsum f (map g l) = qsum (fun x => f (g x)) l.
Proof. induction l as [|x l IH]; simpl; [reflexivity|]. unfold qsum in *; simpl; rewrite IH; reflexivity. Qed.

Lemma qsum_ext {A} (f g : A -> Q) l : (forall x, In x l -> f x == g x) -> qsum f l == qsum g l.
Proof.
  induction l as [|x l IH]; intro H; [reflexivity|].
  rewrite !qsum_cons. rewrite (H x (or_introl eq_refl)), IH; [reflexivity|].
  intros y Hy; apply H; right; exact Hy.
Qed.

Lemma qsum_plus {A} (f g : A -> Q) l : qsum (fun x => f x + g x) l == qsum f l + qsum g l.
Proof. induction l as [|x l IH]; [reflexivity|]. rewrite !qsum_cons, IH. ring. Qed.

Lemma qsum_perm {A} (f : A -> Q) l1 l2 : Permutation l1 l2 -> qsum f l1 == qsum f l2.
Proof.
  induction 1 as [|x l1 l2 _ IH|x y l|l1 l2 l3 _ IH1 _ IH2].
  - reflexivity.
  - rewrite !qsum_cons, IH; reflexivity.
  - rewrite !qsum_cons; ring.
  - rewrite IH1; exact IH2.
Qed.

Lemma ins_desc_perm {A} (key : A -> Q) x l : Permutation (ins_desc key x l) (x :: l).
Proof.
  induction l as [|y l IH]; simpl; [reflexivity|].
  destruct (qlt (key y) (key x)); [reflexivity|].
  rewrite IH. apply perm_swap.
Qed.

Lemma sort_desc_perm {A} (key : A -> Q) l : Permutation (sort_desc key l) l.
Proof.
  unfold sort_desc.
  assert (G : forall acc, Permutation (fold_left (fun acc x => ins_desc key x acc) l acc) (l ++ acc)).
  { induction l as [|x l IH]; intro acc; simpl; [reflexivity|].
    rewrite IH, ins_desc_perm. apply Permutation_sym, Permutation_middle. }
  rewrite G, app_nil_r; reflexivity.
Qed.

(** ** Distinct values *)

Lemma In_unique (x : text) l : In x (unique l) <-> In x l.
Proof.
  induction l as [|y l IH]; simpl; [tauto|].
  rewrite filter_In, negb_true_iff, IH. split.
  - intros [H|[H _]]; auto.
  - intros [H|H]; [auto|].
    destruct (text_eqb y x) eqn:E; [left; apply text_eqb_eq; exact E|right; auto].
Qed.

Lemma NoDup_unique l : NoDup (unique l).
Proof.
  induction l as [|y l IH]; simpl; constructor.
  - rewrite filter_In, text_eqb_refl. simpl. intros [_ H]; discriminate.
  - apply NoDup_filter; exact IH.
Qed.

Lemma qsum_split_at (F : text -> Q) n U :
  NoDup U ->
  qsum F U == (if existsb (text_eqb n) U then F n else 0)
              + qsum F (filter (fun y => negb (text_eqb n y)) U).
Proof.
  induction U as [|y U IH]; intro ND; [simpl; reflexivity|].
  inversion ND as [|? ? Hy ND']; subst.
  rewrite qsum_cons. cbn [existsb filter].
  destruct (text_eqb n y) eqn:E; cbn [orb negb].
  - apply text_eqb_eq in E; subst.
    assert (Hf : filter (fun z => negb (text_eqb y z)) U = U).
    { apply forallb_filter_id, forallb_forall. intros z Hz.
      destruct (text_eqb y z) eqn:E'; [apply text_eqb_eq in E'; subst; contradiction|reflexivity]. }
    rewrite Hf; ring.
  - rewrite qsum_cons, IH by exact ND'. ring.
Qed.

(** ** Per-partner sums add up to the attributed total *)

Lemma partner_is_some k r n : r_partner r = Some n -> partner_is k r = text_eqb n k.
Proof. unfold partner_is; intros ->; reflexivity. Qed.

Lemma partner_is_none k r : r_partner r = None -> partner_is k r = false.
Proof. unfold partner_is; intros ->; reflexivity. Qed.

Lemma filter_partner_absent n l :
  ~ In n (flat_map (fun r => option_list (r_partner r)) l) -> filter (partner_is n) l = [].
Proof.
  induction l as [|r l IH]; intro H; [reflexivity|].
  simpl in H. rewrite in_app_iff in H. cbn [filter].
  destruct (r_partner r) as [m|] eqn:Hr.
  - rewrite (partner_is_some n r m Hr).
    destruct (text_eqb m n) eqn:E.
    + apply text_eqb_eq in E; subst. exfalso; apply H; left; left; reflexivity.
    + apply IH; intro; apply H; right; assumption.
  - rewrite (partner_is_none n r Hr). apply IH; intro; apply H; right; assumption.
Qed.

Lemma partner_sums_total (g : row -> Q) (l : list row) :
  qsum (fun k => qsum g (filter (partner_is k) l))
       (unique (flat_map (fun r => option_list (r_partner r)) l))
  == qsum g (filter attributed l).
Proof.
  induction l as [|r l IH]; [reflexivity|].
  assert (Ha : attributed r = is_some (r_partner r)) by reflexivity.
  cbn [flat_map filter]. rewrite Ha.
  destruct (r_partner r) as [n|] eqn:Hr; cbn [option_list app unique is_some].
  - rewrite qsum_cons, qsum_cons.
    rewrite (partner_is_some n r n Hr), text_eqb_refl, qsum_cons.
    set (U := unique (flat_map (fun r => option_list (r_partner r)) l)) in *.
    rewrite (qsum_ext _ (fun k => qsum g (filter (partner_is k) l))).
    2:{ intros k Hk. apply filter_In in Hk as [_ Hk]. apply negb_true_iff in Hk.
        rewrite (partner_is_some k r n Hr), Hk. reflexivity. }
    rewrite <- IH, (qsum_split_at _ n U (NoDup_unique _)).
    destruct (existsb (text_eqb n) U) eqn:E; [ring|].
    rewrite filter_partner_absent; [simpl; ring|].
    intro Hin. apply (In_unique n) in Hin. fold U in Hin.
    assert (existsb (text_eqb n) U = true) by (apply existsb_exists; exists n; split; [exact Hin|apply text_eqb_refl]).
    congruence.
  - rewrite <- IH. apply qsum_ext. intros k _.
    rewrite (partner_is_none k r Hr). reflexivity.
Qed.

Lemma filter_twice {A} (p : A -> bool) l : filter p (filter p l) = filter p l.
Proof.
  induction l as [|x l IH]; simpl; [reflexivity|].
  destruct (p x) eqn:E; simpl; [rewrite E, IH|]; auto.
Qed.

(** C6, amended (exact arithmetic): for a transactions frame that has a
    [partner_name] column and a known pair of debit/credit columns, if every
    sum is computed exactly, the sum of [Total_Credit] plus the sum of
    [Total_Debit] over the rows of [create_partner_summary_table] equals the
    sum of the credit plus the debit amounts of the transactions whose
    [partner_name] is not null. The binary64 sums of pandas need not agree:
    see [FloatVolume.partner_summary_volume_float_mismatch]. *)
Theorem partner_summary_conserves_volume (partner_df : frame) :
  mem (T "partner_name") (cols partner_df) = true ->
  amount_cols_known (cols partner_df) = true ->
  qsum ps_credit (create_partner_summary_table partner_df)
  + qsum ps_debit (create_partner_summary_table partner_df)
  == qsum r_credit (filter attributed (rows partner_df))
     + qsum r_debit (filter attributed (rows partner_df)).
Proof.
  intros Hp Ha. unfold create_partner_summary_table.
  rewrite Hp. destruct partner_df as [cs rs]; cbn [cols rows] in *.
  destruct rs as [|r0 rs0]; [reflexivity|].
  destruct cs as [|c0 cs0]; [discriminate Hp|].
  cbn [frame_empty cols rows orb negb].
  destruct (filter attributed (r0 :: rs0)) as [|p0 pt] eqn:Hpt; [reflexivity|].
  rewrite Ha. cbn [negb].
  assert (Hid : filter attributed (p0 :: pt) = p0 :: pt) by (rewrite <- Hpt; apply filter_twice).
  rewrite (qsum_perm ps_credit _ _ (sort_desc_perm _ _)),
          (qsum_perm ps_debit _ _ (sort_desc_perm _ _)), !qsum_map.
  cbn [ps_credit ps_debit].
  rewrite (partner_sums_total r_credit (p0 :: pt)), (partner_sums_total r_debit (p0 :: pt)), Hid.
  reflexivity.
Qed.

Lemma partner_summary_conserves_volume_witness :
  let f := Frame [T "Remark"; T "Debit"; T "Credit"; T "partner_name"]
                 [Row (T "a") 5 0 (Some (T "ZETA")) (T "DEBIT") 5;
                  Row (T "b") 0 7 (Some (T "ALPHA")) (T "CREDIT") 7;
                  Row (T "c") 3 0 None (T "DEBIT") 3] in
  mem (T "partner_name") (cols f) = true /\ amount_cols_known (cols f) = true /\
  qsum ps_credit (create_partner_summary_table f) + qsum ps_debit (create_partner_summary_table f)
  == qsum r_credit (filter attributed (rows f)) + qsum r_debit (filter attributed (rows f)).
Proof.
  intro f. split; [vm_compute; reflexivity|]. split; [vm_compute; reflexivity|].
  apply partner_summary_conserves_volume; vm_compute; reflexivity.
Defined.

Module FloatVolume.
Import PrimFloat Binary64.
Local Set Warnings "-inexact-float".

(** The sums below agree for every [Series.sum()] that adds fewer than
    eight values one after the other, from 0. *)
Lemma volume_float_mismatch_short_sums (pd_sum : list float -> float) :
  (forall l, (length l < 8)%nat -> pd_sum l = seq_sum l) ->
  let f := FFrame [T "Debit"; T "Credit"; T "partner_name"]
                  [FRow (Some (T "ALPHA")) 0 0.2; FRow (Some (T "BETA")) 0 0.1;
                   FRow (Some (T "ALPHA")) 0 0.3] in
  let tbl := Binary64.create_partner_summary_table pd_sum f in
  let pt := filter fattributed (frows f) in
  mem (T "partner_name") (fcols f) = true /\ amount_cols_known (fcols f) = true /\
  add (col_sum pd_sum fp_credit tbl) (col_sum pd_sum fp_debit tbl) = 0.6%float /\
  add (col_sum pd_sum fr_credit pt) (col_sum pd_sum fr_debit pt) = 0.6000000000000001%float /\
  add 0.2 (add 0.1 0.3) = 0.6000000000000001%float.
Proof.
  intros Hs f tbl pt.
  split; [vm_compute; reflexivity|]. split; [vm_compute; reflexivity|].
  unfold tbl, pt, f, Binary64.create_partner_summary_table, col_sum.
  cbv.
  repeat (match goal with |- context [pd_sum ?l] =>
            rewrite (Hs l) by (apply Nat.ltb_lt; vm_compute; reflexivity) end; cbv).
  vm_compute. split; [reflexivity|split; reflexivity].
Qed.

(** C6, counterexample: with binary64 amounts summed as numpy sums short
    columns (one value after the other, from 0), three credits 0.20
    (ALPHA), 0.10 (BETA) and 0.30 (ALPHA) give table totals 0.5 and 0.1,
    whose sum is 0.6, while the attributed transactions' credits sum to
    0.6000000000000001 (also when the last two are added first). *)
Lemma partner_summary_volume_float_mismatch :
  let f := FFrame [T "Debit"; T "Credit"; T "partner_name"]
                  [FRow (Some (T "ALPHA")) 0 0.2; FRow (Some (T "BETA")) 0 0.1;
                   FRow (Some (T "ALPHA")) 0 0.3] in
  let tbl := Binary64.create_partner_summary_table seq_sum f in
  let pt := filter fattributed (frows f) in
  mem (T "partner_name") (fcols f) = true /\ amount_cols_known (fcols f) = true /\
  add (col_sum seq_sum fp_credit tbl) (col_sum seq_sum fp_debit tbl) = 0.6%float /\
  add (col_sum seq_sum fr_credit pt) (col_sum seq_sum fr_debit pt) = 0.6000000000000001%float /\
  add 0.2 (add 0.1 0.3) = 0.6000000000000001%float.
Proof. apply volume_float_mismatch_short_sums. intros l _. reflexivity. Qed.
End FloatVolume.

(** C9 (direction of a transaction): the [transaction_type] of a row is
    ["DEBIT"] exactly when its debit is positive (whatever the credit, so a
    row with both amounts positive is a debit), ["CREDIT"] exactly when the
    debit is not positive and the credit is, ["UNKNOWN"] exactly when
    neither is positive, and always one of these three: the derivation is a
    total function of the two amounts. *)
Theorem transaction_type_spec (debit credit : Q) :
  (transaction_type debit credit = T "DEBIT" <-> 0 < debit) /\
  (transaction_type debit credit = T "CREDIT" <-> ~ 0 < debit /\ 0 < credit) /\
  (transaction_type debit credit = T "UNKNOWN" <-> ~ 0 < debit /\ ~ 0 < credit) /\
  In (transaction_type debit credit) [T "DEBIT"; T "CREDIT"; T "UNKNOWN"].
Proof.
  unfold transaction_type.
  destruct (qlt 0 debit) eqn:E1; [apply qlt_spec in E1|apply qlt_false in E1];
  destruct (qlt 0 credit) eqn:E2; [apply qlt_spec in E2|apply qlt_false in E2|apply qlt_spec in E2|apply qlt_false in E2];
  repeat split; intros; try tauto; simpl; auto;
  match goal with H : _ = _ |- _ => vm_compute in H; discriminate H | _ => idtac end;
  tauto.
Qed.

(** ** Code-point order *)

Lemma code_inj (x y : ascii) : code x = code y -> x = y.
Proof.
  unfold code; intro H.
  rewrite <- (ascii_nat_embedding x), <- (ascii_nat_embedding y), H; reflexivity.
Qed.

Lemma text_ltb_irrefl (a : text) : text_ltb a a = false.
Proof.
  induction a as [|x a IH]; simpl; [reflexivity|].
  rewrite Nat.ltb_irrefl; exact IH.
Qed.

Lemma text_ltb_trans (a b c : text) :
  text_ltb a b = true -> text_ltb b c = true -> text_ltb a c = true.
Proof.
  revert b c; induction a as [|x a IH]; intros [|y b] [|z c]; simpl; intros H1 H2;
    try congruence.
  destruct (lt_eq_lt_dec (code x) (code y)) as [[L1|L1]|L1];
  destruct (lt_eq_lt_dec (code y) (code z)) as [[L2|L2]|L2];
  repeat match goal with
         | H : context [?p <? ?q] |- _ =>
             destruct (p <? q) eqn:?; rewrite ?Nat.ltb_lt, ?Nat.ltb_ge in *
         | |- context [?p <? ?q] =>
             destruct (p <? q) eqn:?; rewrite ?Nat.ltb_lt, ?Nat.ltb_ge in *
         end;
  try reflexivity; try lia; try congruence; eauto.
Qed.

Lemma text_ltb_total (a b : text) : a <> b -> text_ltb a b = true \/ text_ltb b a = true.
Proof.
  revert b; induction a as [|x a IH]; intros [|y b] Hne; simpl; auto; try congruence.
  destruct (code x <? code y) eqn:E1; auto.
  destruct (code y <? code x) eqn:E2; auto.
  rewrite Nat.ltb_ge in E1, E2.
  assert (x = y) by (apply code_inj; lia); subst.
  apply IH. intro; subst; apply Hne; reflexivity.
Qed.

Lemma In_insert_sorted {A} (lt : A -> A -> bool) x l z :
  In z (insert_sorted lt x l) <-> x = z \/ In z l.
Proof.
  induction l as [|y l IH]; simpl; [tauto|].
  destruct (lt x y); simpl; [tauto|]. rewrite IH; tauto.
Qed.

Lemma In_sort_by {A} (lt : A -> A -> bool) l z : In z (sort_by lt l) <-> In z l.
Proof.
  unfold sort_by; induction l as [|x l IH]; simpl; [tauto|].
  rewrite In_insert_sorted, IH; intuition.
Qed.

Lemma insert_sorted_sorted x l :
  StronglySorted (fun a b => text_ltb a b = true) l -> ~ In x l ->
  StronglySorted (fun a b => text_ltb a b = true) (insert_sorted text_ltb x l).
Proof.
  induction l as [|y l IH]; intros S Hx; simpl.
  - repeat constructor.
  - inversion S as [|? ? S' Hy]; subst.
    destruct (text_ltb x y) eqn:E.
    + constructor; [exact S|]. apply Forall_forall; intros z [<-|Hz]; [exact E|].
      apply (text_ltb_trans x y z E). exact (proj1 (Forall_forall _ _) Hy z Hz).
    + assert (E' : text_ltb y x = true).
      { destruct (text_ltb_total x y) as [H|H]; [intro; subst; apply Hx; left; reflexivity|congruence|exact H]. }
      constructor.
      * apply IH; [exact S'|intro; apply Hx; right; assumption].
      * apply Forall_forall; intros z Hz. apply In_insert_sorted in Hz as [<-|Hz]; [exact E'|].
        exact (proj1 (Forall_forall _ _) Hy z Hz).
Qed.

Lemma sort_texts_sorted l :
  NoDup l -> StronglySorted (fun a b => text_ltb a b = true) (sort_texts l).
Proof.
  unfold sort_texts, sort_by; induction l as [|x l IH]; intro ND; simpl; [constructor|].
  inversion ND; subst. apply insert_sorted_sorted; [apply IH; assumption|].
  intro H. apply (In_sort_by text_ltb l x) in H. contradiction.
Qed.

Lemma sorted_after {A} (R : A -> A -> Prop) l1 x l2 :
  StronglySorted R (l1 ++ x :: l2) -> forall y, In y l2 -> R x y.
Proof.
  induction l1 as [|a l1 IH]; simpl; intro S; inversion S; subst.
  - apply Forall_forall; assumption.
  - apply IH; assumption.
Qed.

Lemma sorted_map_key {A B} (R : B -> B -> Prop) (g : A -> B) (h : B -> A) l :
  (forall b, g (h b) = b) -> StronglySorted R l ->
  StronglySorted (fun x y => R (g x) (g y)) (map h l).
Proof.
  intros Hgh; induction 1 as [|b l S IH F]; simpl; constructor; [exact IH|].
  apply Forall_map. rewrite Hgh. eapply Forall_impl; [|exact F].
  intros c Hc; rewrite Hgh; exact Hc.
Qed.

(** ** [idxmax] *)

Lemma first_max_split {A} (key : A -> Q) (b : A) (l : list A) :
  exists pre post, b :: l = pre ++ first_max key b l :: post /\
    (forall x, In x pre -> key x < key (first_max key b l)) /\
    (forall x, In x post -> key x <= key (first_max key b l)) /\
    key b <= key (first_max key b l).
Proof.
  revert b; induction l as [|x l IH]; intro b; cbn [first_max].
  - exists [], []. repeat split; try (intros ? []). apply Qle_refl.
  - destruct (qlt (key b) (key x)) eqn:E.
    + apply qlt_spec in E. destruct (IH x) as (pre & post & Hs & Hpre & Hpost & Hb).
      exists (b :: pre), post. rewrite Hs. repeat split; auto.
      * intros y [<-|Hy]; [apply Qlt_le_trans with (key x); assumption|auto].
      * apply Qlt_le_weak, Qlt_le_trans with (key x); assumption.
    + apply qlt_false, Qnot_lt_le in E.
      destruct (IH b) as (pre & post & Hs & Hpre & Hpost & Hb).
      remember (first_max key b l) as r eqn:Hr.
      destruct pre as [|p0 pre].
      * simpl in Hs. injection Hs as Hbr Hl.
        exists [], (x :: post). rewrite Hl, <- Hbr.
        split; [reflexivity|]. split; [intros ? []|]. split; [|apply Qle_refl].
        intros y [<-|Hy]; [exact E|]. rewrite Hbr; apply Hpost; exact Hy.
      * simpl in Hs. injection Hs as Hbp Hl. subst p0.
        exists (b :: x :: pre), post. rewrite Hl.
        split; [reflexivity|]. split; [|split; assumption].
        intros y [<-|[<-|Hy]].
        -- apply Hpre; left; reflexivity.
        -- apply Qle_lt_trans with (key b); [exact E|apply Hpre; left; reflexivity].
        -- apply Hpre; right; exact Hy.
Qed.

(** ** Volumes in [create_partner_statistics_summary] *)

Lemma partner_volume_link (rs : list (option text * Q * Q)) (n : text) :
  let pt := flat_map (fun '(p, d, c) => match p with Some n => [(n, d, c)] | None => [] end) rs in
  let p := filter (fun x => text_eqb (fst (fst x)) n) pt in
  qsum (fun x : text * Q * Q => let '(_, d, _) := x in d) p
  + qsum (fun x : text * Q * Q => let '(_, _, c) := x in c) p
  == qsum (fun x : option text * Q * Q =>
             match fst (fst x) with
             | Some m => if text_eqb m n then snd (fst x) + snd x else 0
             | None => 0
             end) rs.
Proof.
  cbv zeta. induction rs as [|[[p d] c] rs IH]; [reflexivity|].
  rewrite qsum_cons. cbn [flat_map fst snd].
  destruct p as [m|]; cbn [app filter fst].
  - destruct (text_eqb m n); rewrite ?qsum_cons, <- IH; ring.
  - rewrite <- IH; ring.
Qed.

Lemma partner_names_link (rs : list (option text * Q * Q)) (n : text) :
  In n (map (fun '(n, _, _) => n)
            (flat_map (fun '(p, d, c) => match p with Some n => [(n, d, c)] | None => [] end) rs))
  <-> In (Some n) (map (fun x => fst (fst x)) rs).
Proof.
  induction rs as [|[[p d] c] rs IH]; [simpl; tauto|].
  cbn [flat_map map fst]. destruct p as [m|]; cbn [app map In].
  - rewrite IH. split; intros [H|H]; auto; left; congruence.
  - rewrite IH. split; [auto|]. intros [H|H]; [discriminate|exact H].
Qed.

(** C8, as amended (top partner): when [create_partner_statistics_summary]
    produces its row from the (partner, debit, credit) cells [rs] of its
    input (the transactions frame or the per-(partner, direction)
    aggregate), [Top_Partner] is one of the partners, [Top_Partner_Amount]
    is its total volume (debit plus credit), no partner has a larger volume,
    and every other partner with the same volume has a larger name in
    code-point order: [groupby('partner_name')] sorts the names before
    [idxmax] takes the first maximum, so ties go to the smallest name, not
    to the partner met first. *)
Theorem top_partner_spec (cs : list text) (rs : list (option text * Q * Q)) (st : stats) :
  partner_statistics cs rs = Some st ->
  let vol (n : text) :=
    qsum (fun x : option text * Q * Q =>
            match fst (fst x) with
            | Some m => if text_eqb m n then snd (fst x) + snd x else 0
            | None => 0
            end) rs in
  let top := st_top_partner st in
  In (Some top) (map (fun x => fst (fst x)) rs) /\
  st_top_amount st == vol top /\
  (forall n, In (Some n) (map (fun x => fst (fst x)) rs) ->
     vol n <= vol top /\ (vol n == vol top -> n = top \/ text_ltb top n = true)).
Proof.
  intros H vol top. subst top vol.
  pose proof (partner_volume_link rs) as Hvol. pose proof (partner_names_link rs) as Hnames.
  cbv zeta in Hvol.
  unfold partner_statistics in H. cbv zeta in H.
  destruct rs as [|x0 rs0]; [discriminate H|]. lazy beta iota in H.
  destruct (mem (T "partner_name") cs); cbn [negb] in H; [|discriminate H].
  destruct (flat_map _ (x0 :: rs0)) as [|y0 pt0] eqn:Hpt in H; [discriminate H|].
  lazy beta iota in H.
  destruct (amount_cols_known cs); cbn [negb] in H; [|discriminate H].
  remember (map (fun '(n, _, _) => n) (y0 :: pt0)) as names eqn:Enames.
  remember (sort_texts (unique names)) as N0 eqn:EN0.
  injection H as Hst. subst st.
  change (st_top_partner (Stats _ _ _ _ _ ?f _)) with f.
  change (st_top_amount (Stats _ _ _ _ _ _ ?g)) with g.
  rewrite Hpt in Hvol, Hnames. rewrite <- Enames in Hnames.
  assert (HN : forall n, In n N0 <-> In n names).
  { intro n. subst N0. unfold sort_texts. rewrite In_sort_by, In_unique. tauto. }
  assert (HS : StronglySorted (fun a b => text_ltb a b = true) N0)
    by (subst N0; apply sort_texts_sorted, NoDup_unique).
  destruct N0 as [|n0 N].
  { exfalso. destruct y0 as [[a b] c]. apply (proj2 (HN a)). subst names; left; reflexivity. }
  cbn [map hd tl].
  match goal with |- context [first_max snd ?b (map ?f N)] =>
    set (mk := f) in *; change b with (mk n0)
  end.
  destruct (first_max_split snd (mk n0) (map mk N)) as (pre & post & Hs & Hpre & Hpost & _).
  assert (Hin : forall z, In z (map mk (n0 :: N)) <->
                          In z (pre ++ first_max snd (mk n0) (map mk N) :: post))
    by (intro z; cbn [map]; rewrite Hs; tauto).
  change (mk n0 :: map mk N) with (map mk (n0 :: N)) in Hs.
  assert (Hv : forall n, snd (mk n) == qsum (fun x : option text * Q * Q =>
                           match fst (fst x) with
                           | Some m => if text_eqb m n then snd (fst x) + snd x else 0
                           | None => 0
                           end) (x0 :: rs0)) by (intro n; exact (Hvol n)).
  assert (Hf : forall n, fst (mk n) = n) by (intro; reflexivity).
  assert (HS' := sorted_map_key (fun u v => text_ltb u v = true) fst mk (n0 :: N) Hf HS).
  remember (first_max snd (mk n0) (map mk N)) as r eqn:Hr.
  repeat match goal with |- context [first_max ?k ?b ?l] =>
    replace (first_max k b l) with r by (rewrite Hr; reflexivity) end.
  assert (HL : In r (map mk (n0 :: N))) by (apply Hin; apply in_or_app; right; left; reflexivity).
  apply in_map_iff in HL as (nr & Hnr & HnrN). clear Hr. subst r. rewrite Hf.
  split; [|split].
  - apply Hnames, HN, HnrN.
  - apply Hv.
  - intros n Hn. apply Hnames, HN in Hn.
    rewrite <- (Hv n), <- (Hv nr).
    apply (in_map mk) in Hn. apply Hin in Hn.
    rewrite Hs in HS'.
    apply in_app_or in Hn as [Hm|[Hm|Hm]].
    + specialize (Hpre _ Hm). split; [apply Qlt_le_weak; exact Hpre|].
      intro Heq. exfalso. rewrite Heq in Hpre. exact (Qlt_irrefl _ Hpre).
    + assert (E : fst (mk nr) = fst (mk n)) by (rewrite Hm; reflexivity).
      rewrite !Hf in E. subst n. split; [apply Qle_refl|]. intros _. left; reflexivity.
    + specialize (Hpost _ Hm). split; [exact Hpost|].
      intros _. right. rewrite <- (Hf n), <- (Hf nr). exact (sorted_after _ _ _ _ HS' _ Hm).
Qed.

Lemma top_partner_spec_witness :
  partner_statistics [T "partner_name"; T "debit"; T "kredit"]
    [(Some (T "ZETA CORP"), 100, 0); (Some (T "ALPHA CORP"), 100, 0)]
  = Some (Stats 0 2 0 200 2 (T "ALPHA CORP") 100) /\
  In (Some (T "ALPHA CORP")) [Some (T "ZETA CORP"); Some (T "ALPHA CORP")].
Proof.
  assert (E : partner_statistics [T "partner_name"; T "debit"; T "kredit"]
                [(Some (T "ZETA CORP"), 100, 0); (Some (T "ALPHA CORP"), 100, 0)]
              = Some (Stats 0 2 0 200 2 (T "ALPHA CORP") 100)) by (vm_compute; reflexivity).
  split; [exact E|]. exact (proj1 (top_partner_spec _ _ _ E)).
Defined.

(** C8, counterexample: two e-statement lines with the same volume (100),
    ZETA CORP first; both are attributed, and the statement reports
    ALPHA CORP, the partner met second, as top partner. *)
Lemma top_partner_not_first_encountered :
  let txt := (T "01/03/24 10:15:00 ZETA CORP 1234567 100.00 0.00 100.00" ++ [nl] ++
              T "01/03/24 10:16:00 ALPHA CORP 1234567 100.00 0.00 0.00")%list in
  map (fun t => BriPartner.extract_partner_name_bri (e_deskripsi t)) (Bri.extract_transactions txt)
  = [Some (T "ZETA CORP"); Some (T "ALPHA CORP")] /\
  forallb (fun t => Qeq_bool (e_debit t + e_kredit t) 100) (Bri.extract_transactions txt) = true /\
  match BriMain.parse_bri_statement (T "x2025.pdf") txt with
  | Ok o => option_map st_top_partner (o_analytics o) = Some (T "ALPHA CORP")
  | Raise _ => False
  end.
Proof. intros txt. split; [|split]; vm_compute; reflexivity. Qed.

Lemma to_upper_not_lower (c : ascii) : is_lower (to_upper c) = false.
Proof. destruct c as [[] [] [] [] [] [] [] []]; reflexivity. Qed.

Lemma prefix_lower_upper (x : ascii) (p l : text) :
  is_lower x = true -> prefixb (x :: p) (upper l) = false.
Proof.
  intro Hx. destruct l as [|y l]; [reflexivity|].
  change (upper (y :: l)) with (to_upper y :: upper l). cbn [prefixb].
  destruct (Ascii.eqb_spec x (to_upper y)) as [E|_]; [|reflexivity].
  exfalso. rewrite E, to_upper_not_lower in Hx. discriminate Hx.
Qed.

(** The mixed-case keyword ["Fee"] of the e-statement attributor never
    occurs in an upper-cased description. *)
Lemma fee_never_matches (d : text) : contains (T "Fee") (upper d) = false.
Proof.
  induction d as [|y d IH]; [reflexivity|].
  change (upper (y :: d)) with (to_upper y :: upper d).
  cbn [contains]. rewrite IH, orb_false_r.
  change (prefixb (T "Fee") (to_upper y :: upper d))
    with (("F" =? to_upper y)%char && prefixb ("e" :: "e" :: [])%char (upper d)).
  rewrite prefix_lower_upper by reflexivity. apply andb_false_r.
Qed.

(** C1 (code bug): [extract_cms_account_info] of [bri_streamlit_app.py]
    raises [NameError] on every text, empty or not, since its first
    statement calls the undefined [clean_statement_lines]; so
    [parse_bri_statement] raises it for every statement whose file name
    does not contain 2025, such as statement.pdf. *)
Theorem bri_cms_account_info_raises :
  (forall txt, BriHeader.extract_cms_account_info txt = Raise (NameError "clean_statement_lines")) /\
  (forall txt, BriMain.parse_bri_statement (T "statement.pdf") txt
               = Raise (NameError "clean_statement_lines")).
Proof. split; intro txt; reflexivity. Qed.

(** C4 (code bug): the e-statement attributor of [bri_streamlit_app.py]
    lists the fee marker as ["Fee"] and compares it with the upper-cased
    description, so it never excludes a fee line: a description containing
    FEE is attributed to a partner, where [app.py] (keyword ["FEE"])
    returns [None]. *)
Theorem bri_fee_keyword_inert :
  (forall d, contains (T "Fee") (upper d) = false) /\
  BriPartner.extract_partner_name_bri (T "TRANSFER FEE BUDI SANTOSA")
    = Some (T "TRANSFER FEE BUDI SANTOSA") /\
  App.extract_partner_name_bri (T "TRANSFER FEE BUDI SANTOSA") = None.
Proof.
  split; [exact fee_never_matches|].
  split; vm_compute; reflexivity.
Qed.

(** C10, counterexample: a frame whose columns match neither format comes
    back unchanged, without the [partner_name], [transaction_type] and
    [amount] columns. *)
Lemma unified_unknown_not_enriched :
  let f := Frame [T "foo"] [Row (T "TRANSFER BUDI SANTOSA") 0 0 None [] 0] in
  analyze_bri_partners_unified BriPartner.extract_partner_name_bri f = Some (RFrame f, []) /\
  mem (T "partner_name") (cols f) = false.
Proof. intros f. split; vm_compute; reflexivity. Qed.

Lemma mem_add_col_self (d : text) (l : list text) : mem d (add_col d l) = true.
Proof.
  unfold add_col. destruct (mem d l) eqn:E; [exact E|].
  unfold mem. rewrite existsb_app. cbn. rewrite text_eqb_refl. apply orb_true_r.
Qed.

Lemma mem_add_col_keep (c d : text) (l : list text) : mem c l = true -> mem c (add_col d l) = true.
Proof.
  intro H. unfold add_col. destruct (mem d l); [exact H|].
  unfold mem in *. rewrite existsb_app, H. reflexivity.
Qed.

Lemma enrich_cols (attribute : text -> option text) (f : frame) :
  forallb (fun c => mem c (cols (enrich attribute f)))
          [T "partner_name"; T "transaction_type"; T "amount"] = true.
Proof.
  unfold enrich; cbn [cols forallb].
  rewrite mem_add_col_self, (mem_add_col_keep _ _ _ (mem_add_col_self _ _)),
    (mem_add_col_keep _ _ _ (mem_add_col_keep _ _ _ (mem_add_col_self _ _))).
  reflexivity.
Qed.

Lemma filter_attributed_enrich (attribute : text -> option text) (f : frame) :
  (forall r, In r (rows f) -> attribute (r_desc r) = None) ->
  filter attributed (rows (enrich attribute f)) = [].
Proof.
  unfold enrich; cbn [rows]. induction (rows f) as [|r l IH]; intro H; [reflexivity|].
  cbn [map filter]. unfold attributed at 1; cbn [r_partner].
  rewrite (H r (or_introl eq_refl)). apply IH. intros r' Hr'. apply H. right; exact Hr'.
Qed.

Lemma filter_attributed_enrich_in (attribute : text -> option text) (f : frame) x :
  In x (filter attributed (rows (enrich attribute f))) ->
  exists r, In r (rows f) /\ attribute (r_desc r) <> None.
Proof.
  intro Hx. apply filter_In in Hx as [Hx Ha].
  unfold enrich in Hx; cbn [rows] in Hx. apply in_map_iff in Hx as (r & <- & Hr).
  exists r. split; [exact Hr|]. unfold attributed in Ha; cbn [r_partner] in Ha.
  destruct (attribute (r_desc r)); [discriminate|discriminate Ha].
Qed.

(** C10, amended: on a non-empty frame, [analyze_bri_partners_unified]
    returns the frame itself, not enriched, when its columns match neither
    format. When the format is known, it raises [KeyError] ([None]) if the
    format's debit or credit column is missing, and otherwise, when no row
    is attributed, returns the enriched frame (which has the
    [partner_name], [transaction_type] and [amount] columns) with an empty
    summary. It returns the per-(partner, direction) aggregate only when
    some row is attributed. *)
Theorem analyze_unattributed_spec (attribute : text -> option text) (f : frame) :
  frame_empty f = false ->
  (detect_bri_format (cols f) = UNKNOWN ->
     analyze_bri_partners_unified attribute f = Some (RFrame f, [])) /\
  (forall debit_col credit_col,
     (detect_bri_format (cols f) = CMS /\ debit_col = T "Debit" /\ credit_col = T "Credit") \/
     (detect_bri_format (cols f) = E_STATEMENT /\ debit_col = T "debit" /\ credit_col = T "kredit") ->
     ((mem debit_col (cols f) && mem credit_col (cols f)) = false ->
        analyze_bri_partners_unified attribute f = None) /\
     ((mem debit_col (cols f) && mem credit_col (cols f)) = true ->
      (forall r, In r (rows f) -> attribute (r_desc r) = None) ->
        analyze_bri_partners_unified attribute f = Some (RFrame (enrich attribute f), []))) /\
  forallb (fun c => mem c (cols (enrich attribute f)))
          [T "partner_name"; T "transaction_type"; T "amount"] = true /\
  (forall cs gs ps, analyze_bri_partners_unified attribute f = Some (RGroups cs gs, ps) ->
     exists r, In r (rows f) /\ attribute (r_desc r) <> None).
Proof.
  intro Hne. unfold analyze_bri_partners_unified. rewrite Hne; cbn [orb].
  split; [|split; [|split]].
  - intro Hu. rewrite Hu. reflexivity.
  - intros dc cc [(Hf & -> & ->)|(Hf & -> & ->)]; rewrite Hf;
      (split; intro Hm; rewrite Hm; cbn [negb];
       [reflexivity|intro Hn; rewrite (filter_attributed_enrich attribute f Hn); reflexivity]).
  - apply enrich_cols.
  - intros cs gs ps.
    destruct (detect_bri_format (cols f)); [| |discriminate];
      (destruct (negb _); [discriminate|];
       destruct (filter attributed (rows (enrich attribute f))) as [|x l] eqn:E; [discriminate|];
       intros _; apply (filter_attributed_enrich_in attribute f x); rewrite E; left; reflexivity).
Qed.

Lemma analyze_unattributed_spec_witness :
  let f1 := frame_of_c [CTxn (T "03/03/24") (T "BIAYA ADM") 5 0 745] in
  let f2 := Frame [T "Remark"; T "Debit"] [Row (T "BIAYA ADM") 5 0 None [] 0] in
  frame_empty f1 = false /\ frame_empty f2 = false /\
  analyze_bri_partners_unified BriPartner.extract_partner_name_bri f1
    = Some (RFrame (enrich BriPartner.extract_partner_name_bri f1), []) /\
  analyze_bri_partners_unified BriPartner.extract_partner_name_bri f2 = None.
Proof.
  intros f1 f2.
  assert (E1 : frame_empty f1 = false) by reflexivity.
  assert (E2 : frame_empty f2 = false) by reflexivity.
  split; [exact E1|]. split; [exact E2|]. split.
  - apply (proj2 (proj1 (proj2 (analyze_unattributed_spec BriPartner.extract_partner_name_bri f1 E1))
                   (T "Debit") (T "Credit") (or_introl (conj eq_refl (conj eq_refl eq_refl))))).
    + reflexivity.
    + intros r Hr. destruct Hr as [<-|[]]. vm_compute. reflexivity.
  - apply (proj1 (proj1 (proj2 (analyze_unattributed_spec BriPartner.extract_partner_name_bri f2 E2))
                   (T "Debit") (T "Credit") (or_introl (conj eq_refl (conj eq_refl eq_refl))))).
    reflexivity.
Defined.

(** C3, counterexample: [clean_amount], the normalizer of every
    transaction amount, drops the comma of "1.234,56" and reads 123456. *)
Lemma clean_amount_not_european :
  clean_amount (T "1.234,56") == 123456 /\ ~ (clean_amount (T "1.234,56") == 123456 # 100).
Proof. split; vm_compute; [reflexivity|discriminate]. Qed.

Lemma digit_facts (c : ascii) :
  is_digit c = true ->
  (c =? ".")%char = false /\ (c =? ",")%char = false /\ (c =? "-")%char = false /\
  (c =? "+")%char = false /\ is_space c = false.
Proof. intro H. destruct c as [[] [] [] [] [] [] [] []]; vm_compute in H |- *;
  try discriminate H; repeat split. Qed.

Lemma digit_or_dot_facts (c : ascii) :
  digit_or_dot c = true ->
  (c =? ",")%char = false /\ (c =? "-")%char = false /\ (c =? "+")%char = false /\
  is_space c = false.
Proof.
  unfold digit_or_dot. intro H. apply orb_true_iff in H as [H|H].
  - apply digit_facts in H. tauto.
  - apply Ascii.eqb_eq in H. subst c. repeat split.
Qed.

Lemma lstrip_no_space (s : text) :
  forallb (fun c => negb (is_space c)) s = true -> lstrip s = s.
Proof.
  destruct s as [|c s]; [reflexivity|]. cbn [forallb]. intro H.
  apply andb_true_iff in H as [H _]. cbn [lstrip]. destruct (is_space c); [discriminate H|reflexivity].
Qed.

Lemma strip_no_space (s : text) :
  forallb (fun c => negb (is_space c)) s = true -> strip s = s.
Proof.
  intro H. unfold strip. rewrite (lstrip_no_space s H), lstrip_no_space, rev_involutive; [reflexivity|].
  apply forallb_forall. intros x Hx. apply in_rev in Hx. exact (proj1 (forallb_forall _ _) H x Hx).
Qed.

Lemma rfind_aux_app (c : ascii) (a b : text) (i best : Z) :
  rfind_aux c (a ++ b) i best = rfind_aux c b (i + Z.of_nat (length a)) (rfind_aux c a i best).
Proof.
  revert i best. induction a as [|x a IH]; intros i best.
  - cbn. rewrite Z.add_0_r. reflexivity.
  - cbn [app rfind_aux length]. rewrite IH. f_equal. lia.
Qed.

Lemma rfind_aux_absent (c : ascii) (s : text) (i best : Z) :
  forallb (fun x => negb (x =? c)%char) s = true -> rfind_aux c s i best = best.
Proof.
  revert i best. induction s as [|x s IH]; intros i best H; [reflexivity|].
  cbn [forallb] in H. apply andb_true_iff in H as [Hx H].
  cbn [rfind_aux]. destruct (x =? c)%char; [discriminate Hx|]. apply IH, H.
Qed.

Lemma rfind_aux_lt (c : ascii) (s : text) (i best : Z) :
  (best < i)%Z -> (rfind_aux c s i best < i + Z.of_nat (length s))%Z.
Proof.
  revert i best. induction s as [|x s IH]; intros i best H; [cbn; lia|].
  cbn [rfind_aux length].
  assert (H' : ((if (x =? c)%char then i else best) < i + 1)%Z) by (destruct (x =? c)%char; lia).
  specialize (IH _ _ H'). lia.
Qed.

Lemma span_digits_app (a rest : text) :
  forallb is_digit a = true ->
  span_digits (a ++ rest) = (a ++ fst (span_digits rest), snd (span_digits rest)).
Proof.
  induction a as [|x a IH]; intro H.
  - cbn. destruct (span_digits rest); reflexivity.
  - cbn [forallb] in H. apply andb_true_iff in H as [Hx H].
    cbn [app span_digits]. rewrite Hx, (IH H). reflexivity.
Qed.

Lemma contains_app_cons (c : ascii) (a b : text) : contains [c] (a ++ c :: b) = true.
Proof.
  induction a as [|x a IH].
  - cbn. rewrite Ascii.eqb_refl. reflexivity.
  - cbn [app contains]. rewrite IH. apply orb_true_r.
Qed.

Lemma span_digits_all (b : text) : forallb is_digit b = true -> span_digits b = (b, []).
Proof.
  intro H. rewrite <- (app_nil_r b) at 1. rewrite (span_digits_app b [] H).
  cbn [fst snd span_digits]. rewrite app_nil_r. reflexivity.
Qed.

Lemma forallb_digit_or_dot (l : text) : forallb is_digit l = true -> forallb digit_or_dot l = true.
Proof.
  intro H. apply forallb_forall. intros x Hx. unfold digit_or_dot.
  rewrite (proj1 (forallb_forall _ _) H x Hx). reflexivity.
Qed.

Lemma forallb_no_space (l : text) :
  forallb digit_or_dot l = true -> forallb (fun c => negb (is_space c)) l = true.
Proof.
  intro H. apply forallb_forall. intros x Hx.
  destruct (digit_or_dot_facts x (proj1 (forallb_forall _ _) H x Hx)) as (_ & _ & _ & ->).
  reflexivity.
Qed.

Lemma filter_all {A} (p : A -> bool) (l : list A) : forallb p l = true -> filter p l = l.
Proof.
  induction l as [|x l IH]; intro H; [reflexivity|].
  cbn [forallb] in H. apply andb_true_iff in H as [Hx H]. cbn [filter]. rewrite Hx, (IH H). reflexivity.
Qed.

Lemma map_no_comma (l : text) :
  forallb (fun x => negb (x =? ",")%char) l = true ->
  map (fun x => if (x =? ",")%char then "."%char else x) l = l.
Proof.
  induction l as [|x l IH]; intro H; [reflexivity|].
  cbn [forallb] in H. apply andb_true_iff in H as [Hx H]. cbn [map].
  destruct (x =? ",")%char; [discriminate Hx|]. rewrite (IH H). reflexivity.
Qed.

Lemma py_float_digits (a b : text) :
  forallb is_digit a = true -> forallb is_digit b = true -> b <> [] ->
  py_float (a ++ "."%char :: b) = Some (digits_value (a ++ b) # Z.to_pos (10 ^ Z.of_nat (length b))).
Proof.
  intros Ha Hb Hne.
  assert (Hall : forallb digit_or_dot (a ++ "."%char :: b) = true).
  { rewrite forallb_app. cbn [forallb]. rewrite !forallb_digit_or_dot by assumption. reflexivity. }
  unfold py_float. rewrite (strip_no_space _ (forallb_no_space _ Hall)).
  assert (Hu : unsigned_decimal (a ++ "."%char :: b)
               = Some (digits_value (a ++ b) # Z.to_pos (10 ^ Z.of_nat (length b)))).
  { unfold unsigned_decimal. rewrite (span_digits_app a _ Ha).
    change (span_digits ("."%char :: b)) with ([] : text, "."%char :: b).
    cbn [fst snd]. rewrite Ascii.eqb_refl, (span_digits_all b Hb), app_nil_r.
    destruct (a ++ b) as [|x l] eqn:E.
    - exfalso. apply Hne. destruct a; [exact E|discriminate E].
    - reflexivity. }
  destruct (a ++ "."%char :: b) as [|c r] eqn:E; [destruct a; discriminate E|].
  cbn [forallb] in Hall. apply andb_true_iff in Hall as [Hc _].
  destruct (digit_or_dot_facts c Hc) as (_ & -> & -> & _). exact Hu.
Qed.

(** C3, amended: the balance-summary [parse_amount] of
    [bri_streamlit_app.py] applies the European rule: for [ip] made of
    digits and periods and a non-empty run of digits [dp], "ip,dp" reads
    as the number whose digits are those of [ip] without its periods,
    followed by [dp], with [dp] as the decimal part; so "1.234,56" reads
    1234.56.  (The transaction amounts go through [clean_amount], which
    does not; see the counterexample.) *)
Theorem parse_amount_european (ip dp : text) :
  forallb digit_or_dot ip = true -> forallb is_digit dp = true -> dp <> [] ->
  parse_amount (ip ++ ","%char :: dp)
  = digits_value (remove_char "." ip ++ dp) # Z.to_pos (10 ^ Z.of_nat (length dp)).
Proof.
  intros Hip Hdp Hne.
  assert (Hdd : forallb digit_or_dot dp = true) by (apply forallb_digit_or_dot, Hdp).
  assert (Hns : forallb (fun c => negb (is_space c)) (ip ++ ","%char :: dp) = true).
  { rewrite forallb_app. cbn [forallb]. rewrite !forallb_no_space by assumption. reflexivity. }
  assert (Hnc : forall l, forallb digit_or_dot l = true ->
                  forallb (fun x => negb (x =? ",")%char) l = true).
  { intros l Hl. apply forallb_forall. intros x Hx.
    destruct (digit_or_dot_facts x (proj1 (forallb_forall _ _) Hl x Hx)) as (-> & _). reflexivity. }
  assert (Hnd : forallb (fun x => negb (x =? ".")%char) dp = true).
  { apply forallb_forall. intros x Hx.
    destruct (digit_facts x (proj1 (forallb_forall _ _) Hdp x Hx)) as (-> & _). reflexivity. }
  assert (Hc : contains (T ",") (ip ++ ","%char :: dp) = true) by apply contains_app_cons.
  assert (Hr : (rfind "," (ip ++ ","%char :: dp) >? rfind "." (ip ++ ","%char :: dp))%Z = true).
  { unfold rfind. rewrite !rfind_aux_app. cbn [rfind_aux].
    rewrite Ascii.eqb_refl, (rfind_aux_absent "," dp _ _ (Hnc dp Hdd)).
    change ("," =? ".")%char with false.
    rewrite (rfind_aux_absent "." dp _ _ Hnd).
    pose proof (rfind_aux_lt "." ip 0 (-1) ltac:(lia)). apply Z.gtb_lt. lia. }
  assert (Hrm : replace_char "," "." (remove_char "." (ip ++ ","%char :: dp))
                = remove_char "." ip ++ "."%char :: dp).
  { unfold remove_char, replace_char. rewrite filter_app. cbn [filter].
    change ("," =? ".")%char with false. cbn [negb].
    rewrite (filter_all _ dp Hnd), map_app. cbn [map].
    rewrite Ascii.eqb_refl, (map_no_comma dp (Hnc dp Hdd)), map_no_comma; [reflexivity|].
    apply forallb_forall. intros x Hx. apply filter_In in Hx as [Hx _].
    exact (proj1 (forallb_forall _ _) (Hnc ip Hip) x Hx). }
  assert (Hd : forallb is_digit (remove_char "." ip) = true).
  { apply forallb_forall. intros x Hx. unfold remove_char in Hx. apply filter_In in Hx as [Hx Hn].
    pose proof (proj1 (forallb_forall _ _) Hip x Hx) as Hx'. unfold digit_or_dot in Hx'.
    destruct (x =? ".")%char; [discriminate Hn|]. rewrite orb_false_r in Hx'. exact Hx'. }
  unfold parse_amount. rewrite (strip_no_space _ Hns), Hc, Hr. cbn [andb].
  rewrite Hrm. unfold float_or_zero. rewrite (py_float_digits _ _ Hd Hdp Hne). reflexivity.
Qed.

Lemma parse_amount_european_witness :
  (forallb digit_or_dot (T "1.234") = true /\ forallb is_digit (T "56") = true /\ T "56" <> []) /\
  parse_amount (T "1.234,56") = 123456 # 100.
Proof.
  assert (H1 : forallb digit_or_dot (T "1.234") = true) by reflexivity.
  assert (H2 : forallb is_digit (T "56") = true) by reflexivity.
  assert (H3 : T "56" <> []) by discriminate.
  split; [tauto|].
  exact (parse_amount_european (T "1.234") (T "56") H1 H2 H3).
Defined.

(** C5, counterexample: an e-statement line whose debit and credit
    columns are both non-zero yields one transaction with debit 100 and
    credit 200. *)
Lemma debit_credit_both_nonzero :
  let txt := T "01/03/24 10:15:00 TRANSFER 1234567 100.00 200.00 300.00" in
  length (Bri.extract_transactions txt) = 1%nat /\
  forallb (fun t => Qeq_bool (e_debit t) 100 && Qeq_bool (e_kredit t) 200)
          (Bri.extract_transactions txt) = true.
Proof. intros txt. split; vm_compute; reflexivity. Qed.

Lemma Q_nonneg (z : Z) (p : positive) : (0 <= z)%Z -> 0 <= z # p.
Proof. intro H. unfold Qle; cbn. lia. Qed.

Lemma digits_value_nonneg (ds : text) : (0 <= digits_value ds)%Z.
Proof.
  unfold digits_value.
  assert (G : forall acc, (0 <= acc)%Z ->
                (0 <= fold_left (fun acc c => acc * 10 + Z.of_nat (code c - 48))%Z ds acc)%Z).
  { induction ds as [|c ds IH]; intros acc Hacc; cbn [fold_left]; [exact Hacc|]. apply IH. lia. }
  apply G. lia.
Qed.

Lemma unsigned_decimal_nonneg (body : text) (q : Q) : unsigned_decimal body = Some q -> 0 <= q.
Proof.
  unfold unsigned_decimal. destruct (span_digits body) as [ip rest]. destruct rest as [|c r].
  - destruct ip; [discriminate|]. intro H; injection H as <-. apply Q_nonneg, digits_value_nonneg.
  - destruct (c =? ".")%char; [|discriminate]. destruct (span_digits r) as [fp rest2].
    destruct rest2; [|discriminate]. destruct (ip ++ fp); [discriminate|].
    intro H; injection H as <-. apply Q_nonneg, digits_value_nonneg.
Qed.

Lemma In_lstrip (x : ascii) (s : text) : In x (lstrip s) -> In x s.
Proof.
  induction s as [|c s IH]; [tauto|]. cbn [lstrip]. destruct (is_space c); [|tauto].
  intro H. right. apply IH, H.
Qed.

Lemma In_strip (x : ascii) (s : text) : In x (strip s) -> In x s.
Proof.
  unfold strip. intro H. apply in_rev, In_lstrip, in_rev, In_lstrip in H. exact H.
Qed.

Lemma py_float_nonneg (s : text) (q : Q) :
  (forall c, In c s -> c <> "-"%char) -> py_float s = Some q -> 0 <= q.
Proof.
  intros Hs. unfold py_float. destruct (strip s) as [|c r] eqn:E; [discriminate|].
  assert (Hc : c <> "-"%char) by (apply Hs, In_strip; rewrite E; left; reflexivity).
  destruct (Ascii.eqb_spec c "-"); [contradiction|].
  destruct (c =? "+")%char; apply unsigned_decimal_nonneg.
Qed.

Lemma float_or_zero_nonneg (s : text) : (forall c, In c s -> c <> "-"%char) -> 0 <= float_or_zero s.
Proof.
  intro Hs. unfold float_or_zero. destruct (py_float s) eqn:E; [|apply Qle_refl].
  exact (py_float_nonneg s q Hs E).
Qed.

Lemma clean_amount_nonneg (s : text) : (forall c, In c s -> c <> "-"%char) -> 0 <= clean_amount s.
Proof.
  intro Hs. unfold clean_amount. destruct s as [|a s]; [apply Qle_refl|].
  destruct (strip (a :: s)); [apply Qle_refl|].
  assert (Hf : forall c, In c (filter (fun c => negb ((c =? ",")%char || is_space c)) (a :: s)) ->
                 c <> "-"%char) by (intros c Hc; apply filter_In in Hc; apply Hs, Hc).
  assert (Hr : forall c, In c (remove_char "." (filter (fun c => negb ((c =? ",")%char || is_space c)) (a :: s))) ->
                 c <> "-"%char) by (intros c Hc; apply filter_In in Hc; apply Hf, Hc).
  destruct (contains _ _); [destruct (_ && _)|]; apply float_or_zero_nonneg; assumption.
Qed.

Lemma In_existsb_char (x : ascii) (l : text) : In x l -> existsb (Ascii.eqb x) l = true.
Proof. intro H. apply existsb_exists. exists x. split; [exact H|apply Ascii.eqb_refl]. Qed.

Lemma e_numeric_no_minus (p : text) : Bri.e_numeric p = true -> forall c, In c p -> c <> "-"%char.
Proof.
  unfold Bri.e_numeric, Bri.numeric_shaped, Bri.seven_digits. intros H c Hc ->.
  apply orb_true_iff in H as [H|H].
  - destruct p; [discriminate|]. apply (proj1 (forallb_forall _ _) H) in Hc. discriminate Hc.
  - apply andb_true_iff in H as [_ H]. apply (proj1 (forallb_forall _ _) H) in Hc. discriminate Hc.
Qed.

Lemma cms_numeric_no_minus (p : text) : Bri.cms_numeric p = true -> forall c, In c p -> c <> "-"%char.
Proof.
  unfold Bri.cms_numeric. intros H c Hc.
  apply orb_true_iff in H as [H|H]; [exact (e_numeric_no_minus p H c Hc)|].
  apply existsb_exists in H as (k & Hk & Hpk). apply text_eqb_eq in Hpk. subst k. intros ->.
  apply In_existsb_char in Hc.
  destruct Hk as [<-|[<-|[<-|[]]]]; discriminate Hc.
Qed.

Lemma In_scan_back (ok : text -> bool) (rps acc : list text) (x : text) :
  In x (scan_back ok rps acc) -> In x acc \/ ok x = true.
Proof.
  revert acc. induction rps as [|p ps IH]; intros acc; cbn [scan_back]; [tauto|].
  destruct (ok p) eqn:Ep; [|apply IH].
  destruct (length (p :: acc) =? 4).
  - intros [<-|H]; [right; exact Ep|left; exact H].
  - intro H. apply IH in H as [[<-|H]|H]; [right; exact Ep|left; exact H|right; exact H].
Qed.

Lemma In_numeric_parts (ok : text -> bool) (parts : list text) (x : text) :
  In x (numeric_parts ok parts) -> ok x = true.
Proof. intro H. apply In_scan_back in H as [[]|H]. exact H. Qed.

Lemma no_minus_nth (ok : text -> bool) (np : list text) (i : nat) :
  (forall x, In x np -> ok x = true) ->
  (forall p, ok p = true -> forall c, In c p -> c <> "-"%char) ->
  forall c, In c (nth i np []) -> c <> "-"%char.
Proof.
  intros Hnp Hok c Hc. destruct (nth_in_or_default i np []) as [Hi|Hd].
  - exact (Hok _ (Hnp _ Hi) c Hc).
  - rewrite Hd in Hc. destruct Hc.
Qed.

Lemma e_line_nonneg (l : text) (t : e_txn) :
  Bri.e_line l = Some t -> 0 <= e_debit t /\ 0 <= e_kredit t /\ 0 <= e_saldo t.
Proof.
  unfold Bri.e_line. cbv zeta. destruct (strip l) as [|c0 r0]; [discriminate|].
  destruct (Bri.anchor _); [|discriminate]. destruct (7 <=? _); [|discriminate].
  destruct (numeric_parts Bri.e_numeric (split_ws (c0 :: r0)))
    as [|a [|d [|c [|b [|? ?]]]]] eqn:En; try discriminate.
  intro H; injection H as <-. cbn [e_debit e_kredit e_saldo].
  assert (Hok : forall x, In x [a; d; c; b] -> forall z, In z x -> z <> "-"%char).
  { intros x Hx. rewrite <- En in Hx. apply e_numeric_no_minus, (In_numeric_parts _ _ _ Hx). }
  split; [|split]; apply clean_amount_nonneg, Hok; cbn; tauto.
Qed.

Lemma cms_line_nonneg (l : text) (t : c_txn) :
  Bri.cms_line l = Some t -> 0 <= c_debit t /\ 0 <= c_credit t /\ 0 <= c_saldo t.
Proof.
  unfold Bri.cms_line. cbv zeta. destruct (strip l) as [|c0 r0]; [discriminate|].
  destruct (Bri.anchor _); [|discriminate]. destruct (6 <=? _); [|discriminate].
  destruct (4 <=? _); [|discriminate].
  intro H; injection H as <-. cbn [c_debit c_credit c_saldo].
  pose proof (fun i => no_minus_nth Bri.cms_numeric
                (numeric_parts Bri.cms_numeric (split_ws (c0 :: r0))) i
                (In_numeric_parts _ _) cms_numeric_no_minus) as Hn.
  split; [|split].
  - destruct (text_eqb _ _); [apply Qle_refl|apply clean_amount_nonneg, Hn].
  - destruct (text_eqb _ _); [apply Qle_refl|apply clean_amount_nonneg, Hn].
  - apply clean_amount_nonneg, Hn.
Qed.

(** C5, amended: every transaction either parser of
    [bri_streamlit_app.py] emits has non-negative debit, credit and
    balance; nothing makes debit or credit zero (see the
    counterexample). *)
Theorem bri_amounts_nonneg (txt : text) :
  (forall t, In t (Bri.extract_transactions txt) ->
     0 <= e_debit t /\ 0 <= e_kredit t /\ 0 <= e_saldo t) /\
  (forall t, In t (Bri.extract_cms_transactions txt) ->
     0 <= c_debit t /\ 0 <= c_credit t /\ 0 <= c_saldo t).
Proof.
  split; intros t Ht; apply in_flat_map in Ht as (l & _ & Hl);
    destruct (_ l) eqn:E in Hl; cbn in Hl; try tauto; destruct Hl as [<-|[]].
  - exact (e_line_nonneg l _ E).
  - exact (cms_line_nonneg l _ E).
Qed.

Lemma bri_amounts_nonneg_witness :
  let txt := T "01/03/24 10:15:00 TRANSFER 1234567 100.00 200.00 300.00" in
  let t := ETxn (T "01/03/24") (T "10:15:00") (T "TRANSFER") (T "1234567")
                (10000 # 100) (20000 # 100) (30000 # 100) in
  Bri.extract_transactions txt = [t] /\ (0 <= e_debit t /\ 0 <= e_kredit t /\ 0 <= e_saldo t).
Proof.
  intros txt t.
  assert (E : Bri.extract_transactions txt = [t]) by (vm_compute; reflexivity).
  split; [exact E|]. apply (proj1 (bri_amounts_nonneg txt)). rewrite E. left; reflexivity.
Defined.

(** C2, counterexample: on a CMS line the first of the four collected
    tokens, the reference 1234567, is read as the debit, the second as the
    credit and the third as the balance. *)
Lemma cms_first_collected_is_debit :
  let txt := T "01/03/24 10:15:00 TRANSFER KE BUDI 1234567 0.00 500000.00 1500000.00" in
  length (Bri.extract_cms_transactions txt) = 1%nat /\
  forallb (fun t => Qeq_bool (c_debit t) 1234567 && Qeq_bool (c_credit t) 0 &&
                    Qeq_bool (c_saldo t) 500000)
          (Bri.extract_cms_transactions txt) = true.
Proof. intros txt. split; vm_compute; reflexivity. Qed.

Lemma filter_rev {A} (p : A -> bool) (l : list A) : filter p (rev l) = rev (filter p l).
Proof.
  induction l as [|x l IH]; [reflexivity|]. cbn [rev filter]. rewrite filter_app, IH. cbn [filter].
  destruct (p x); [reflexivity|]. apply app_nil_r.
Qed.

Lemma scan_back_lastn (ok : text -> bool) (rps acc : list text) :
  (length acc <= 3)%nat -> scan_back ok rps acc = lastn 4 (rev (filter ok rps) ++ acc).
Proof.
  revert acc. induction rps as [|p ps IH]; intros acc Hacc.
  - cbn. unfold lastn. replace (length acc - 4)%nat with 0%nat by lia. reflexivity.
  - cbn [scan_back filter]. destruct (ok p).
    + cbn [rev]. rewrite <- app_assoc. cbn [app].
      destruct (length (p :: acc) =? 4) eqn:E4.
      * apply Nat.eqb_eq in E4. unfold lastn. rewrite length_app, E4.
        replace (length (rev (filter ok ps)) + 4 - 4)%nat with (length (rev (filter ok ps))) by lia.
        rewrite skipn_app, skipn_all, Nat.sub_diag. reflexivity.
      * apply Nat.eqb_neq in E4. cbn [length] in E4. apply IH. cbn [length]. lia.
    + apply IH, Hacc.
Qed.

Lemma numeric_parts_lastn (ok : text -> bool) (parts : list text) :
  numeric_parts ok parts = lastn 4 (filter ok parts).
Proof.
  unfold numeric_parts. rewrite scan_back_lastn by (cbn; lia).
  rewrite app_nil_r, filter_rev, rev_involutive. reflexivity.
Qed.

Lemma split_last4 {A} (l : list A) :
  (4 <= length l)%nat -> exists pre a b c d, l = pre ++ [a; b; c; d].
Proof.
  intro H. rewrite <- length_rev in H. rewrite <- (rev_involutive l).
  destruct (rev l) as [|d [|c [|b [|a rest]]]]; cbn [length] in H; try lia.
  exists (rev rest), a, b, c, d. cbn [rev]. rewrite <- !app_assoc. reflexivity.
Qed.

Lemma lastn_app4 {A} (pre : list A) a b c d : lastn 4 (pre ++ [a; b; c; d]) = [a; b; c; d].
Proof.
  unfold lastn. rewrite length_app. cbn [length].
  replace (length pre + 4 - 4)%nat with (length pre) by lia.
  rewrite skipn_app, skipn_all, Nat.sub_diag. reflexivity.
Qed.

Lemma lastn_short {A} (l : list A) : (length l <= 4)%nat -> lastn 4 l = l.
Proof. intro H. unfold lastn. replace (length l - 4)%nat with 0%nat by lia. reflexivity. Qed.

Lemma e_line_spec (l : text) :
  (Bri.e_line l <> None <->
     strip l <> [] /\ Bri.anchor (strip l) = true /\ (7 <= length (split_ws (strip l)))%nat /\
     (4 <= length (filter Bri.e_numeric (split_ws (strip l))))%nat) /\
  (forall t, Bri.e_line l = Some t ->
     exists pre d c b, filter Bri.e_numeric (split_ws (strip l)) = pre ++ [e_teller_id t; d; c; b] /\
       e_debit t = clean_amount d /\ e_kredit t = clean_amount c /\ e_saldo t = clean_amount b).
Proof.
  unfold Bri.e_line. cbv zeta. destruct (strip l) as [|c0 r0].
  { split; [split; [intro H; contradiction H; reflexivity|intros [H _]; contradiction H; reflexivity]|].
    intros t H; discriminate H. }
  destruct (Bri.anchor (c0 :: r0)).
  2: { split; [split; [intro H; contradiction H; reflexivity|intros (_ & H & _); discriminate H]|].
       intros t H; discriminate H. }
  destruct (7 <=? length (split_ws (c0 :: r0))) eqn:E7.
  2: { apply Nat.leb_gt in E7.
       split; [split; [intro H; contradiction H; reflexivity|intros (_ & _ & H & _); lia]|].
       intros t H; discriminate H. }
  apply Nat.leb_le in E7. rewrite numeric_parts_lastn.
  destruct (Nat.le_gt_cases 4 (length (filter Bri.e_numeric (split_ws (c0 :: r0))))) as [H4|H4].
  - destruct (split_last4 _ H4) as (pre & a & d & c & b & EF). rewrite EF, lastn_app4.
    split.
    + split; [intros _; repeat split; [discriminate|assumption|rewrite <- EF; assumption]|].
      intros _ H; discriminate H.
    + intros t H. injection H as <-. exists pre, d, c, b. cbn. repeat split.
  - rewrite lastn_short by lia.
    destruct (filter Bri.e_numeric (split_ws (c0 :: r0))) as [|y1 [|y2 [|y3 [|y4 ys]]]];
      cbn [length] in H4; try lia;
      (split; [split; [intro H; contradiction H; reflexivity|intros (_ & _ & _ & H); cbn in H; lia]|];
       intros t H; discriminate H).
Qed.

Lemma cms_line_spec (l : text) :
  (Bri.cms_line l <> None <->
     strip l <> [] /\ Bri.anchor (strip l) = true /\ (6 <= length (split_ws (strip l)))%nat /\
     (4 <= length (filter Bri.cms_numeric (split_ws (strip l))))%nat) /\
  (forall t, Bri.cms_line l = Some t ->
     exists pre x1 x2 x3 x4,
       filter Bri.cms_numeric (split_ws (strip l)) = pre ++ [x1; x2; x3; x4] /\
       c_debit t = (if text_eqb x1 (T "0.00") then 0 else clean_amount x1) /\
       c_credit t = (if text_eqb x2 (T "0.00") then 0 else clean_amount x2) /\
       c_saldo t = clean_amount x3).
Proof.
  unfold Bri.cms_line. cbv zeta. destruct (strip l) as [|c0 r0].
  { split; [split; [intro H; contradiction H; reflexivity|intros [H _]; contradiction H; reflexivity]|].
    intros t H; discriminate H. }
  destruct (Bri.anchor (c0 :: r0)).
  2: { split; [split; [intro H; contradiction H; reflexivity|intros (_ & H & _); discriminate H]|].
       intros t H; discriminate H. }
  destruct (6 <=? length (split_ws (c0 :: r0))) eqn:E6.
  2: { apply Nat.leb_gt in E6.
       split; [split; [intro H; contradiction H; reflexivity|intros (_ & _ & H & _); lia]|].
       intros t H; discriminate H. }
  apply Nat.leb_le in E6. rewrite numeric_parts_lastn.
  destruct (Nat.le_gt_cases 4 (length (filter Bri.cms_numeric (split_ws (c0 :: r0))))) as [H4|H4].
  - destruct (split_last4 _ H4) as (pre & x1 & x2 & x3 & x4 & EF). rewrite EF, lastn_app4.
    cbn [length Nat.leb].
    split.
    + split; [intros _; repeat split; [discriminate|assumption|rewrite <- EF; assumption]|].
      intros _ H; discriminate H.
    + intros t H. injection H as <-. exists pre, x1, x2, x3, x4. cbn. repeat split.
  - rewrite lastn_short by lia.
    destruct (filter Bri.cms_numeric (split_ws (c0 :: r0))) as [|y1 [|y2 [|y3 [|y4 ys]]]];
      cbn [length] in H4; try lia;
      (split; [split; [intro H; contradiction H; reflexivity|intros (_ & _ & _ & H); cbn in H; lia]|];
       intros t H; discriminate H).
Qed.

(** C2, amended: the backward scan keeps the last four tokens that pass
    the numeric test, wherever they are among the tokens, not only the
    trailing ones.  An e-statement line gives a record exactly when, after
    [strip], it is an anchor line with at least 7 tokens and at least four
    numeric-shaped ones.  Those four, left to right, are the teller id,
    debit, credit and balance.  A CMS line (three letter codes also count
    as numeric) gives a record exactly when it is an anchor line with at
    least 6 tokens and four such tokens.  Those four, left to right, are
    read as debit and credit (0 for "0.00") and balance, and the fourth is
    dropped. *)
Theorem bri_line_numeric_tokens (l : text) :
  (forall ok parts, numeric_parts ok parts = lastn 4 (filter ok parts)) /\
  ((Bri.e_line l <> None <->
      strip l <> [] /\ Bri.anchor (strip l) = true /\ (7 <= length (split_ws (strip l)))%nat /\
      (4 <= length (filter Bri.e_numeric (split_ws (strip l))))%nat) /\
   (forall t, Bri.e_line l = Some t ->
      exists pre d c b, filter Bri.e_numeric (split_ws (strip l)) = pre ++ [e_teller_id t; d; c; b] /\
        e_debit t = clean_amount d /\ e_kredit t = clean_amount c /\ e_saldo t = clean_amount b)) /\
  ((Bri.cms_line l <> None <->
      strip l <> [] /\ Bri.anchor (strip l) = true /\ (6 <= length (split_ws (strip l)))%nat /\
      (4 <= length (filter Bri.cms_numeric (split_ws (strip l))))%nat) /\
   (forall t, Bri.cms_line l = Some t ->
      exists pre x1 x2 x3 x4,
        filter Bri.cms_numeric (split_ws (strip l)) = pre ++ [x1; x2; x3; x4] /\
        c_debit t = (if text_eqb x1 (T "0.00") then 0 else clean_amount x1) /\
        c_credit t = (if text_eqb x2 (T "0.00") then 0 else clean_amount x2) /\
        c_saldo t = clean_amount x3)).
Proof.
  split; [exact numeric_parts_lastn|]. split; [exact (e_line_spec l)|exact (cms_line_spec l)].
Qed.

Lemma bri_line_numeric_tokens_witness :
  let l := T "01/03/24 10:15:00 TRANSFER 1234567 100.00 200.00 300.00" in
  Bri.e_line l <> None /\ (4 <= length (filter Bri.e_numeric (split_ws (strip l))))%nat.
Proof.
  intros l. assert (E : Bri.e_line l <> None) by (vm_compute; discriminate).
  split; [exact E|].
  exact (proj2 (proj2 (proj2 (proj1 (proj1 (proj1 (proj2 (bri_line_numeric_tokens l)))) E)))).
Defined.

(** C7, counterexample: with a 2025 file name the e-statement family is
    the only one tried: the line below has too few tokens for it (6 < 7),
    so the transactions frame is empty, although the CMS parser reads one
    transaction from the same text. *)
Lemma bri_no_cms_fallback :
  let txt := T "01/03/24 10:15:00 1 2 3 4" in
  length (Bri.extract_cms_transactions txt) = 1%nat /\
  match BriMain.parse_bri_statement (T "x2025.pdf") txt with
  | Ok o => o_trx o = Frame [] []
  | Raise _ => False
  end.
Proof. intros txt. split; vm_compute; reflexivity. Qed.

Lemma analyze_none (attribute : text -> option text) (f : frame) :
  analyze_bri_partners_unified attribute f = None ->
  (detect_bri_format (cols f) = CMS /\ (mem (T "Debit") (cols f) && mem (T "Credit") (cols f)) = false) \/
  (detect_bri_format (cols f) = E_STATEMENT /\
   (mem (T "debit") (cols f) && mem (T "kredit") (cols f)) = false).
Proof.
  unfold analyze_bri_partners_unified. destruct (frame_empty f); [discriminate|].
  destruct (detect_bri_format (cols f)); [| |discriminate];
    (destruct (mem _ _ && mem _ _) eqn:E; cbn [negb];
     [destruct (filter _ _); discriminate|intros _; auto]).
Qed.

Lemma analyze_frame_of_c (attribute : text -> option text) (l : list c_txn) :
  l <> [] -> analyze_bri_partners_unified attribute (frame_of_c l) <> None.
Proof.
  intros Hl Hn. destruct l as [|t l]; [contradiction Hl; reflexivity|].
  apply analyze_none in Hn. cbn [frame_of_c cols] in Hn.
  destruct Hn as [[_ H]|[H _]]; vm_compute in H; discriminate H.
Qed.

Lemma analyze_frame_of_e (attribute : text -> option text) (l : list e_txn) :
  l <> [] -> analyze_bri_partners_unified attribute (frame_of_e l) <> None.
Proof.
  intros Hl Hn. destruct l as [|t l]; [contradiction Hl; reflexivity|].
  apply analyze_none in Hn. cbn [frame_of_e cols] in Hn.
  destruct Hn as [[H _]|[_ H]]; vm_compute in H; discriminate H.
Qed.

(** C7, amended: [app.py] tries the e-statement family first and, when it
    yields no transaction, uses the CMS family's transactions, empty or
    not. [bri_streamlit_app.py] picks one family from the file name alone,
    with no fallback: a name with a path separator raises [NameError]
    ([Path]); otherwise, when the name without its extension
    ([os.path.splitext]) contains 2025, only the e-statement family is
    used, and any other name takes the CMS family, whose header parser
    raises [NameError]. Neither output records which family was used. *)
Theorem orchestrator_family_choice (fn txt : text) :
  (exists o, AppMain.parse_bri_statement txt = Ok o /\
     o_trx o = match App.extract_transactions txt with
               | [] => frame_of_c (App.extract_cms_transactions txt)
               | l => frame_of_e l
               end) /\
  (if existsb (fun c => (c =? "/")%char || (c =? "\")%char) fn
   then BriMain.parse_bri_statement fn txt = Raise (NameError "Path")
   else if contains (T "2025") (splitext_root fn)
   then exists o, BriMain.parse_bri_statement fn txt = Ok o /\
                  o_trx o = frame_of_e (Bri.extract_transactions txt)
   else BriMain.parse_bri_statement fn txt = Raise (NameError "clean_statement_lines")).
Proof.
  split.
  - unfold AppMain.parse_bri_statement.
    destruct (AppHeader.extract_personal_info txt) as [pi si].
    destruct (App.extract_transactions txt) as [|t ts] eqn:Et.
    + destruct (App.extract_cms_transactions txt) as [|c cs] eqn:Ec.
      * eexists. split; reflexivity.
      * change (frame_empty (frame_of_c (c :: cs))) with false. cbv iota beta.
        destruct (analyze_bri_partners_unified App.extract_partner_name_bri (frame_of_c (c :: cs)))
          as [[p1 p2]|] eqn:An.
        -- eexists. split; reflexivity.
        -- exfalso. exact (analyze_frame_of_c _ (c :: cs) ltac:(discriminate) An).
    + change (frame_empty (frame_of_e (t :: ts))) with false. cbv iota beta.
      destruct (analyze_bri_partners_unified App.extract_partner_name_bri (frame_of_e (t :: ts)))
        as [[p1 p2]|] eqn:An.
      * eexists. split; reflexivity.
      * exfalso. exact (analyze_frame_of_e _ (t :: ts) ltac:(discriminate) An).
  - unfold BriMain.parse_bri_statement, BriMain.extract_filename_id.
    destruct (existsb (fun c => (c =? "/")%char || (c =? "\")%char) fn); [reflexivity|].
    destruct (contains (T "2025") (splitext_root fn)); cbn [negb]; [|reflexivity].
    destruct (BriHeader.extract_personal_info txt) as [pi si].
    destruct (Bri.extract_transactions txt) as [|t ts] eqn:Et.
    + eexists. split; reflexivity.
    + change (frame_empty (frame_of_e (t :: ts))) with false. cbv iota beta.
      destruct (analyze_bri_partners_unified BriPartner.extract_partner_name_bri (frame_of_e (t :: ts)))
        as [[p1 p2]|] eqn:An.
      * eexists. split; reflexivity.
      * exfalso. exact (analyze_frame_of_e _ (t :: ts) ltac:(discriminate) An).
Qed.

Lemma orchestrator_family_choice_witness :
  let txt := T "01/03/25 10:15:00 TRANSFER BUDI 1234567 100.00 0.00 500.00" in
  length (Bri.extract_transactions txt) = 1%nat /\
  exists o, BriMain.parse_bri_statement (T "x2025.pdf") txt = Ok o /\
            o_trx o = frame_of_e (Bri.extract_transactions txt).
Proof.
  intro txt. split; [vm_compute; reflexivity|].
  exact (proj2 (orchestrator_family_choice (T "x2025.pdf") txt)).
Defined.

(* ================================================================= *)
(** ** Splitting on a one-character separator *)

Lemma split_on1_cons (c x : ascii) (s cur : text) :
  split_on_aux [c] (x :: s) cur O
  = if (x =? c)%char then rev cur :: split_on_aux [c] s [] O
    else split_on_aux [c] s (x :: cur) O.
Proof.
  cbn [split_on_aux length pred].
  change (prefixb [c] (x :: s)) with ((c =? x)%char && true).
  rewrite andb_true_r, Ascii.eqb_sym. reflexivity.
Qed.

Lemma split_on1_app (c : ascii) (a b cur : text) :
  split_on_aux [c] (a ++ c :: b) cur O = split_on_aux [c] a cur O ++ split_on_aux [c] b [] O.
Proof.
  revert cur. induction a as [|x a IH]; intro cur.
  - cbn [app]. rewrite split_on1_cons, Ascii.eqb_refl. reflexivity.
  - cbn [app]. rewrite !split_on1_cons.
    destruct (x =? c)%char; [rewrite IH; reflexivity|apply IH].
Qed.

Lemma split_on1_free (c : ascii) (s cur : text) :
  forallb (fun x => negb (x =? c)%char) s = true -> split_on_aux [c] s cur O = [rev cur ++ s].
Proof.
  revert cur. induction s as [|x s IH]; intros cur H.
  - cbn. rewrite app_nil_r. reflexivity.
  - cbn [forallb] in H. apply andb_true_iff in H as [Hx H].
    rewrite split_on1_cons. destruct (x =? c)%char; [discriminate Hx|].
    rewrite (IH _ H). cbn [rev]. rewrite <- app_assoc. reflexivity.
Qed.

Lemma length_split_on1 (c : ascii) (s cur : text) :
  length (split_on_aux [c] s cur O) = S (count_char c s).
Proof.
  revert cur. induction s as [|x s IH]; intro cur; [reflexivity|].
  rewrite split_on1_cons. unfold count_char. cbn [filter].
  destruct (x =? c)%char; cbn [length]; rewrite IH; reflexivity.
Qed.

Lemma contains1_existsb (c : ascii) (s : text) :
  contains [c] s = existsb (fun x => (x =? c)%char) s.
Proof.
  induction s as [|x s IH]; [reflexivity|].
  cbn [contains existsb]. rewrite IH.
  change (prefixb [c] (x :: s)) with ((c =? x)%char && true).
  rewrite andb_true_r, Ascii.eqb_sym. reflexivity.
Qed.

Lemma count_char_existsb (c : ascii) (s : text) :
  existsb (fun x => (x =? c)%char) s = negb (count_char c s =? 0).
Proof.
  unfold count_char. induction s as [|x s IH]; [reflexivity|].
  cbn [existsb filter]. destruct (x =? c)%char; [reflexivity|exact IH].
Qed.

(* ================================================================= *)
(** ** Digit strings through [float()] *)

Lemma digits_no_char (c : ascii) (l : text) :
  (c = "."%char \/ c = ","%char) -> forallb is_digit l = true ->
  forallb (fun x => negb (x =? c)%char) l = true.
Proof.
  intros Hc H. apply forallb_forall. intros x Hx.
  destruct (digit_facts x (proj1 (forallb_forall _ _) H x Hx)) as (H1 & H2 & _).
  destruct Hc as [->| ->]; [rewrite H1|rewrite H2]; reflexivity.
Qed.

Lemma py_float_int (a : text) :
  forallb is_digit a = true -> a <> [] -> py_float a = Some (digits_value a # 1).
Proof.
  intros Ha Hne.
  unfold py_float. rewrite (strip_no_space _ (forallb_no_space _ (forallb_digit_or_dot _ Ha))).
  assert (Hu : unsigned_decimal a = Some (digits_value a # 1)).
  { unfold unsigned_decimal. rewrite (span_digits_all a Ha).
    destruct a; [contradiction Hne; reflexivity|reflexivity]. }
  destruct a as [|c r]; [contradiction Hne; reflexivity|].
  cbn [forallb] in Ha. apply andb_true_iff in Ha as [Hc _].
  destruct (digit_facts c Hc) as (_ & _ & -> & -> & _). exact Hu.
Qed.

Lemma float_or_zero_int (a : text) :
  forallb is_digit a = true -> float_or_zero a = digits_value a # 1.
Proof.
  intro Ha. destruct a as [|c r]; [reflexivity|].
  unfold float_or_zero. rewrite (py_float_int _ Ha); [reflexivity|discriminate].
Qed.

Lemma remove_dot_digits (s : text) :
  forallb digit_or_dot s = true -> forallb is_digit (remove_char "." s) = true.
Proof.
  intro H. apply forallb_forall. intros x Hx. unfold remove_char in Hx.
  apply filter_In in Hx as [Hx Hn].
  pose proof (proj1 (forallb_forall _ _) H x Hx) as Hx'. unfold digit_or_dot in Hx'.
  destruct (x =? ".")%char; [discriminate Hn|]. rewrite orb_false_r in Hx'. exact Hx'.
Qed.

(** [clean_amount] on a string of digits and periods: the commas and
    whitespace filter leaves it unchanged. *)
Lemma clean_amount_cleaned (s : text) :
  forallb digit_or_dot s = true -> s <> [] ->
  clean_amount s
  = if contains (T ".") s then
      let parts := split_on (T ".") s in
      if (length parts =? 2) && (length (nth 1 parts []) =? 2)
      then float_or_zero s else float_or_zero (remove_char "." s)
    else float_or_zero s.
Proof.
  intros H Hne. pose proof (forallb_no_space _ H) as Hns.
  assert (Hf : filter (fun c => negb ((c =? ",")%char || is_space c)) s = s).
  { apply filter_all, forallb_forall. intros x Hx.
    destruct (digit_or_dot_facts x (proj1 (forallb_forall _ _) H x Hx)) as (-> & _ & _ & ->).
    reflexivity. }
  unfold clean_amount. rewrite (strip_no_space _ Hns), Hf.
  destruct s; [contradiction Hne; reflexivity|reflexivity].
Qed.

Lemma remove_char_count0 (c : ascii) (s : text) : count_char c s = O -> remove_char c s = s.
Proof.
  unfold count_char, remove_char. induction s as [|x s IH]; intro H; [reflexivity|].
  cbn [filter] in H |- *. destruct (x =? c)%char; [discriminate H|]. cbn [negb]. rewrite (IH H). reflexivity.
Qed.

Lemma split_dot_pair (a b : text) :
  forallb is_digit a = true -> forallb is_digit b = true ->
  split_on (T ".") (a ++ "."%char :: b) = [a; b].
Proof.
  intros Ha Hb. unfold split_on. change (T ".") with ["."%char].
  rewrite split_on1_app, !split_on1_free by (apply digits_no_char; auto). reflexivity.
Qed.

(** X1: the two transaction parsers of [bri_streamlit_app.py] read each
    line on its own: the transactions of two texts joined by a newline are
    those of the first text followed by those of the second. *)
Theorem bri_parsers_line_local (a b : text) :
  Bri.extract_transactions (a ++ nl :: b) = Bri.extract_transactions a ++ Bri.extract_transactions b /\
  Bri.extract_cms_transactions (a ++ nl :: b)
  = Bri.extract_cms_transactions a ++ Bri.extract_cms_transactions b.
Proof.
  unfold Bri.extract_transactions, Bri.extract_cms_transactions, split_on.
  rewrite split_on1_app, !flat_map_app. split; reflexivity.
Qed.

(** X2: [clean_amount] on a string of digits and periods with no period
    or with two or more periods drops every period and reads the digits as
    an integer; so "1.234.567" gives 1234567. *)
Theorem clean_amount_periods_dropped (s : text) :
  forallb digit_or_dot s = true -> count_char "." s <> 1%nat ->
  clean_amount s = digits_value (remove_char "." s) # 1.
Proof.
  intros H H1. destruct s as [|c r] eqn:Es; [reflexivity|]. rewrite <- Es in *.
  assert (Hne : s <> []) by (rewrite Es; discriminate).
  rewrite (clean_amount_cleaned s H Hne). change (T ".") with ["."%char].
  rewrite contains1_existsb, count_char_existsb.
  destruct (count_char "." s) as [|[|n]] eqn:Ec.
  - cbn [Nat.eqb negb]. rewrite (remove_char_count0 _ _ Ec).
    apply float_or_zero_int. rewrite <- (remove_char_count0 _ _ Ec). apply remove_dot_digits, H.
  - contradiction H1. reflexivity.
  - cbn [Nat.eqb negb]. unfold split_on. rewrite length_split_on1, Ec. cbn [Nat.eqb andb].
    apply float_or_zero_int, remove_dot_digits, H.
Qed.

Lemma clean_amount_periods_dropped_witness :
  (forallb digit_or_dot (T "1.234.567") = true /\ count_char "." (T "1.234.567") <> 1%nat) /\
  clean_amount (T "1.234.567") = 1234567 # 1.
Proof.
  assert (H1 : forallb digit_or_dot (T "1.234.567") = true) by reflexivity.
  assert (H2 : count_char "." (T "1.234.567") <> 1%nat) by (vm_compute; discriminate).
  split; [tauto|].
  exact (clean_amount_periods_dropped (T "1.234.567") H1 H2).
Defined.

(** X3: [clean_amount] on digits, one period and digits reads the period
    as the decimal point only when exactly two digits follow it; otherwise
    it drops the period, so "1.5" gives 15 and "12.345" gives 12345. *)
Theorem clean_amount_one_period (a b : text) :
  forallb is_digit a = true -> forallb is_digit b = true ->
  clean_amount (a ++ "."%char :: b)
  = if length b =? 2 then digits_value (a ++ b) # 100 else digits_value (a ++ b) # 1.
Proof.
  intros Ha Hb.
  assert (Hall : forallb digit_or_dot (a ++ "."%char :: b) = true).
  { rewrite forallb_app. cbn [forallb]. rewrite !forallb_digit_or_dot by assumption. reflexivity. }
  rewrite (clean_amount_cleaned _ Hall) by (destruct a; discriminate).
  change (T ".") with ["."%char]. rewrite contains_app_cons.
  change ["."%char] with (T "."). rewrite (split_dot_pair a b Ha Hb). cbn [length nth Nat.eqb andb].
  destruct (length b =? 2) eqn:Eb.
  - apply Nat.eqb_eq in Eb. unfold float_or_zero.
    assert (Hbn : b <> []) by (intro E; rewrite E in Eb; discriminate Eb).
    rewrite (py_float_digits a b Ha Hb Hbn), Eb. reflexivity.
  - assert (Hr : remove_char "." (a ++ "."%char :: b) = a ++ b).
    { unfold remove_char. rewrite filter_app. cbn [filter]. rewrite Ascii.eqb_refl. cbn [negb].
      rewrite !filter_all; [reflexivity| |];
        apply digits_no_char; auto. }
    rewrite Hr. apply float_or_zero_int. rewrite forallb_app, Ha, Hb. reflexivity.
Qed.

Lemma clean_amount_one_period_witness :
  (forallb is_digit (T "1") = true /\ forallb is_digit (T "5") = true) /\
  clean_amount (T "1.5") = 15 # 1.
Proof.
  assert (H1 : forallb is_digit (T "1") = true) by reflexivity.
  assert (H2 : forallb is_digit (T "5") = true) by reflexivity.
  split; [tauto|].
  exact (clean_amount_one_period (T "1") (T "5") H1 H2).
Defined.

(* ================================================================= *)
(** ** The two copies of [parse_amount] *)

Lemma span_digits_eq (y : text) : fst (span_digits y) ++ snd (span_digits y) = y.
Proof.
  induction y as [|x y IH]; [reflexivity|]. cbn [span_digits].
  destruct (is_digit x); [|reflexivity].
  destruct (span_digits y) as [a b]. cbn [fst snd app] in *. rewrite IH. reflexivity.
Qed.

Lemma span_digits_dot (y : text) :
  forallb (fun c => negb (c =? ".")%char) y = true ->
  span_digits (y ++ ["."%char]) = (fst (span_digits y), snd (span_digits y) ++ ["."%char]).
Proof.
  induction y as [|x y IH]; intro H; [reflexivity|].
  cbn [forallb] in H. apply andb_true_iff in H as [_ H].
  cbn [app span_digits]. destruct (is_digit x); [|reflexivity].
  rewrite (IH H). destruct (span_digits y). reflexivity.
Qed.

Lemma unsigned_decimal_dot (y : text) :
  forallb (fun c => negb (c =? ".")%char) y = true ->
  unsigned_decimal (y ++ ["."%char]) = unsigned_decimal y.
Proof.
  intro H. unfold unsigned_decimal. rewrite (span_digits_dot y H).
  pose proof (span_digits_eq y) as Hy.
  destruct (span_digits y) as [ip rest]. cbn [fst snd] in *.
  destruct rest as [|c r].
  - cbn [app]. rewrite Ascii.eqb_refl. cbn [span_digits]. rewrite app_nil_r.
    destruct ip; reflexivity.
  - assert (Hc : (c =? ".")%char = false).
    { assert (Hin : In c y) by (rewrite <- Hy; apply in_or_app; right; left; reflexivity).
      apply negb_true_iff, (proj1 (forallb_forall _ _) H c Hin). }
    cbn [app]. rewrite Hc. reflexivity.
Qed.

Lemma py_float_dot (x : text) :
  forallb (fun c => negb (is_space c)) x = true ->
  forallb (fun c => negb (c =? ".")%char) x = true ->
  py_float (x ++ ["."%char]) = py_float x.
Proof.
  intros Hs Hd. unfold py_float.
  rewrite (strip_no_space x Hs), strip_no_space
    by (rewrite forallb_app, Hs; reflexivity).
  destruct x as [|c r]; [reflexivity|].
  pose proof Hd as Hcr. cbn [forallb] in Hd. apply andb_true_iff in Hd as [_ Hd].
  cbn [app]. change (c :: r ++ ["."%char]) with ((c :: r) ++ ["."%char]).
  destruct (c =? "-")%char; [rewrite (unsigned_decimal_dot r Hd); reflexivity|].
  destruct (c =? "+")%char; [rewrite (unsigned_decimal_dot r Hd); reflexivity|].
  apply unsigned_decimal_dot, Hcr.
Qed.

Lemma forallb_filter {A} (p q : A -> bool) (l : list A) :
  forallb p l = true -> forallb p (filter q l) = true.
Proof.
  intro H. apply forallb_forall. intros x Hx. apply filter_In in Hx as [Hx _].
  exact (proj1 (forallb_forall _ _) H x Hx).
Qed.

Lemma remove_char_free (c : ascii) (s : text) :
  forallb (fun x => negb (x =? c)%char) (remove_char c s) = true.
Proof.
  apply forallb_forall. intros x Hx. unfold remove_char in Hx. apply filter_In in Hx as [_ Hx]. exact Hx.
Qed.

(** The two copies differ only when the part after the last period is
    empty, where [app.py] drops the period before calling [float()]. *)
Lemma parse_amount_agree (s : text) :
  forallb (fun c => negb (is_space c)) s = true -> AppHeader.parse_amount s = parse_amount s.
Proof.
  intro H. unfold AppHeader.parse_amount, parse_amount. rewrite (strip_no_space s H).
  destruct (contains (T ",") s && _); [reflexivity|].
  destruct (contains (T ",") s); [reflexivity|].
  destruct (1 <? count_char "." s); [|reflexivity].
  unfold rsplit_dot. set (i := Z.to_nat (rfind "." s)).
  assert (Hf : forallb (fun c => negb (is_space c)) (firstn i s) = true).
  { rewrite <- (firstn_skipn i s), forallb_app in H. apply andb_true_iff in H as [H _]. exact H. }
  destruct (skipn (S i) s) as [|d dp]; [|reflexivity]. cbn [nonempty].
  change (T "." ++ []) with ["."%char]. unfold float_or_zero.
  rewrite py_float_dot; [reflexivity| |apply remove_char_free].
  apply forallb_filter, Hf.
Qed.

Lemma rsplit_dot_last (ip dp : text) :
  forallb (fun x => negb (x =? ".")%char) dp = true ->
  rsplit_dot (ip ++ "."%char :: dp) = (ip, dp).
Proof.
  intro Hd. unfold rsplit_dot, rfind. rewrite rfind_aux_app. cbn [rfind_aux].
  rewrite Ascii.eqb_refl, (rfind_aux_absent _ _ _ _ Hd), Z.add_0_l, Nat2Z.id.
  rewrite firstn_app, firstn_all, Nat.sub_diag, firstn_O, app_nil_r.
  rewrite skipn_app, skipn_all2 by lia.
  replace (S (length ip) - length ip)%nat with 1%nat by lia. reflexivity.
Qed.

Lemma no_comma_digit_or_dot (l : text) :
  forallb digit_or_dot l = true -> contains (T ",") l = false.
Proof.
  intro H. change (T ",") with [","%char]. rewrite contains1_existsb.
  apply not_true_is_false. intro E. apply existsb_exists in E as [x [Hx Ex]].
  destruct (digit_or_dot_facts x (proj1 (forallb_forall _ _) H x Hx)) as (E' & _).
  rewrite E' in Ex. discriminate Ex.
Qed.

(** X4: both copies of [parse_amount] read a number with several periods
    and no comma by keeping its last period as the decimal point and
    dropping the others, so "1.234.567" gives 1234.567 (where
    [clean_amount] gives 1234567). *)
Theorem parse_amount_several_periods (ip dp : text) :
  forallb digit_or_dot ip = true -> count_char "." ip <> O ->
  forallb is_digit dp = true -> dp <> [] ->
  parse_amount (ip ++ "."%char :: dp)
  = digits_value (remove_char "." ip ++ dp) # Z.to_pos (10 ^ Z.of_nat (length dp)) /\
  AppHeader.parse_amount (ip ++ "."%char :: dp)
  = digits_value (remove_char "." ip ++ dp) # Z.to_pos (10 ^ Z.of_nat (length dp)).
Proof.
  intros Hip Hc Hdp Hne.
  assert (Hall : forallb digit_or_dot (ip ++ "."%char :: dp) = true).
  { rewrite forallb_app. cbn [forallb]. rewrite Hip, forallb_digit_or_dot by assumption. reflexivity. }
  assert (Hns := forallb_no_space _ Hall).
  assert (Hbri : parse_amount (ip ++ "."%char :: dp)
                 = digits_value (remove_char "." ip ++ dp) # Z.to_pos (10 ^ Z.of_nat (length dp))).
  { unfold parse_amount. rewrite (strip_no_space _ Hns), (no_comma_digit_or_dot _ Hall). cbn [andb].
    assert (Hcount : (1 <? count_char "." (ip ++ "."%char :: dp)) = true).
    { unfold count_char. rewrite filter_app. cbn [filter]. rewrite Ascii.eqb_refl, length_app.
      cbn [length]. fold (count_char "." ip). apply Nat.ltb_lt. lia. }
    rewrite Hcount, (rsplit_dot_last ip dp (digits_no_char "." dp (or_introl eq_refl) Hdp)).
    change (T "." ++ dp) with ("."%char :: dp). unfold float_or_zero.
    rewrite (py_float_digits _ _ (remove_dot_digits ip Hip) Hdp Hne). reflexivity. }
  split; [exact Hbri|]. rewrite (parse_amount_agree _ Hns). exact Hbri.
Qed.

Lemma parse_amount_several_periods_witness :
  (forallb digit_or_dot (T "1.234") = true /\ count_char "." (T "1.234") <> O /\
   forallb is_digit (T "567") = true /\ T "567" <> []) /\
  parse_amount (T "1.234.567") = 1234567 # 1000.
Proof.
  assert (H1 : forallb digit_or_dot (T "1.234") = true) by reflexivity.
  assert (H2 : count_char "." (T "1.234") <> O) by (vm_compute; discriminate).
  assert (H3 : forallb is_digit (T "567") = true) by reflexivity.
  assert (H4 : T "567" <> []) by discriminate.
  split; [tauto|].
  exact (proj1 (parse_amount_several_periods (T "1.234") (T "567") H1 H2 H3 H4)).
Defined.

Lemma count_char_app (c : ascii) (a b : text) :
  count_char c (a ++ b) = (count_char c a + count_char c b)%nat.
Proof. unfold count_char. rewrite filter_app, length_app. reflexivity. Qed.

Lemma count_char_hit (c : ascii) (l : text) : count_char c (c :: l) = S (count_char c l).
Proof. unfold count_char. cbn [filter]. rewrite Ascii.eqb_refl. reflexivity. Qed.

Lemma count_char_free (c : ascii) (l : text) :
  forallb (fun x => negb (x =? c)%char) l = true -> count_char c l = O.
Proof.
  unfold count_char. induction l as [|x l IH]; intro H; [reflexivity|].
  cbn [forallb] in H. apply andb_true_iff in H as [Hx H]. cbn [filter].
  destruct (x =? c)%char; [discriminate Hx|]. exact (IH H).
Qed.

Lemma digit_or_comma_facts (c : ascii) :
  is_digit c || (c =? ",")%char = true -> (c =? ".")%char = false /\ is_space c = false.
Proof.
  intro H. apply orb_true_iff in H as [H|H].
  - destruct (digit_facts c H) as (H1 & _ & _ & _ & H2). tauto.
  - apply Ascii.eqb_eq in H. subst c. split; reflexivity.
Qed.

(** X5: both copies of [parse_amount] read a number written with comma
    thousands separators and a period before the decimals by dropping the
    commas, so "1,234,567.89" gives 1234567.89. *)
Theorem parse_amount_comma_thousands (ip dp : text) :
  forallb (fun c => is_digit c || (c =? ",")%char) ip = true ->
  forallb is_digit dp = true -> dp <> [] ->
  parse_amount (ip ++ "."%char :: dp)
  = digits_value (remove_char "," ip ++ dp) # Z.to_pos (10 ^ Z.of_nat (length dp)) /\
  AppHeader.parse_amount (ip ++ "."%char :: dp)
  = digits_value (remove_char "," ip ++ dp) # Z.to_pos (10 ^ Z.of_nat (length dp)).
Proof.
  intros Hip Hdp Hne.
  assert (Hfacts := fun x Hx => digit_or_comma_facts x (proj1 (forallb_forall _ _) Hip x Hx)).
  assert (Hipd : forallb (fun x => negb (x =? ".")%char) ip = true).
  { apply forallb_forall. intros x Hx. rewrite (proj1 (Hfacts x Hx)). reflexivity. }
  assert (Hdpd := digits_no_char "." dp (or_introl eq_refl) Hdp).
  assert (Hdpc := digits_no_char "," dp (or_intror eq_refl) Hdp).
  assert (Hns : forallb (fun c => negb (is_space c)) (ip ++ "."%char :: dp) = true).
  { rewrite forallb_app. cbn [forallb]. apply andb_true_iff. split.
    - apply forallb_forall. intros x Hx. rewrite (proj2 (Hfacts x Hx)). reflexivity.
    - exact (forallb_no_space _ (forallb_digit_or_dot _ Hdp)). }
  assert (Hdig : forallb is_digit (remove_char "," ip) = true).
  { apply forallb_forall. intros x Hx. unfold remove_char in Hx. apply filter_In in Hx as [Hx Hn].
    pose proof (proj1 (forallb_forall _ _) Hip x Hx) as Hx'. cbv beta in Hx'.
    destruct (x =? ",")%char; [discriminate Hn|]. rewrite orb_false_r in Hx'. exact Hx'. }
  assert (Hrm : remove_char "," (ip ++ "."%char :: dp) = remove_char "," ip ++ "."%char :: dp).
  { unfold remove_char. rewrite filter_app. cbn [filter].
    change ("." =? ",")%char with false. cbn [negb]. rewrite (filter_all _ dp Hdpc). reflexivity. }
  assert (Hbri : parse_amount (ip ++ "."%char :: dp)
                 = digits_value (remove_char "," ip ++ dp) # Z.to_pos (10 ^ Z.of_nat (length dp))).
  { unfold parse_amount. rewrite (strip_no_space _ Hns).
    destruct (contains (T ",") (ip ++ "."%char :: dp)) eqn:Ec.
    - assert (Hr : (rfind "," (ip ++ "."%char :: dp) >? rfind "." (ip ++ "."%char :: dp))%Z = false).
      { unfold rfind. rewrite !rfind_aux_app. cbn [rfind_aux].
        change ("." =? ",")%char with false. rewrite Ascii.eqb_refl.
        rewrite (rfind_aux_absent "," dp _ _ Hdpc), (rfind_aux_absent "." dp _ _ Hdpd).
        pose proof (rfind_aux_lt "," ip 0 (-1) ltac:(lia)).
        rewrite Z.gtb_ltb. apply Z.ltb_ge. lia. }
      rewrite Hr. cbn [andb]. rewrite Hrm. unfold float_or_zero.
      rewrite (py_float_digits _ _ Hdig Hdp Hne). reflexivity.
    - cbn [andb].
      assert (Hcount : (1 <? count_char "." (ip ++ "."%char :: dp)) = false).
      { rewrite count_char_app, count_char_hit, !count_char_free by assumption. reflexivity. }
      rewrite Hcount.
      assert (Hc0 : count_char "," ip = O).
      { change (T ",") with [","%char] in Ec. rewrite contains1_existsb, count_char_existsb in Ec.
        rewrite count_char_app in Ec. destruct (count_char "," ip); [reflexivity|discriminate Ec]. }
      rewrite (remove_char_count0 _ _ Hc0) in Hdig |- *. unfold float_or_zero.
      rewrite (py_float_digits _ _ Hdig Hdp Hne). reflexivity. }
  split; [exact Hbri|]. rewrite (parse_amount_agree _ Hns). exact Hbri.
Qed.

Lemma parse_amount_comma_thousands_witness :
  (forallb (fun c => is_digit c || (c =? ",")%char) (T "1,234,567") = true /\
   forallb is_digit (T "89") = true /\ T "89" <> []) /\
  parse_amount (T "1,234,567.89") = 123456789 # 100.
Proof.
  assert (H1 : forallb (fun c => is_digit c || (c =? ",")%char) (T "1,234,567") = true) by reflexivity.
  assert (H2 : forallb is_digit (T "89") = true) by reflexivity.
  assert (H3 : T "89" <> []) by discriminate.
  split; [tauto|].
  exact (proj1 (parse_amount_comma_thousands (T "1,234,567") (T "89") H1 H2 H3)).
Defined.

(** X6: on a token made of digits, commas and periods (the balance-summary
    figures are [split()] tokens of a [[\d,\.]+] group), the [parse_amount]
    of [app.py] returns what the one of [bri_streamlit_app.py] returns. *)
Theorem parse_amount_copies_agree (s : text) :
  forallb (fun c => is_digit c || (c =? ",")%char || (c =? ".")%char) s = true ->
  AppHeader.parse_amount s = parse_amount s.
Proof.
  intro H. apply parse_amount_agree.
  apply forallb_forall. intros c Hc. apply (proj1 (forallb_forall _ s) H) in Hc.
  apply negb_true_iff.
  destruct (is_digit c) eqn:Ed; [|destruct ((c =? ",")%char) eqn:Ec; [|destruct ((c =? ".")%char) eqn:Ep]].
  - unfold is_digit, is_space, code in *. apply andb_true_iff in Ed as [E1 E2].
    apply Nat.leb_le in E1. apply Nat.leb_le in E2.
    destruct ((9 <=? nat_of_ascii c) && (nat_of_ascii c <=? 13)) eqn:F1;
      [apply andb_true_iff in F1 as [_ F1]; apply Nat.leb_le in F1; lia|].
    destruct ((28 <=? nat_of_ascii c) && (nat_of_ascii c <=? 32)) eqn:F2;
      [apply andb_true_iff in F2 as [_ F2]; apply Nat.leb_le in F2; lia|reflexivity].
  - apply Ascii.eqb_eq in Ec. subst c. reflexivity.
  - apply Ascii.eqb_eq in Ep. subst c. reflexivity.
  - cbn [orb] in Hc. discriminate Hc.
Qed.

Lemma parse_amount_copies_agree_witness :
  forallb (fun c => is_digit c || (c =? ",")%char || (c =? ".")%char) (T "1.234.") = true /\
  AppHeader.parse_amount (T "1.234.") = parse_amount (T "1.234.").
Proof.
  assert (H : forallb (fun c => is_digit c || (c =? ",")%char || (c =? ".")%char) (T "1.234.") = true)
    by reflexivity.
  split; [exact H|]. exact (parse_amount_copies_agree (T "1.234.") H).
Defined.

(* ================================================================= *)
(** ** The anchor pattern of [app.py] *)

Lemma zero_width_none (fl : flags) (inp : text) (r : regex) :
  zero_width r = true ->
  forall f st k, (forall st', ms_pos st' = ms_pos st -> k st' = None) -> m fl inp f r st k = None.
Proof.
  induction r; intros Hz f st k Hk; destruct f as [|f]; try reflexivity; cbn [zero_width] in Hz;
    try discriminate Hz.
  - apply Hk. reflexivity.
  - apply andb_true_iff in Hz as [Ha Hb]. cbn [m].
    apply (IHr1 Ha). intros st' Hst'. apply (IHr2 Hb). intros st'' Hst''. apply Hk. congruence.
  - cbn [m]. destruct (_ || _); [apply Hk; reflexivity|reflexivity].
Qed.

Lemma lead_class_none (fl : flags) (inp : text) (r : regex) (neg : bool) (p : ascii -> bool) :
  lead_class r = Some (neg, p) ->
  forall f st k,
  match char_at inp (ms_pos st) with Some c => class_ok fl neg p c = false | None => True end ->
  m fl inp f r st k = None.
Proof.
  induction r; intros Hl f st k Hc; destruct f as [|f]; try reflexivity; cbn [lead_class] in Hl;
    try discriminate Hl.
  - injection Hl as -> ->. cbn [m]. destruct (char_at inp (ms_pos st)); [rewrite Hc|]; reflexivity.
  - cbn [m]. destruct (zero_width r1) eqn:Ez.
    + apply (zero_width_none fl inp r1 Ez). intros st' Hst'.
      apply (IHr2 Hl). rewrite Hst'. exact Hc.
    + apply (IHr1 Hl), Hc.
  - cbn [m]. apply (IHr Hl), Hc.
Qed.

Lemma app_anchor_lead :
  lead_class (rx "^\\d{2}/\\d{2}/\\d{2}\\s+\\d{2}:\\d{2}:\\d{2}") = Some (false, fun x => (x =? "\")%char).
Proof. vm_compute. reflexivity. Qed.

Lemma app_anchor_backslash (c : ascii) (line : text) :
  c <> "\"%char -> App.anchor (c :: line) = false.
Proof.
  intro Hc. unfold App.anchor, re_match, match_at.
  rewrite (lead_class_none _ _ _ _ _ app_anchor_lead); [reflexivity|].
  cbn. unfold class_ok. cbn [f_ci NOFLAG andb orb xorb].
  destruct (c =? "\")%char eqn:E; [apply Ascii.eqb_eq in E; contradiction|reflexivity].
Qed.

Lemma In_split_on_aux (sep s cur : text) (k : nat) (l : text) (x : ascii) :
  In l (split_on_aux sep s cur k) -> In x l -> In x s \/ In x cur.
Proof.
  revert cur k. induction s as [|c s IH]; intros cur k Hl Hx.
  - destruct Hl as [<-|[]]. right. apply in_rev, Hx.
  - cbn [split_on_aux] in Hl. destruct k as [|k].
    + destruct (prefixb sep (c :: s)).
      * destruct Hl as [<-|Hl]; [right; apply in_rev, Hx|].
        destruct (IH _ _ Hl Hx) as [H|[]]. left. right. exact H.
      * destruct (IH _ _ Hl Hx) as [H|[<-|H]]; [left; right; exact H|left; left; reflexivity|right; exact H].
    + destruct (IH _ _ Hl Hx) as [H|H]; [left; right; exact H|right; exact H].
Qed.

Lemma app_line_no_backslash (l : text) :
  (forall c, In c l -> c <> "\"%char) -> App.e_line l = None /\ App.cms_line l = None.
Proof.
  intro H. unfold App.e_line, App.cms_line. cbv zeta.
  destruct (strip l) as [|c r] eqn:E; [split; reflexivity|].
  assert (Hc : c <> "\"%char) by (apply H, (In_strip c l); rewrite E; left; reflexivity).
  rewrite (app_anchor_backslash c r Hc). split; reflexivity.
Qed.

Lemma app_parsers_empty (txt : text) :
  (forall c, In c txt -> c <> "\"%char) ->
  App.extract_transactions txt = [] /\ App.extract_cms_transactions txt = [].
Proof.
  intro H. unfold App.extract_transactions, App.extract_cms_transactions, app_lines.
  assert (Hl : forall l, In l (split_on (T "\n") txt) -> App.e_line l = None /\ App.cms_line l = None).
  { intros l Hin. apply app_line_no_backslash. intros c Hc.
    destruct (In_split_on_aux _ _ _ _ _ _ Hin Hc) as [Hc'|[]]. exact (H c Hc'). }
  induction (split_on (T "\n") txt) as [|l ls IH]; [split; reflexivity|].
  cbn [flat_map]. destruct (Hl l (or_introl eq_refl)) as [-> ->].
  apply IH. intros l' Hl'. apply Hl. right. exact Hl'.
Qed.

(** X7: the transaction parsers of [app.py] never return a transaction
    for a text without a backslash character: their date anchor, written
    with doubled backslashes in a raw string, requires a line that starts
    with a backslash. *)
Theorem app_parsers_need_backslash (txt : text) :
  (forall c, In c txt -> c <> "\"%char) ->
  App.extract_transactions txt = [] /\ App.extract_cms_transactions txt = [].
Proof. exact (app_parsers_empty txt). Qed.

Lemma app_parsers_need_backslash_witness :
  let txt := T "01/03/24 10:15:00 TRANSFER 1234567 100.00 200.00 300.00" in
  (forall c, In c txt -> c <> "\"%char) /\
  App.extract_transactions txt = [] /\ length (Bri.extract_transactions txt) = 1%nat.
Proof.
  intro txt.
  assert (H : forall c, In c txt -> c <> "\"%char).
  { assert (Hf : forallb (fun c => negb (c =? "\")%char) txt = true) by (vm_compute; reflexivity).
    intros c Hc. apply Ascii.eqb_neq, negb_true_iff, (proj1 (forallb_forall _ _) Hf c Hc). }
  split; [exact H|]. split.
  - exact (proj1 (app_parsers_need_backslash txt H)).
  - vm_compute. reflexivity.
Defined.

(** X8: [parse_bri_statement] of [app.py], on a text without a backslash
    character, returns the account dict and summary of the CMS header
    parsers, an empty transactions frame, an empty partner table and no
    statistics. *)
Theorem app_statement_without_backslash (txt : text) :
  (forall c, In c txt -> c <> "\"%char) ->
  AppMain.parse_bri_statement txt
  = Ok (Output (AppHeader.extract_cms_account_info txt) (AppHeader.extract_cms_summary txt)
               (Frame [] []) [] None).
Proof.
  intro H. destruct (app_parsers_empty txt H) as [He Hc].
  unfold AppMain.parse_bri_statement. destruct (AppHeader.extract_personal_info txt).
  rewrite He, Hc. reflexivity.
Qed.

Lemma app_statement_without_backslash_witness :
  let txt := T "01/03/24 10:15:00 TRANSFER 1234567 100.00 200.00 300.00" in
  (forall c, In c txt -> c <> "\"%char) /\
  AppMain.parse_bri_statement txt
  = Ok (Output (AppHeader.extract_cms_account_info txt) (AppHeader.extract_cms_summary txt)
               (Frame [] []) [] None).
Proof.
  intro txt.
  assert (H : forall c, In c txt -> c <> "\"%char).
  { assert (Hf : forallb (fun c => negb (c =? "\")%char) txt = true) by (vm_compute; reflexivity).
    intros c Hc. apply Ascii.eqb_neq, negb_true_iff, (proj1 (forallb_forall _ _) Hf c Hc). }
  split; [exact H|]. exact (app_statement_without_backslash txt H).
Defined.

(* ================================================================= *)
(** ** File names *)

Lemma rfind_aux_cases (c : ascii) (s : text) (i best : Z) :
  rfind_aux c s i best = best \/
  exists n, rfind_aux c s i best = (i + Z.of_nat n)%Z /\ nth_error s n = Some c.
Proof.
  revert i best. induction s as [|x s IH]; intros i best; [left; reflexivity|].
  cbn [rfind_aux]. destruct (IH (i + 1)%Z (if (x =? c)%char then i else best)) as [E|[n [E Hn]]].
  - rewrite E. destruct (x =? c)%char eqn:Ex; [right|left; reflexivity].
    exists O. apply Ascii.eqb_eq in Ex. subst x. split; [lia|reflexivity].
  - right. exists (S n). split; [rewrite E; lia|exact Hn].
Qed.

Lemma splitext_root_prefix (p : text) :
  exists ext, p = splitext_root p ++ ext /\ (ext = [] \/ exists e, ext = "."%char :: e).
Proof.
  unfold splitext_root, rfind.
  destruct (rfind_aux_cases "." p 0 (-1)) as [E|[n [E Hn]]]; rewrite E.
  - exists []. rewrite app_nil_r. split; [reflexivity|left; reflexivity].
  - replace (0 + Z.of_nat n <? 0)%Z with false by (symmetry; apply Z.ltb_ge; lia).
    rewrite Z.add_0_l, Nat2Z.id.
    destruct (forallb _ (firstn n p)); [exists []; rewrite app_nil_r; split; [reflexivity|left; reflexivity]|].
    apply nth_error_split in Hn as [l1 [l2 [-> Hl]]].
    exists ("."%char :: l2). subst n. rewrite firstn_app, firstn_all, Nat.sub_diag, firstn_O, app_nil_r.
    split; [reflexivity|right; exists l2; reflexivity].
Qed.

(** X9: in [bri_streamlit_app.py], a file name containing a slash or a
    backslash makes [extract_filename_id], and so [parse_bri_statement]
    whatever the text, raise [NameError]: the module never imports
    [Path]. *)
Theorem filename_with_separator_raises (fn : text) :
  existsb (fun c => (c =? "/")%char || (c =? "\")%char) fn = true ->
  BriMain.extract_filename_id fn = Raise (NameError "Path") /\
  forall txt, BriMain.parse_bri_statement fn txt = Raise (NameError "Path").
Proof.
  intro H. assert (E : BriMain.extract_filename_id fn = Raise (NameError "Path")).
  { unfold BriMain.extract_filename_id. rewrite H. reflexivity. }
  split; [exact E|]. intro txt. unfold BriMain.parse_bri_statement. rewrite E. reflexivity.
Qed.

Lemma filename_with_separator_raises_witness :
  existsb (fun c => (c =? "/")%char || (c =? "\")%char) (T "data/statement2025.pdf") = true /\
  BriMain.parse_bri_statement (T "data/statement2025.pdf") [] = Raise (NameError "Path").
Proof.
  assert (H : existsb (fun c => (c =? "/")%char || (c =? "\")%char) (T "data/statement2025.pdf") = true)
    by reflexivity.
  split; [exact H|]. exact (proj2 (filename_with_separator_raises _ H) []).
Defined.

(** X10: in [bri_streamlit_app.py], for a file name without a slash or a
    backslash, [extract_filename_id] returns a prefix of the name, and
    what it cuts off is empty or starts with a period (the extension). *)
Theorem filename_id_is_prefix (fn : text) :
  existsb (fun c => (c =? "/")%char || (c =? "\")%char) fn = false ->
  exists root ext, BriMain.extract_filename_id fn = Ok root /\ fn = root ++ ext /\
                   (ext = [] \/ exists e, ext = "."%char :: e).
Proof.
  intro H. destruct (splitext_root_prefix fn) as [ext [E Hx]].
  exists (splitext_root fn), ext. unfold BriMain.extract_filename_id. rewrite H. auto.
Qed.

Lemma filename_id_is_prefix_witness :
  existsb (fun c => (c =? "/")%char || (c =? "\")%char) (T "rekening.2025.pdf") = false /\
  BriMain.extract_filename_id (T "rekening.2025.pdf") = Ok (T "rekening.2025").
Proof.
  assert (H : existsb (fun c => (c =? "/")%char || (c =? "\")%char) (T "rekening.2025.pdf") = false)
    by reflexivity.
  split; [exact H|].
  destruct (filename_id_is_prefix _ H) as (root & ext & E & _). rewrite E.
  unfold BriMain.extract_filename_id in E. rewrite H in E. injection E as <-. vm_compute. reflexivity.
Defined.

(* ================================================================= *)
(** ** The partner summary table *)

Lemma qsum_one {A} (l : list A) : qsum (fun _ => 1) l == inject_Z (Z.of_nat (length l)).
Proof.
  induction l as [|x l IH]; [reflexivity|].
  rewrite qsum_cons, IH. cbn [length]. rewrite Nat2Z.inj_succ. unfold Z.succ.
  rewrite inject_Z_plus. change (inject_Z 1) with 1. ring.
Qed.

Lemma qsum_nat {A} (h : A -> nat) (l : list A) :
  qsum (fun x => inject_Z (Z.of_nat (h x))) l == inject_Z (Z.of_nat (list_sum (map h l))).
Proof.
  induction l as [|x l IH]; [reflexivity|].
  rewrite qsum_cons, IH. cbn [map list_sum fold_right].
  rewrite Nat2Z.inj_add, inject_Z_plus. reflexivity.
Qed.

Lemma partner_counts_total (l : list row) :
  list_sum (map (fun k => length (filter (partner_is k) l))
                (unique (flat_map (fun r => option_list (r_partner r)) l)))
  = length (filter attributed l).
Proof.
  apply Nat2Z.inj, inject_Z_injective.
  set (U := unique (flat_map (fun r => option_list (r_partner r)) l)).
  transitivity (qsum (fun k => inject_Z (Z.of_nat (length (filter (partner_is k) l)))) U).
  { symmetry. apply (qsum_nat (fun k => length (filter (partner_is k) l))). }
  transitivity (qsum (fun k => qsum (fun _ => 1) (filter (partner_is k) l)) U).
  { apply qsum_ext. intros k _. symmetry. apply qsum_one. }
  transitivity (qsum (fun _ => 1) (filter attributed l)); [apply partner_sums_total|apply qsum_one].
Qed.

Lemma In_partner_names (l : list row) (n : text) :
  In n (flat_map (fun r => option_list (r_partner r)) l) <-> exists r, In r l /\ r_partner r = Some n.
Proof.
  rewrite in_flat_map. split.
  - intros [r [Hr Hn]]. exists r. split; [exact Hr|].
    destruct (r_partner r); cbn [option_list In] in Hn; [destruct Hn as [->|[]]; reflexivity|destruct Hn].
  - intros [r [Hr Hn]]. exists r. split; [exact Hr|]. rewrite Hn. left. reflexivity.
Qed.

Lemma HdRel_ins_desc {A} (key : A -> Q) (y x : A) (l : list A) :
  key x <= key y -> HdRel (fun a b => key b <= key a) y l ->
  HdRel (fun a b => key b <= key a) y (ins_desc key x l).
Proof.
  intros Hxy Hl. destruct l as [|z l]; cbn [ins_desc]; [constructor; exact Hxy|].
  destruct (qlt (key z) (key x)); constructor; [exact Hxy|]. inversion Hl; assumption.
Qed.

Lemma ins_desc_sorted {A} (key : A -> Q) (x : A) (l : list A) :
  Sorted (fun a b => key b <= key a) l -> Sorted (fun a b => key b <= key a) (ins_desc key x l).
Proof.
  induction l as [|y l IH]; intro H; cbn [ins_desc]; [repeat constructor|].
  destruct (qlt (key y) (key x)) eqn:E.
  - constructor; [exact H|]. constructor. apply qlt_spec in E. apply Qlt_le_weak, E.
  - apply qlt_false, Qnot_lt_le in E. inversion H as [|? ? Hs Hr]; subst.
    constructor; [apply IH, Hs|]. apply HdRel_ins_desc; assumption.
Qed.

Lemma sort_desc_sorted {A} (key : A -> Q) (l : list A) :
  Sorted (fun a b => key b <= key a) (sort_desc key l).
Proof.
  unfold sort_desc.
  assert (G : forall acc, Sorted (fun a b => key b <= key a) acc ->
              Sorted (fun a b => key b <= key a) (fold_left (fun acc x => ins_desc key x acc) l acc)).
  { induction l as [|x l IH]; intros acc Hacc; [exact Hacc|]. apply IH, ins_desc_sorted, Hacc. }
  apply G. constructor.
Qed.

(** X11: when the frame has a [partner_name] column and a known pair of
    debit/credit columns, [create_partner_summary_table] has exactly one
    row per partner name found in the frame, with no name twice, and its
    [Total_Transactions] counts add up to the number of attributed
    transactions. *)
Theorem partner_summary_one_row_per_partner (f : frame) :
  mem (T "partner_name") (cols f) = true -> amount_cols_known (cols f) = true ->
  NoDup (map ps_partner (create_partner_summary_table f)) /\
  (forall n, In n (map ps_partner (create_partner_summary_table f))
             <-> exists r, In r (rows f) /\ r_partner r = Some n) /\
  list_sum (map ps_total (create_partner_summary_table f)) = length (filter attributed (rows f)).
Proof.
  intros Hp Ha. unfold create_partner_summary_table.
  rewrite Hp. destruct f as [cs rs]; cbn [cols rows] in *.
  destruct rs as [|r0 rs0].
  { split; [constructor|]. split; [|reflexivity]. intro n. split; [intros []|intros (r & [] & _)]. }
  destruct cs as [|c0 cs0]; [discriminate Hp|].
  cbn [frame_empty cols rows orb negb].
  assert (Hin : forall n, (exists r, In r (r0 :: rs0) /\ r_partner r = Some n)
                          <-> exists r, In r (filter attributed (r0 :: rs0)) /\ r_partner r = Some n).
  { intro n. split; intros (r & Hr & Hn); exists r; (split; [|exact Hn]).
    - apply filter_In. split; [exact Hr|]. unfold attributed. rewrite Hn. reflexivity.
    - apply filter_In in Hr as [Hr _]. exact Hr. }
  destruct (filter attributed (r0 :: rs0)) as [|p0 pt] eqn:Hpt.
  { split; [constructor|]. split; [|reflexivity]. intro n. rewrite Hin.
    split; [intros []|intros (r & [] & _)]. }
  rewrite Ha. cbn [negb].
  assert (Hid : filter attributed (p0 :: pt) = p0 :: pt) by (rewrite <- Hpt; apply filter_twice).
  set (U := unique (flat_map (fun r => option_list (r_partner r)) (p0 :: pt))).
  set (mk := fun partner : text =>
         PSum partner (qsum r_credit (filter (partner_is partner) (p0 :: pt)))
              (qsum r_debit (filter (partner_is partner) (p0 :: pt)))
              (count_pos r_credit (filter (partner_is partner) (p0 :: pt)))
              (count_pos r_debit (filter (partner_is partner) (p0 :: pt)))
              (length (filter (partner_is partner) (p0 :: pt)))).
  pose proof (sort_desc_perm (fun p => ps_credit p + ps_debit p) (map mk U)) as Hperm.
  assert (HU : map ps_partner (map mk U) = U).
  { rewrite map_map. apply map_id. }
  split; [|split].
  - apply (Permutation_NoDup (Permutation_map ps_partner (Permutation_sym Hperm))).
    rewrite HU. apply NoDup_unique.
  - intro n. rewrite Hin. split.
    + intro H. apply (Permutation_in _ (Permutation_map ps_partner Hperm)) in H.
      rewrite HU in H. unfold U in H. apply In_unique, In_partner_names in H. exact H.
    + intro H. apply (Permutation_in _ (Permutation_map ps_partner (Permutation_sym Hperm))).
      rewrite HU. unfold U. apply In_unique, In_partner_names, H.
  - rewrite (Permutation_list_sum (Permutation_map ps_total Hperm)), map_map.
    rewrite <- Hid. apply partner_counts_total.
Qed.

Lemma partner_summary_one_row_per_partner_witness :
  let f := Frame [T "Remark"; T "Debit"; T "Credit"; T "partner_name"]
                 [Row (T "a") 5 0 (Some (T "ZETA")) (T "DEBIT") 5;
                  Row (T "b") 0 7 (Some (T "ALPHA")) (T "CREDIT") 7;
                  Row (T "c") 2 0 (Some (T "ZETA")) (T "DEBIT") 2;
                  Row (T "d") 3 0 None (T "DEBIT") 3] in
  (mem (T "partner_name") (cols f) = true /\ amount_cols_known (cols f) = true) /\
  list_sum (map ps_total (create_partner_summary_table f)) = 3%nat.
Proof.
  intro f.
  assert (H1 : mem (T "partner_name") (cols f) = true) by (vm_compute; reflexivity).
  assert (H2 : amount_cols_known (cols f) = true) by (vm_compute; reflexivity).
  split; [tauto|].
  rewrite (proj2 (proj2 (partner_summary_one_row_per_partner f H1 H2))). vm_compute. reflexivity.
Defined.

(** X12: the rows of [create_partner_summary_table] come in non-increasing
    order of [Total_Credit + Total_Debit]. *)
Theorem partner_summary_sorted (f : frame) :
  Sorted (fun a b => ps_credit b + ps_debit b <= ps_credit a + ps_debit a)
         (create_partner_summary_table f).
Proof.
  unfold create_partner_summary_table.
  destruct (frame_empty f || negb (mem (T "partner_name") (cols f))); [constructor|].
  destruct (filter attributed (rows f)); [constructor|].
  destruct (negb (amount_cols_known (cols f))); [constructor|].
  apply (sort_desc_sorted (fun p => ps_credit p + ps_debit p)).
Qed.

(* ================================================================= *)
(** ** The per-(partner, direction) aggregate *)

Lemma pair_eqb_eq (a b : text * text) : pair_eqb a b = true <-> a = b.
Proof.
  destruct a as [a1 a2], b as [b1 b2]. unfold pair_eqb. cbn [fst snd].
  rewrite andb_true_iff, !text_eqb_eq. split; [intros [-> ->]; reflexivity|intro E; injection E; tauto].
Qed.

Lemma pair_eqb_refl (a : text * text) : pair_eqb a a = true.
Proof. apply pair_eqb_eq. reflexivity. Qed.

Lemma In_unique_pairs (x : text * text) l : In x (unique_pairs l) <-> In x l.
Proof.
  induction l as [|y l IH]; simpl; [tauto|].
  rewrite filter_In, negb_true_iff, IH. split.
  - intros [H|[H _]]; auto.
  - intros [H|H]; [auto|].
    destruct (pair_eqb y x) eqn:E; [left; apply pair_eqb_eq; exact E|right; auto].
Qed.

Lemma NoDup_unique_pairs l : NoDup (unique_pairs l).
Proof.
  induction l as [|y l IH]; simpl; constructor.
  - rewrite filter_In, pair_eqb_refl. simpl. intros [_ H]; discriminate.
  - apply NoDup_filter; exact IH.
Qed.

Lemma insert_sorted_perm {A} (lt : A -> A -> bool) x l : Permutation (insert_sorted lt x l) (x :: l).
Proof.
  induction l as [|y l IH]; simpl; [reflexivity|].
  destruct (lt x y); [reflexivity|]. rewrite IH. apply perm_swap.
Qed.

Lemma sort_by_perm {A} (lt : A -> A -> bool) l : Permutation (sort_by lt l) l.
Proof.
  unfold sort_by. induction l as [|x l IH]; simpl; [reflexivity|].
  rewrite insert_sorted_perm, IH. reflexivity.
Qed.

Lemma list_sum_map_add {A} (f g : A -> nat) (l : list A) :
  list_sum (map (fun x => f x + g x)%nat l) = (list_sum (map f l) + list_sum (map g l))%nat.
Proof. induction l as [|x l IH]; simpl; [reflexivity|]. rewrite IH. lia. Qed.

Lemma indicator_absent (a : text * text) (Ks : list (text * text)) :
  ~ In a Ks -> list_sum (map (fun k => if pair_eqb a k then 1 else 0)%nat Ks) = O.
Proof.
  induction Ks as [|k Ks IH]; intro H; [reflexivity|].
  cbn [map]. change (list_sum (?x :: ?l)) with (x + list_sum l)%nat.
  destruct (pair_eqb a k) eqn:E.
  - apply pair_eqb_eq in E. subst k. contradiction H. left. reflexivity.
  - rewrite IH; [reflexivity|]. intro Hin. apply H. right. exact Hin.
Qed.

Lemma indicator_once (a : text * text) (Ks : list (text * text)) :
  NoDup Ks -> In a Ks -> list_sum (map (fun k => if pair_eqb a k then 1 else 0)%nat Ks) = 1%nat.
Proof.
  induction Ks as [|k Ks IH]; intros Hnd Hin; [destruct Hin|]. inversion Hnd as [|? ? Hk Hnd']; subst.
  cbn [map]. change (list_sum (?x :: ?l)) with (x + list_sum l)%nat. destruct (pair_eqb a k) eqn:E.
  - apply pair_eqb_eq in E. subst k. rewrite indicator_absent by exact Hk. reflexivity.
  - destruct Hin as [->|Hin]; [rewrite pair_eqb_refl in E; discriminate E|].
    rewrite IH by assumption. reflexivity.
Qed.

Lemma keys_count (key : row -> text * text) (Ks : list (text * text)) (l : list row) :
  NoDup Ks -> (forall r, In r l -> In (key r) Ks) ->
  list_sum (map (fun k => length (filter (fun r => pair_eqb (key r) k) l)) Ks) = length l.
Proof.
  intro Hnd. induction l as [|x l IH]; intro Hin.
  - cbn [filter length]. clear Hnd Hin. induction Ks as [|k Ks IHK]; [reflexivity|]. exact IHK.
  - rewrite (map_ext _ (fun k => (if pair_eqb (key x) k then 1 else 0) +
                                  length (filter (fun r => pair_eqb (key r) k) l))%nat).
    2:{ intro k. cbn [filter]. destruct (pair_eqb (key x) k); reflexivity. }
    rewrite list_sum_map_add, indicator_once, IH; [reflexivity| |exact Hnd|].
    + intros r Hr. apply Hin. right. exact Hr.
    + apply Hin. left. reflexivity.
Qed.

Lemma group_partner_type_facts (pt : list row) :
  (forall r, In r pt -> r_amount r == r_debit r + r_credit r) ->
  NoDup (map (fun g => (g_partner g, g_type g)) (group_partner_type pt)) /\
  (forall g, In g (group_partner_type pt) -> g_amount g == g_debit g + g_credit g) /\
  list_sum (map g_count (group_partner_type pt)) = length pt.
Proof.
  intro Hamt. unfold group_partner_type. cbv zeta.
  set (key := fun r : row => (match r_partner r with Some p => p | None => [] end, r_type r)).
  set (K := sort_by pair_ltb (unique_pairs (map key pt))).
  assert (HK : NoDup K).
  { apply (Permutation_NoDup (Permutation_sym (sort_by_perm _ _))), NoDup_unique_pairs. }
  split; [|split].
  - rewrite map_map. cbn [g_partner g_type]. rewrite (map_ext _ (fun k => k)), map_id; [exact HK|].
    intros [a b]. reflexivity.
  - intros g Hg. apply in_map_iff in Hg as [k [<- _]]. cbn [g_amount g_debit g_credit].
    rewrite <- qsum_plus. apply qsum_ext. intros r Hr. apply filter_In in Hr as [Hr _]. apply Hamt, Hr.
  - rewrite map_map. cbn [g_count].
    assert (Hin : forall r, In r pt -> In (key r) K).
    { intros r Hr. unfold K. apply In_sort_by, In_unique_pairs, in_map, Hr. }
    exact (keys_count key K pt HK Hin).
Qed.

Lemma enrich_amount (attribute : text -> option text) (f : frame) (r : row) :
  In r (rows (enrich attribute f)) -> r_amount r == r_debit r + r_credit r.
Proof.
  unfold enrich. cbn [rows]. intro H. apply in_map_iff in H as [r0 [<- _]]. reflexivity.
Qed.

(** X13: when [analyze_bri_partners_unified] returns the aggregate, it has
    one row per (partner, direction) pair, the [transaction_count]s add up
    to the number of attributed transactions, and the rows come in
    non-increasing order of [amount]. *)
Theorem analyze_groups_consistent (attribute : text -> option text) (f : frame)
    (cs : list text) (gs : list gsum) (ps : list psum) :
  analyze_bri_partners_unified attribute f = Some (RGroups cs gs, ps) ->
  NoDup (map (fun g => (g_partner g, g_type g)) gs) /\
  list_sum (map g_count gs) = length (filter attributed (rows (enrich attribute f))) /\
  Sorted (fun a b => g_amount b <= g_amount a) gs.
Proof.
  unfold analyze_bri_partners_unified.
  destruct (frame_empty f); [intro H; discriminate H|].
  destruct (detect_bri_format (cols f)); [| |intro H; discriminate H];
    (destruct (negb _); [intro H; discriminate H|]);
    (destruct (filter attributed (rows (enrich attribute f))) as [|p0 pt] eqn:Hpt;
       [intro H; discriminate H|]);
    intro H; injection H as _ <- _;
    (assert (Hamt : forall r, In r (p0 :: pt) -> r_amount r == r_debit r + r_credit r)
       by (intros r Hr; rewrite <- Hpt in Hr; apply filter_In in Hr as [Hr _];
           exact (enrich_amount attribute f r Hr)));
    destruct (group_partner_type_facts _ Hamt) as (H1 & H2 & H3);
    pose proof (sort_desc_perm g_amount (group_partner_type (p0 :: pt))) as Hp;
    (split; [|split]).
  all: try (apply (Permutation_NoDup (Permutation_map _ (Permutation_sym Hp))), H1).
  all: try (rewrite (Permutation_list_sum (Permutation_map g_count Hp)); exact H3).
  all: apply sort_desc_sorted.
Qed.

Lemma analyze_groups_consistent_witness :
  let f := frame_of_c [CTxn (T "01/03/24") (T "TRANSFER BUDI SANTOSA") 100 0 500;
                       CTxn (T "02/03/24") (T "TRANSFER BUDI SANTOSA") 0 250 750;
                       CTxn (T "03/03/24") (T "BIAYA ADM") 5 0 745] in
  match analyze_bri_partners_unified BriPartner.extract_partner_name_bri f with
  | Some (RGroups cs gs, ps) =>
      list_sum (map g_count gs) = length (filter attributed (rows (enrich BriPartner.extract_partner_name_bri f)))
  | _ => False
  end.
Proof.
  intro f.
  destruct (analyze_bri_partners_unified BriPartner.extract_partner_name_bri f)
    as [[[f'|cs gs] ps]|] eqn:E.
  - vm_compute in E. discriminate E.
  - exact (proj1 (proj2 (analyze_groups_consistent _ f cs gs ps E))).
  - vm_compute in E. discriminate E.
Defined.

(* ================================================================= *)
(** ** The header dicts *)

Lemma keys_map_set {V} (k : text) (v : V) (l : list (text * V)) :
  keys (map (fun e => if text_eqb (fst e) k then (k, v) else e) l) = keys l.
Proof.
  induction l as [|[a x] l IH]; [reflexivity|].
  cbn [map keys fst] in *. unfold keys in *. cbn [map fst].
  destruct (text_eqb a k) eqn:E; cbn [fst]; rewrite IH; [|reflexivity].
  apply text_eqb_eq in E. now subst.
Qed.

Lemma existsb_keys {V} (k : text) (l : list (text * V)) :
  existsb (fun e => text_eqb (fst e) k) l = existsb (fun a => text_eqb a k) (keys l).
Proof. unfold keys. induction l as [|e l IH]; cbn; [reflexivity|]. now rewrite IH. Qed.

Lemma dset_shape (K : list text) (k : text) (v : option text) (d : sdict) :
  existsb (fun a => text_eqb a k) K = true -> text_eqb (T "Bank") k = false ->
  header_shape K d -> header_shape K (dset k v d).
Proof.
  intros HK HB [rest [-> Hr]]. exists (map (fun e => if text_eqb (fst e) k then (k, v) else e) rest).
  unfold dset, bank_entry. change (existsb (fun e => text_eqb (fst e) k) ((T "Bank", Some (T "BRI")) :: rest))
    with (text_eqb (T "Bank") k || existsb (fun e => text_eqb (fst e) k) rest).
  rewrite HB, existsb_keys, Hr, HK. cbn [orb map fst].
  rewrite HB. split; [reflexivity|]. now rewrite keys_map_set.
Qed.

Lemma bri_nama_block_shape txt d :
  header_shape personal_keys d -> header_shape personal_keys (BriHeader.nama_block txt d).
Proof.
  intros H. unfold BriHeader.nama_block.
  repeat match goal with |- context [match ?x with _ => _ end] => destruct x end;
  repeat (apply dset_shape; [vm_compute; reflexivity | vm_compute; reflexivity | ]); exact H.
Qed.

Lemma bri_personal_shape txt : header_shape personal_keys (fst (BriHeader.extract_personal_info txt)).
Proof.
  unfold BriHeader.extract_personal_info.
  assert (H0 : header_shape personal_keys (BriHeader.nama_block txt ((T "Bank", Some (T "BRI")) :: BriHeader.personal_init))).
  { apply bri_nama_block_shape. exists BriHeader.personal_init. split; reflexivity. }
  generalize dependent (BriHeader.nama_block txt ((T "Bank", Some (T "BRI")) :: BriHeader.personal_init)).
  intros d1 H1. cbv zeta. cbn [fst].
  assert (E : existsb (fun k => text_eqb k (T "Account Name")) (keys d1) = true).
  { destruct H1 as [rest [-> Hr]].
    change (keys (bank_entry :: rest)) with (fst bank_entry :: keys rest).
    rewrite Hr. vm_compute. reflexivity. }
  rewrite E.
  repeat match goal with |- context [match ?x with _ => _ end] => destruct x end;
  repeat (apply dset_shape; [vm_compute; reflexivity | vm_compute; reflexivity | ]); exact H1.
Qed.

Lemma app_nama_block_shape txt d :
  header_shape personal_keys d -> header_shape personal_keys (AppHeader.nama_block txt d).
Proof.
  intros H. unfold AppHeader.nama_block.
  repeat match goal with |- context [match ?x with _ => _ end] => destruct x end;
  repeat (apply dset_shape; [vm_compute; reflexivity | vm_compute; reflexivity | ]); exact H.
Qed.

Lemma app_personal_shape txt : header_shape personal_keys (fst (AppHeader.extract_personal_info txt)).
Proof.
  unfold AppHeader.extract_personal_info.
  assert (H0 : header_shape personal_keys (AppHeader.nama_block txt ((T "Bank", Some (T "BRI")) :: BriHeader.personal_init))).
  { apply app_nama_block_shape. exists BriHeader.personal_init. split; reflexivity. }
  generalize dependent (AppHeader.nama_block txt ((T "Bank", Some (T "BRI")) :: BriHeader.personal_init)).
  intros d1 H1. cbv zeta. cbn [fst].
  repeat match goal with |- context [match ?x with _ => _ end] => destruct x end;
  repeat (apply dset_shape; [vm_compute; reflexivity | vm_compute; reflexivity | ]); exact H1.
Qed.

Lemma shape_truthy K d : header_shape K d -> existsb (fun e => AppHeader.truthy (snd e)) d = true.
Proof. intros [rest [-> _]]. reflexivity. Qed.

Lemma app_cms_shape txt : header_shape cms_keys (AppHeader.extract_cms_account_info txt).
Proof.
  unfold AppHeader.extract_cms_account_info.
  assert (H0 : header_shape cms_keys BriHeader.cms_info_init) by (eexists; split; reflexivity).
  cbv zeta.
  match goal with |- header_shape _ (if negb (existsb _ ?D) then _ else _) =>
    assert (HD : header_shape cms_keys D) end.
  { repeat match goal with |- context [match ?x with _ => _ end] => destruct x end;
    repeat (apply dset_shape; [vm_compute; reflexivity | vm_compute; reflexivity | ]); exact H0. }
  rewrite (shape_truthy _ _ HD). exact HD.
Qed.

(** X14: the [personal_info] dict returned by [extract_personal_info]
    (both copies) always holds exactly the key ["Bank"] (value ["BRI"])
    followed by the eleven keys it is created with, in that order: every
    assignment overwrites an existing key, and the ["nama"] key of the
    [bri_streamlit_app.py] copy is never added, since ["Account Name"] is
    always a key. *)
Theorem personal_info_keys_fixed (txt : text) :
  header_shape personal_keys (fst (BriHeader.extract_personal_info txt)) /\
  header_shape personal_keys (fst (AppHeader.extract_personal_info txt)).
Proof. split; [apply bri_personal_shape|apply app_personal_shape]. Qed.

(** X15: the [account_info] dict returned by [extract_cms_account_info] of
    [app.py] always holds exactly the keys ["Bank"] (value ["BRI"]),
    ["Account Name"], ["Account Number"], ["Start Period"] and
    ["End Period"], in that order. *)
Theorem app_cms_account_keys_fixed (txt : text) :
  header_shape cms_keys (AppHeader.extract_cms_account_info txt).
Proof. apply app_cms_shape. Qed.

(* ================================================================= *)
(** ** Statistics and partner table *)

Lemma group_partner_type_names (pt : list row) (n : text) :
  (forall r, In r pt -> attributed r = true) ->
  In n (map g_partner (group_partner_type pt)) <-> In n (flat_map (fun r => option_list (r_partner r)) pt).
Proof.
  intro Hat. unfold group_partner_type. cbv zeta. rewrite map_map. cbn [g_partner].
  rewrite In_partner_names, in_map_iff. split.
  - intros [k [<- Hk]]. apply In_sort_by, In_unique_pairs, in_map_iff in Hk as [r [<- Hr]].
    exists r. split; [exact Hr|]. cbn [fst].
    pose proof (Hat r Hr) as Ha. unfold attributed in Ha.
    destruct (r_partner r); [reflexivity|discriminate Ha].
  - intros [r [Hr Hn]]. exists (n, r_type r). split; [reflexivity|].
    apply In_sort_by, In_unique_pairs, in_map_iff. exists r. split; [|exact Hr].
    rewrite Hn. reflexivity.
Qed.

Lemma NoDup_same_length {A} (a b : list A) :
  NoDup a -> NoDup b -> (forall x, In x a <-> In x b) -> length a = length b.
Proof.
  intros Ha Hb H. apply Nat.le_antisymm; apply NoDup_incl_length; try assumption;
    intros x Hx; apply H; exact Hx.
Qed.

Lemma flat_map_some_cells (gs : list gsum) :
  flat_map (fun '(p, d, c) => match p with Some n => [(n, d, c)] | None => [] end)
           (map (fun g => (Some (g_partner g), g_debit g, g_credit g)) gs)
  = map (fun g => (g_partner g, g_debit g, g_credit g)) gs.
Proof. induction gs as [|g gs IH]; [reflexivity|]. cbn [map flat_map app]. now rewrite IH. Qed.

Lemma first_max_names (g : text -> text * Q) (names : list text) :
  names <> [] -> (forall n, fst (g n) = n) ->
  In (fst (first_max snd (hd ([], 0) (map g names)) (tl (map g names)))) names.
Proof.
  intros Hne Hg. destruct names as [|n0 ns]; [contradiction Hne; reflexivity|].
  change (In (fst (first_max snd (g n0) (map g ns))) (n0 :: ns)).
  destruct (first_max_split snd (g n0) (map g ns)) as (pre & post & Heq & _).
  assert (Hin : In (first_max snd (g n0) (map g ns)) (map g (n0 :: ns))).
  { cbn [map]. rewrite Heq. apply in_or_app. right. left. reflexivity. }
  apply in_map_iff in Hin as (n & Hn & Hin). rewrite <- Hn, Hg. exact Hin.
Qed.

Lemma statistics_of_groups (cs : list text) (g0 : gsum) (gs : list gsum) :
  mem (T "partner_name") cs = true -> amount_cols_known cs = true ->
  exists st, create_partner_statistics_summary (RGroups cs (g0 :: gs)) = Some st /\
    st_partners st = length (unique (map g_partner (g0 :: gs))) /\
    In (st_top_partner st) (map g_partner (g0 :: gs)).
Proof.
  intros Hp Ha. unfold create_partner_statistics_summary, partner_statistics.
  rewrite flat_map_some_cells.
  change (map (fun g => (Some (g_partner g), g_debit g, g_credit g)) (g0 :: gs))
    with ((Some (g_partner g0), g_debit g0, g_credit g0) :: map (fun g => (Some (g_partner g), g_debit g, g_credit g)) gs).
  change (map (fun g => (g_partner g, g_debit g, g_credit g)) (g0 :: gs))
    with ((g_partner g0, g_debit g0, g_credit g0) :: map (fun g => (g_partner g, g_debit g, g_credit g)) gs).
  rewrite Hp, Ha. cbn [negb].
  eexists. split; [reflexivity|]. cbn [st_partners st_top_partner].
  set (h := fun g : gsum => (g_partner g, g_debit g, g_credit g)).
  change ((g_partner g0, g_debit g0, g_credit g0) :: map h gs) with (map h (g0 :: gs)).
  rewrite map_map. split; [reflexivity|].
  change (map (fun x => let '(n, _, _) := h x in n) (g0 :: gs)) with (map g_partner (g0 :: gs)).
  apply In_unique, (In_sort_by text_ltb).
  apply first_max_names; [|intro n; reflexivity].
  intro E. apply (f_equal (@length text)) in E. unfold sort_texts in E.
  rewrite (Permutation_length (sort_by_perm _ _)) in E. discriminate E.
Qed.

Lemma partner_table_facts (df : frame) :
  mem (T "partner_name") (cols df) = true -> amount_cols_known (cols df) = true ->
  length (create_partner_summary_table df)
    = length (unique (flat_map (fun r => option_list (r_partner r)) (filter attributed (rows df)))) /\
  (forall n, In n (map ps_partner (create_partner_summary_table df))
             <-> In n (flat_map (fun r => option_list (r_partner r)) (filter attributed (rows df)))).
Proof.
  intros Hp Ha. unfold create_partner_summary_table.
  rewrite Hp. destruct df as [cs rs]; cbn [cols rows] in *.
  destruct rs as [|r0 rs0]; [split; [reflexivity|intro n; cbn; tauto]|].
  destruct cs as [|c0 cs0]; [discriminate Hp|].
  cbn [frame_empty cols rows orb negb].
  destruct (filter attributed (r0 :: rs0)) as [|p0 pt] eqn:Hpt; [split; [reflexivity|intro n; cbn; tauto]|].
  rewrite Ha. cbn [negb].
  rewrite (Permutation_length (sort_desc_perm _ _)), length_map.
  split; [reflexivity|].
  intro n. rewrite <- (In_unique n (flat_map (fun r => option_list (r_partner r)) (p0 :: pt))).
  set (U := unique (flat_map (fun r => option_list (r_partner r)) (p0 :: pt))).
  split; intro H.
  - apply (Permutation_in _ (Permutation_map ps_partner (sort_desc_perm _ _))) in H.
    rewrite map_map in H. cbn [ps_partner] in H. rewrite map_id in H. exact H.
  - apply (Permutation_in _ (Permutation_map ps_partner (Permutation_sym (sort_desc_perm _ _)))).
    rewrite map_map. cbn [ps_partner]. rewrite map_id. exact H.
Qed.

(** X16: when [analyze_bri_partners_unified] returns the aggregate and the
    partner table, [create_partner_statistics_summary] of the aggregate
    gives a row whose [Total_Partners] is the number of rows of the partner
    table and whose [Top_Partner] is one of the table's partners. *)
Theorem analyze_statistics_match_table (attribute : text -> option text) (f : frame)
    (cs : list text) (gs : list gsum) (ps : list psum) :
  analyze_bri_partners_unified attribute f = Some (RGroups cs gs, ps) ->
  exists st, create_partner_statistics_summary (RGroups cs gs) = Some st /\
    st_partners st = length ps /\
    In (st_top_partner st) (map ps_partner ps).
Proof.
  unfold analyze_bri_partners_unified.
  destruct (frame_empty f); [intro H; discriminate H|].
  destruct (detect_bri_format (cols f)) eqn:Hfmt; [| |intro H; discriminate H];
    (destruct (negb _) eqn:Hcols; [intro H; discriminate H|]);
    (destruct (filter attributed (rows (enrich attribute f))) as [|p0 pt] eqn:Hpt;
       [intro H; discriminate H|]);
    intro H; injection H as <- <- <-.
  all: apply negb_false_iff, andb_true_iff in Hcols as [Hd Hc].
  all: assert (Hen : forall c, mem c (cols f) = true -> mem c (cols (enrich attribute f)) = true)
         by (intros c Hm; unfold enrich; cbn [cols]; apply mem_add_col_keep, mem_add_col_keep, mem_add_col_keep, Hm).
  all: assert (Hp : mem (T "partner_name") (cols (enrich attribute f)) = true)
         by (pose proof (enrich_cols attribute f) as E; cbn [forallb] in E;
             apply andb_true_iff in E as [E _]; exact E).
  all: assert (Ha : amount_cols_known (cols (enrich attribute f)) = true)
         by (unfold amount_cols_known; rewrite (Hen _ Hd), (Hen _ Hc); first [reflexivity|apply orb_true_r]).
  all: destruct (partner_table_facts _ Hp Ha) as (Tn & Tnames); rewrite Hpt in Tn, Tnames.
  all: assert (Hat : forall r, In r (p0 :: pt) -> attributed r = true)
         by (intros r Hr; rewrite <- Hpt in Hr; apply filter_In in Hr as [_ Hr]; exact Hr).
  all: pose proof (sort_desc_perm g_amount (group_partner_type (p0 :: pt))) as Hperm.
  all: destruct (sort_desc g_amount (group_partner_type (p0 :: pt))) as [|g0 gs] eqn:Hgs;
         [apply Permutation_nil, (f_equal (@length gsum)) in Hperm; unfold group_partner_type in Hperm;
          rewrite length_map, (Permutation_length (sort_by_perm _ _)) in Hperm; discriminate Hperm|].
  all: assert (Hnames : forall n, In n (map g_partner (g0 :: gs))
                                  <-> In n (flat_map (fun r => option_list (r_partner r)) (p0 :: pt)))
         by (intro n; rewrite <- (group_partner_type_names _ n Hat);
             split; apply Permutation_in, Permutation_map; [|symmetry]; exact Hperm).
  all: match goal with |- exists st, create_partner_statistics_summary (RGroups ?cs _) = _ /\ _ =>
         destruct (statistics_of_groups cs g0 gs ltac:(vm_compute; reflexivity) ltac:(vm_compute; reflexivity))
           as (st & Hst & Sn & St) end.
  all: exists st; split; [exact Hst|].
  all: split; [|apply Tnames, Hnames, St].
  all: rewrite Sn, Tn; apply NoDup_same_length; try apply NoDup_unique.
  all: intro n; rewrite !In_unique; apply Hnames.
Qed.

Lemma analyze_statistics_match_table_witness :
  let f := frame_of_c [CTxn (T "01/03/24") (T "TRANSFER BUDI SANTOSA") 100 0 500;
                       CTxn (T "02/03/24") (T "TRANSFER BUDI SANTOSA") 0 250 750;
                       CTxn (T "03/03/24") (T "BIAYA ADM") 5 0 745] in
  match analyze_bri_partners_unified BriPartner.extract_partner_name_bri f with
  | Some (RGroups cs gs, ps) =>
      exists st, create_partner_statistics_summary (RGroups cs gs) = Some st /\
                 st_partners st = length ps
  | _ => False
  end.
Proof.
  intro f.
  destruct (analyze_bri_partners_unified BriPartner.extract_partner_name_bri f)
    as [[[f'|cs gs] ps]|] eqn:E.
  - vm_compute in E. discriminate E.
  - destruct (analyze_statistics_match_table _ f cs gs ps E) as (st & H1 & H2 & _).
    exists st. split; [exact H1|exact H2].
  - vm_compute in E. discriminate E.
Defined.
